(** * NosyAgent: the Companion Engagement Engine and the Nudge Scheduler

    A shallow embedding of [src/companion.py], of the settings, brain and
    reminder parts of [src/storage.py], of [src/reminder_scheduler.py], of
    [validate_input] of [src/nosy_bot.py] and of [_chunk_content] of
    [src/semantic_memory.py], followed by the properties of the reflection
    decision engine, the template rotation, the quiet-hours test and the
    nudge scheduler, and by further properties of the code.

    Conventions of the embedding:
    - a Python [str] is a list of characters; a character is a Rocq [ascii],
      read as a code point in U+0000..U+00FF, on which [str.lower] and
      [str.isspace] are given in full;
    - a naive [datetime] is its number of microseconds since the proleptic
      epoch (0001-01-01T00:00:00), a [timedelta] a number of microseconds;
      the range limit of [datetime] (year 9999) is not modelled;
    - [datetime.utcnow()], [datetime.now()], SQLite's [datetime('now')],
      [random.choice] and the answer of the Redis broker are inputs of the
      call, gathered in a record [Env];
    - the SQLite tables are finite maps and lists; storage calls do not
      fail, except the insert of a metric, whose failure the code catches;
    - a template of the cards file is a dict: the key that the code reads by
      subscript is an option, absent when the dict does not have it, the
      keys that it reads by [dict.get] alone are strings, empty when
      absent. *)

From Stdlib Require Import ZArith List Ascii String Bool Lia.
From stdpp Require Import gmap strings list.
From Equations Require Import Equations.
Import ListNotations.

Local Open Scope Z_scope.

(* ===================================================================== *)
(** * Part I: definitions *)
(* ===================================================================== *)

(** ** Python strings *)

Module PyStr.

Abbreviation str := (list ascii).

(** String literal of the source. *)
Definition lit (s : string) : str := list_ascii_of_string s.

Definition code (c : ascii) : nat := nat_of_ascii c.

(** [str.isspace] on one code point below U+0100: TAB..CR, FS..US, SPACE,
    NEL (U+0085) and NBSP (U+00A0). *)
Definition isspace (c : ascii) : bool :=
  let n := code c in
  (((9 <=? n) && (n <=? 13)) || ((28 <=? n) && (n <=? 32))
   || (n =? 133) || (n =? 160))%nat.

(** [str.lower] on one code point below U+0100: A..Z and the Latin-1
    capitals U+00C0..U+00DE (but not the multiplication sign U+00D7). *)
Definition lower_char (c : ascii) : ascii :=
  let n := code c in
  if (((65 <=? n) && (n <=? 90))
      || ((192 <=? n) && (n <=? 222) && negb (n =? 215)))%nat
  then ascii_of_nat (n + 32) else c.

Definition lower (s : str) : str := map lower_char s.

(** [s.lstrip(...)], [s.rstrip(...)], [s.strip(...)] for the set of
    characters recognised by [p]. *)
Fixpoint lstrip_by (p : ascii -> bool) (s : str) : str :=
  match s with
  | [] => []
  | c :: s' => if p c then lstrip_by p s' else s
  end.

Definition rstrip_by (p : ascii -> bool) (s : str) : str :=
  rev (lstrip_by p (rev s)).

Definition strip_by (p : ascii -> bool) (s : str) : str :=
  rstrip_by p (lstrip_by p s).

Definition strip (s : str) : str := strip_by isspace s.
Definition rstrip (s : str) : str := rstrip_by isspace s.

Definition mem_char (chars : str) (c : ascii) : bool :=
  existsb (Ascii.eqb c) chars.

(** [s.strip(chars)] and [s.rstrip(chars)]. *)
Definition strip_chars (chars s : str) : str := strip_by (mem_char chars) s.
Definition rstrip_chars (chars s : str) : str := rstrip_by (mem_char chars) s.

(** [s.split()]: the maximal runs of non-whitespace characters, in order.
    [cur] is the run being read. *)
Fixpoint split_from (cur : str) (s : str) : list str :=
  match s with
  | [] => match cur with [] => [] | _ => [cur] end
  | c :: s' =>
      if isspace c
      then match cur with
           | [] => split_from [] s'
           | _ => cur :: split_from [] s'
           end
      else split_from (cur ++ [c]) s'
  end.

Definition split (s : str) : list str := split_from [] s.

(** [sep.join(parts)]. *)
Fixpoint join (sep : str) (parts : list str) : str :=
  match parts with
  | [] => []
  | [p] => p
  | p :: rest => p ++ sep ++ join sep rest
  end.

Fixpoint str_eqb (a b : str) : bool :=
  match a, b with
  | [], [] => true
  | x :: a', y :: b' => Ascii.eqb x y && str_eqb a' b'
  | _, _ => false
  end.

Fixpoint startswith (s prefix : str) : bool :=
  match prefix, s with
  | [], _ => true
  | p :: prefix', c :: s' => Ascii.eqb p c && startswith s' prefix'
  | _ :: _, [] => false
  end.

(** [needle in s]. *)
Fixpoint contains (s needle : str) : bool :=
  startswith s needle
  || match s with
     | [] => false
     | _ :: s' => contains s' needle
     end.

(** Truth value of a string: non-empty. *)
Definition truthy (s : str) : bool :=
  match s with [] => false | _ => true end.

(** [len(x)] for a string or a list. *)
Definition len {A : Type} (l : list A) : Z := Z.of_nat (length l).

End PyStr.
Import PyStr.

(** ** Python dates and times *)

Module PyTime.

(** A naive [datetime]: microseconds since the epoch. A [timedelta]:
    microseconds. *)
Definition datetime := Z.

Definition us_per_second : Z := 1000000.
Definition us_per_minute : Z := 60 * us_per_second.
Definition us_per_hour : Z := 60 * us_per_minute.
Definition us_per_day : Z := 24 * us_per_hour.

(** [timedelta(days=d, hours=h, minutes=m)]. *)
Definition timedelta (days hours minutes : Z) : Z :=
  days * us_per_day + hours * us_per_hour + minutes * us_per_minute.

(** A [time] object (time of day). *)
Record time := mkTime { hour : Z; minute : Z; second : Z; microsecond : Z }.

(** Comparison of two [time] objects: the tuples
    (hour, minute, second, microsecond) in lexicographic order. *)
Definition time_cmp (a b : time) : comparison :=
  match hour a ?= hour b with
  | Eq => match minute a ?= minute b with
          | Eq => match second a ?= second b with
                  | Eq => microsecond a ?= microsecond b
                  | r => r
                  end
          | r => r
          end
  | r => r
  end.

Definition time_lt (a b : time) : bool :=
  match time_cmp a b with Lt => true | _ => false end.
Definition time_le (a b : time) : bool :=
  match time_cmp a b with Gt => false | _ => true end.
Definition time_ge (a b : time) : bool :=
  match time_cmp a b with Lt => false | _ => true end.

(** [dt.time()]. *)
Definition time_of (dt : datetime) : time :=
  {| hour := (dt mod us_per_day) / us_per_hour;
     minute := (dt mod us_per_hour) / us_per_minute;
     second := (dt mod us_per_minute) / us_per_second;
     microsecond := dt mod us_per_second |}.

(** [dt.replace(second=0, microsecond=0)]. *)
Definition replace_second_microsecond_0 (dt : datetime) : datetime :=
  dt - dt mod us_per_minute.

(** [dt.replace(microsecond=0)]. *)
Definition replace_microsecond_0 (dt : datetime) : datetime :=
  dt - dt mod us_per_second.

(** [dt.replace(hour=h, minute=m)]: the date, the second and the
    microsecond are kept. *)
Definition replace_hour_minute (dt : datetime) (h m : Z) : datetime :=
  (dt - dt mod us_per_day) + h * us_per_hour + m * us_per_minute
  + dt mod us_per_minute.

Definition digit (c : ascii) : option Z :=
  let n := code c in
  if ((48 <=? n) && (n <=? 57))%nat then Some (Z.of_nat (n - 48)) else None.

Definition colon : ascii := ":"%char.

(** [datetime.strptime(value, "%H:%M").time()]; [None] stands for the
    [ValueError]. The directive %H reads 2[0-3], [0-1][0-9] or one digit,
    %M reads [0-5][0-9] or one digit, and no character may remain. *)
Definition parse_minute (s : str) : option Z :=
  match s with
  | [d] => digit d
  | [d1; d2] =>
      match digit d1, digit d2 with
      | Some a, Some b => if a <=? 5 then Some (10 * a + b) else None
      | _, _ => None
      end
  | _ => None
  end.

Definition strptime_HM (s : str) : option time :=
  match s with
  | d1 :: c :: rest =>
      if Ascii.eqb c colon
      then match digit d1, parse_minute rest with
           | Some h, Some m => Some (mkTime h m 0 0)
           | _, _ => None
           end
      else match rest with
           | c' :: rest' =>
               if Ascii.eqb c' colon
               then match digit d1, digit c, parse_minute rest' with
                    | Some a, Some b, Some m =>
                        if 10 * a + b <=? 23
                        then Some (mkTime (10 * a + b) m 0 0) else None
                    | _, _, _ => None
                    end
               else None
           | [] => None
           end
  | _ => None
  end.

End PyTime.
Import PyTime.

(** ** Results of calls *)

Inductive exn := ValueError | KeyError | IndexError.

(** A call returns a value, raises, or leaves the modelled fragment of
    [str.format] (conversions, format specifiers, attribute and index
    lookups in a replacement field). *)
Inductive outcome (A : Type) :=
| Returned (a : A)
| Raised (e : exn)
| Unmodelled.
Arguments Returned {A} a.
Arguments Raised {A} e.
Arguments Unmodelled {A}.

(** ** storage.py *)

Module StorageModel.

Record UserSettings := mkUserSettings {
  chat_id : str;
  companion_level : str;
  nudge_frequency : str;
  quiet_hours_start : str;
  quiet_hours_end : str;
  last_reflection_at : option datetime;
  short_reply_streak : Z;
  reflections_paused_until : option datetime;
  last_template_id : option str;
  last_nudge_at : option datetime }.

(** [UserSettings(chat_id=chat_id)]: the defaults of the dataclass. *)
Definition default_settings (chat : str) : UserSettings :=
  {| chat_id := chat;
     companion_level := lit "light";
     nudge_frequency := lit "weekly";
     quiet_hours_start := lit "22:00";
     quiet_hours_end := lit "07:00";
     last_reflection_at := None;
     short_reply_streak := 0;
     reflections_paused_until := None;
     last_template_id := None;
     last_nudge_at := None |}.

Record CompanionMetric := mkCompanionMetric {
  metric_chat_id : str;
  template_id : option str;
  shown_at : datetime;
  muted : bool;
  line_count : Z }.

Record Message := mkMessage {
  msg_chat_id : str;
  user_message : str;
  agent_response : str;
  timestamp : datetime }.

(** The text of a DATETIME column written by [_to_iso]:
    YYYY-MM-DDTHH:MM:SS, held as the number of whole seconds it denotes. *)
Inductive isotext := Iso (seconds : Z).

(** A row of table [user_settings]; the primary key [chat_id] is the key
    of the map. [created_at] and [updated_at] are SQLite's
    [datetime('now')], in seconds. *)
Record SettingsRow := mkSettingsRow {
  col_companion_level : str;
  col_nudge_frequency : str;
  col_quiet_hours_start : str;
  col_quiet_hours_end : str;
  col_last_reflection_at : option isotext;
  col_short_reply_streak : Z;
  col_reflections_paused_until : option isotext;
  col_last_template_id : option str;
  col_last_nudge_at : option isotext;
  col_created_at : Z;
  col_updated_at : Z }.

Record MetricRow := mkMetricRow {
  mrow_chat_id : str;
  mrow_shown_at : isotext;
  mrow_template_id : option str;
  mrow_muted : Z;
  mrow_line_count : Z }.

Record ReminderRow := mkReminderRow {
  rrow_chat_id : str;
  rrow_message : str;
  rrow_scheduled_time : datetime;
  rrow_delivered : bool }.

(** The database behind a [Storage] object. *)
Record Storage := mkStorage {
  user_settings : gmap str SettingsRow;
  companion_metrics : list MetricRow;
  reminders : list ReminderRow }.

Definition _from_iso (value : option isotext) : option datetime :=
  match value with
  | Some (Iso s) => Some (s * us_per_second)
  | None => None
  end.

Definition _to_iso (value : option datetime) : option isotext :=
  match value with
  | None => None
  | Some v => Some (Iso (replace_microsecond_0 v / us_per_second))
  end.

(** The SELECT of [get_user_settings] and the record built from it. The
    database is returned as it was received. *)
Definition get_user_settings (self : Storage) (chat : str)
  : UserSettings * Storage :=
  match user_settings self !! chat with
  | None => (default_settings chat, self)
  | Some row =>
      ({| chat_id := chat;
          companion_level := col_companion_level row;
          nudge_frequency := col_nudge_frequency row;
          quiet_hours_start := col_quiet_hours_start row;
          quiet_hours_end := col_quiet_hours_end row;
          last_reflection_at := _from_iso (col_last_reflection_at row);
          short_reply_streak := col_short_reply_streak row;
          reflections_paused_until :=
            _from_iso (col_reflections_paused_until row);
          last_template_id := col_last_template_id row;
          last_nudge_at := _from_iso (col_last_nudge_at row) |}, self)
  end.

(** INSERT ... ON CONFLICT(chat_id) DO UPDATE: every settings column is
    overwritten, [created_at] is kept when the row exists, [updated_at] is
    the time of the statement. *)
Definition upsert_user_settings (self : Storage) (settings : UserSettings)
    (sql_now : Z) : Storage :=
  let created :=
    match user_settings self !! chat_id settings with
    | Some old => col_created_at old
    | None => sql_now
    end in
  let row :=
    {| col_companion_level := companion_level settings;
       col_nudge_frequency := nudge_frequency settings;
       col_quiet_hours_start := quiet_hours_start settings;
       col_quiet_hours_end := quiet_hours_end settings;
       col_last_reflection_at := _to_iso (last_reflection_at settings);
       col_short_reply_streak := short_reply_streak settings;
       col_reflections_paused_until :=
         _to_iso (reflections_paused_until settings);
       col_last_template_id := last_template_id settings;
       col_last_nudge_at := _to_iso (last_nudge_at settings);
       col_created_at := created;
       col_updated_at := sql_now |} in
  {| user_settings := <[chat_id settings := row]> (user_settings self);
     companion_metrics := companion_metrics self;
     reminders := reminders self |}.

(** INSERT INTO companion_metrics; the result is the new row id. *)
Definition record_companion_metric (self : Storage) (metric : CompanionMetric)
  : Z * Storage :=
  let shown :=
    match _to_iso (Some (shown_at metric)) with
    | Some t => t
    | None => Iso 0
    end in
  let row :=
    {| mrow_chat_id := metric_chat_id metric;
       mrow_shown_at := shown;
       mrow_template_id := template_id metric;
       mrow_muted := if muted metric then 1 else 0;
       mrow_line_count := line_count metric |} in
  (Z.of_nat (length (companion_metrics self)) + 1,
   {| user_settings := user_settings self;
      companion_metrics := companion_metrics self ++ [row];
      reminders := reminders self |}).

(** INSERT INTO reminders; the result is the new row id. *)
Definition store_reminder (self : Storage) (chat message : str)
    (scheduled_time : datetime) : Z * Storage :=
  (Z.of_nat (length (reminders self)) + 1,
   {| user_settings := user_settings self;
      companion_metrics := companion_metrics self;
      reminders :=
        reminders self
        ++ [ {| rrow_chat_id := chat; rrow_message := message;
                rrow_scheduled_time := scheduled_time;
                rrow_delivered := false |} ] |}).

(** The calls of the storage layer that the companion issues. *)
Inductive StorageCall :=
| CallGetUserSettings (chat : str)
| CallUpsertUserSettings (settings : UserSettings) (sql_now : Z)
| CallRecordCompanionMetric (metric : CompanionMetric)
| CallStoreReminder (chat message : str) (scheduled_time : datetime).

Definition run_call (call : StorageCall) (self : Storage) : Storage :=
  match call with
  | CallGetUserSettings chat => snd (get_user_settings self chat)
  | CallUpsertUserSettings settings sql_now =>
      upsert_user_settings self settings sql_now
  | CallRecordCompanionMetric metric =>
      snd (record_companion_metric self metric)
  | CallStoreReminder chat message t =>
      snd (store_reminder self chat message t)
  end.

End StorageModel.
Import StorageModel.

(** [outcome] is a monad; [x ← m; k] runs [k] on the value returned by [m]
    and passes an exception on. *)
#[global] Instance outcome_ret : MRet outcome := fun A a => Returned a.
#[global] Instance outcome_bind : MBind outcome := fun A B k m =>
  match m with
  | Returned a => k a
  | Raised e => Raised e
  | Unmodelled => Unmodelled
  end.

(** ** str.format *)

Module PyFormat.

Inductive fstate :=
| Literal                 (* in literal text *)
| AfterOpen               (* just read an opening brace *)
| Field (name : str)      (* inside a replacement field *)
| AfterClose.             (* just read a closing brace outside a field *)

Definition lbrace : ascii := "{"%char.
Definition rbrace : ascii := "}"%char.

(** Characters that start a conversion, a format specifier, an attribute
    or index lookup, or a nested field. *)
Definition special (c : ascii) : bool := mem_char (lit ".[]!:{") c.

Definition all_digits (s : str) : bool :=
  forallb (fun c => match digit c with Some _ => true | None => false end) s.

(** The value of replacement field [name] in
    [template.format(topic=topic, focus=focus)]. *)
Definition field_value (name topic focus : str) : outcome str :=
  if str_eqb name (lit "topic") then Returned topic
  else if str_eqb name (lit "focus") then Returned focus
  else if all_digits name then Raised IndexError
  else Raised KeyError.

(** One left-to-right pass over the format string. Doubled braces are
    literal braces; a lone closing brace and an unclosed field are
    ValueErrors; positional fields find no positional argument. *)
Fixpoint format_run (st : fstate) (out : str) (topic focus : str) (s : str)
  : outcome str :=
  match s with
  | [] =>
      match st with
      | Literal => Returned out
      | _ => Raised ValueError
      end
  | c :: s' =>
      match st with
      | Literal =>
          if Ascii.eqb c lbrace then format_run AfterOpen out topic focus s'
          else if Ascii.eqb c rbrace then format_run AfterClose out topic focus s'
          else format_run Literal (out ++ [c]) topic focus s'
      | AfterOpen =>
          if Ascii.eqb c lbrace
          then format_run Literal (out ++ [lbrace]) topic focus s'
          else if Ascii.eqb c rbrace then Raised IndexError
          else if special c then Unmodelled
          else format_run (Field [c]) out topic focus s'
      | AfterClose =>
          if Ascii.eqb c rbrace
          then format_run Literal (out ++ [rbrace]) topic focus s'
          else Raised ValueError
      | Field name =>
          if Ascii.eqb c rbrace
          then match field_value name topic focus with
               | Returned v => format_run Literal (out ++ v) topic focus s'
               | r => r
               end
          else if special c then Unmodelled
          else format_run (Field (name ++ [c])) out topic focus s'
      end
  end.

(** [template.format(topic=topic, focus=focus)]. *)
Definition format (template topic focus : str) : outcome str :=
  format_run Literal [] topic focus template.

End PyFormat.

(** ** reminder_scheduler.py *)

(** What the surroundings supply to one call. *)
Record Env := mkEnv {
  utcnow : datetime;        (* datetime.utcnow(), first reading of the call *)
  utcnow_shown : datetime;  (* datetime.utcnow(), second reading in wrap_response *)
  sql_now : Z;              (* datetime('now') of the upsert, in seconds *)
  local_now : datetime;     (* datetime.now() in schedule_reminder *)
  choice_1 : nat;           (* first draw of random.choice *)
  choice_2 : nat;           (* second draw of random.choice *)
  broker_ok : bool;         (* the Redis pool connects and takes the job *)
  metric_ok : bool }.       (* the metric insert does not raise *)

Module ReminderScheduler.

(** A job handed to the ARQ queue: [send_reminder(reminder_id, chat_id,
    message)] deferred by [defer_by] microseconds. *)
Record Job := mkJob {
  job_reminder_id : Z;
  job_chat_id : str;
  job_message : str;
  defer_by : Z }.

Record World := mkWorld {
  storage : Storage;
  broker_jobs : list Job }.

(** [ReminderScheduler.schedule_reminder]: the reminder row is stored
    first; when the broker cannot be reached or refuses the job the
    exception is caught and the result is False. *)
Definition schedule_reminder (env : Env) (chat message : str)
    (scheduled_time : datetime) (w : World) : bool * World :=
  let (reminder_id, st) := store_reminder (storage w) chat message scheduled_time in
  if broker_ok env then
    let delay := scheduled_time - local_now env in
    let delay := if delay <? 500000 then us_per_second else delay in
    (true,
     {| storage := st;
        broker_jobs :=
          broker_jobs w
          ++ [ {| job_reminder_id := reminder_id; job_chat_id := chat;
                  job_message := message; defer_by := delay |} ] |})
  else (false, {| storage := st; broker_jobs := broker_jobs w |}).

Definition schedule_reminder_task := schedule_reminder.

End ReminderScheduler.
Import ReminderScheduler.

(** ** companion.py *)

Module Companion.

(** A template of the bank. [key_id] is [template.get("id")]: [None] when
    the dict has no key "id", which [template["id"]] answers with a
    KeyError. The keys "summary", "question" and "stretch" are only read
    through [template.get] and its truth value, for which an absent key and
    an empty string are the same. *)
Record Template := mkTemplate {
  key_id : option str;
  key_summary : str;
  key_question : str;
  key_stretch : str }.

Definition DEFAULT_TEMPLATE_SET : list Template :=
  [ {| key_id := Some (lit "focus");
       key_summary := lit "You're homing in on {focus}.";
       key_question := lit "What would move {topic} forward today?";
       key_stretch := lit "Try writing the smallest next step for {topic}." |};
    {| key_id := Some (lit "tension");
       key_summary := lit "I hear tension around {focus}.";
       key_question := lit "What constraint is shaping this for you?";
       key_stretch := lit "Explore one assumption you could test fast." |};
    {| key_id := Some (lit "momentum");
       key_summary := lit "Momentum shows up in how you describe {focus}.";
       key_question := lit "Where do you already have leverage here?";
       key_stretch := lit "Name a quick win worth locking in this week." |} ].

(** In the order of the dict literal. *)
Definition TOPIC_MAP : list (str * list str) :=
  [ (lit "health",
     map lit ["sleep"; "run"; "gym"; "diet"; "protein"; "fast"; "steps"; "walk"]%string);
    (lit "finance",
     map lit ["budget"; "money"; "cash"; "invest"; "spend"; "savings"; "debt"; "tax"]%string);
    (lit "work",
     map lit ["deploy"; "client"; "meeting"; "deadline"; "project"; "team"; "code"; "launch"]%string) ].

Definition STOP_WORDS : list str := [lit "stop"; lit "mute"; lit "quiet"].

Record ReflectionResult := mkReflectionResult {
  text : str;
  refl_template_id : str;
  refl_line_count : Z }.

(** The fields of a [CompanionService] that its methods read; the storage
    it holds is passed to each method and returned by it. *)
Record CompanionService := mkCompanionService {
  enabled : bool;
  templates : list Template;
  sparks : gmap str (list str);
  blindspots : gmap str (list str) }.

(** Assignments to the fields of the settings object. *)
Definition with_companion_level (v : str) (s : UserSettings) : UserSettings :=
  mkUserSettings (chat_id s) v (nudge_frequency s) (quiet_hours_start s)
    (quiet_hours_end s) (last_reflection_at s) (short_reply_streak s)
    (reflections_paused_until s) (last_template_id s) (last_nudge_at s).

Definition with_nudge_frequency (v : str) (s : UserSettings) : UserSettings :=
  mkUserSettings (chat_id s) (companion_level s) v (quiet_hours_start s)
    (quiet_hours_end s) (last_reflection_at s) (short_reply_streak s)
    (reflections_paused_until s) (last_template_id s) (last_nudge_at s).

Definition with_quiet_hours (a b : str) (s : UserSettings) : UserSettings :=
  mkUserSettings (chat_id s) (companion_level s) (nudge_frequency s) a b
    (last_reflection_at s) (short_reply_streak s)
    (reflections_paused_until s) (last_template_id s) (last_nudge_at s).

Definition with_last_reflection_at (v : option datetime) (s : UserSettings)
  : UserSettings :=
  mkUserSettings (chat_id s) (companion_level s) (nudge_frequency s)
    (quiet_hours_start s) (quiet_hours_end s) v (short_reply_streak s)
    (reflections_paused_until s) (last_template_id s) (last_nudge_at s).

Definition with_short_reply_streak (v : Z) (s : UserSettings) : UserSettings :=
  mkUserSettings (chat_id s) (companion_level s) (nudge_frequency s)
    (quiet_hours_start s) (quiet_hours_end s) (last_reflection_at s) v
    (reflections_paused_until s) (last_template_id s) (last_nudge_at s).

Definition with_reflections_paused_until (v : option datetime)
    (s : UserSettings) : UserSettings :=
  mkUserSettings (chat_id s) (companion_level s) (nudge_frequency s)
    (quiet_hours_start s) (quiet_hours_end s) (last_reflection_at s)
    (short_reply_streak s) v (last_template_id s) (last_nudge_at s).

Definition with_last_template_id (v : option str) (s : UserSettings)
  : UserSettings :=
  mkUserSettings (chat_id s) (companion_level s) (nudge_frequency s)
    (quiet_hours_start s) (quiet_hours_end s) (last_reflection_at s)
    (short_reply_streak s) (reflections_paused_until s) v (last_nudge_at s).

Definition with_last_nudge_at (v : option datetime) (s : UserSettings)
  : UserSettings :=
  mkUserSettings (chat_id s) (companion_level s) (nudge_frequency s)
    (quiet_hours_start s) (quiet_hours_end s) (last_reflection_at s)
    (short_reply_streak s) (reflections_paused_until s) (last_template_id s) v.

(** [value and value > now] for an optional timestamp. *)
Definition in_future (value : option datetime) (now : datetime) : bool :=
  match value with
  | Some t => t >? now
  | None => false
  end.

Definition punctuation : str := lit ",.?!".

(** [STOP_WORDS.intersection(tokens)] is non-empty. *)
Definition has_stop_word (tokens : list str) : bool :=
  existsb (fun w => existsb (str_eqb w) tokens) STOP_WORDS.

(** [recent_messages] is non-empty and its last user message, normalised,
    is non-empty and equal to [normalized]. *)
Definition repeats_last (recent_messages : list Message) (normalized : str)
  : bool :=
  match last recent_messages with
  | None => false
  | Some m =>
      let last_user := lower (strip (user_message m)) in
      truthy last_user && str_eqb last_user normalized
  end.

(** [_should_reflect]: the decision and the settings object as the call
    leaves it; [now] is the reading of [datetime.utcnow()]. *)
Definition _should_reflect (now : datetime) (message : str)
    (recent_messages : list Message) (settings : UserSettings)
  : bool * UserSettings :=
  if str_eqb (companion_level settings) (lit "off") then (false, settings)
  else
    let normalized := lower (strip message) in
    if negb (truthy normalized) then (false, settings)
    else
      let tokens := map (strip_chars punctuation) (split normalized) in
      if has_stop_word tokens then (false, settings)
      else if in_future (reflections_paused_until settings) now
      then (false, settings)
      else if repeats_last recent_messages normalized then (false, settings)
      else
        let short_reply := len (split normalized) <? 5 in
        let settings :=
          if short_reply
          then with_short_reply_streak (short_reply_streak settings + 1) settings
          else with_short_reply_streak 0 settings in
        if short_reply_streak settings >=? 3
        then (false,
              with_reflections_paused_until (Some (now + timedelta 0 24 0))
                settings)
        else (true, settings).

Definition newline : ascii := ascii_of_nat 10.

Definition _merge_response (base_response reflection_block : str) : str :=
  let base_clean := rstrip base_response in
  if negb (truthy base_clean) then reflection_block
  else base_clean ++ [newline] ++ reflection_block.

(** [template.get("id") == last]: a template without id has no match. *)
Definition has_id (template : Template) (last : str) : bool :=
  match key_id template with
  | Some id => str_eqb id last
  | None => false
  end.

(** [self.templates[(idx + 1) % len(self.templates)]] for the first [idx]
    whose template has the id [last], [self.templates[0]] when there is
    none; [idx] counts the templates already passed. *)
Fixpoint scan_templates (all rest : list Template) (idx : nat) (last : str)
  : option Template :=
  match rest with
  | [] => head all
  | template :: rest' =>
      if has_id template last
      then all !! ((idx + 1) mod length all)%nat
      else scan_templates all rest' (S idx) last
  end.

Definition _next_template (self : CompanionService)
    (last : option str) : option Template :=
  match templates self with
  | [] => None
  | first :: _ =>
      match last with
      | None => Some first
      | Some last_id =>
          if negb (truthy last_id) then Some first
          else scan_templates (templates self) (templates self) 0 last_id
      end
  end.

Definition _infer_topic (message : str) : str :=
  let text := lower message in
  match find (fun entry => existsb (contains text) (snd entry)) TOPIC_MAP with
  | Some entry => fst entry
  | None => lit "life"
  end.

Definition _focus (message : str) : str :=
  let clean := join (lit " ") (split (strip message)) in
  if len clean <=? 64 then clean else take 61 clean ++ lit "...".

Definition _trim_line (line : str) : str :=
  let words := split line in
  if len words <=? 30 then line
  else join (lit " ") (take 30 words).

Definition _format_line (template topic focus : str) : outcome str :=
  if negb (truthy template) then Returned []
  else
    match PyFormat.format template topic focus with
    | Returned line => Returned (_trim_line line)
    | Raised KeyError => Returned (_trim_line template)
    | Raised e => Raised e
    | Unmodelled => Unmodelled
    end.

(** The element that one key of the template contributes to [elements]. *)
Definition element_of (line topic focus : str) : outcome (list str) :=
  if truthy line
  then formatted ← _format_line line topic focus;
       mret (if truthy formatted then [formatted] else [])
  else mret [].

(** [_build_reflection]; [draw] is the index drawn by [random.choice].
    The id is read last, by [template["id"]], when the result is built. *)
Definition _build_reflection (self : CompanionService) (draw : nat)
    (message base_response : str) (settings : UserSettings)
  : outcome (option ReflectionResult) :=
  match _next_template self (last_template_id settings) with
  | None => mret None
  | Some template =>
      let topic := _infer_topic message in
      let focus := _focus message in
      from_question ← element_of (key_question template) topic focus;
      from_stretch ← element_of (key_stretch template) topic focus;
      let elements := from_question ++ from_stretch in
      match elements with
      | [] => mret None
      | _ =>
          let chosen := nth (draw mod length elements) elements [] in
          match key_id template with
          | None => Raised KeyError
          | Some id =>
              mret (Some {| text := chosen;
                            refl_template_id := id;
                            refl_line_count := 1 |})
          end
      end
  end.

(** [wrap_response], the operation the specification calls [consider]. *)
Definition wrap_response (self : CompanionService) (env : Env)
    (chat message base_response : str) (recent_messages : list Message)
    (db : Storage) : outcome str * Storage :=
  if negb (enabled self) then (Returned base_response, db)
  else
    let (settings, db) := get_user_settings db chat in
    let (decision, settings) :=
      _should_reflect (utcnow env) message recent_messages settings in
    if negb decision
    then (Returned base_response, upsert_user_settings db settings (sql_now env))
    else
      match _build_reflection self (choice_1 env) message base_response settings with
      | Raised e => (Raised e, db)
      | Unmodelled => (Unmodelled, db)
      | Returned None =>
          (Returned base_response, upsert_user_settings db settings (sql_now env))
      | Returned (Some reflection) =>
          let composed := _merge_response base_response (text reflection) in
          let now := utcnow_shown env in
          let settings := with_last_reflection_at (Some now) settings in
          let settings :=
            with_last_template_id (Some (refl_template_id reflection)) settings in
          let settings := with_reflections_paused_until None settings in
          let settings := with_short_reply_streak 0 settings in
          let db := upsert_user_settings db settings (sql_now env) in
          let db :=
            if metric_ok env
            then snd (record_companion_metric db
                        {| metric_chat_id := chat;
                           template_id := Some (refl_template_id reflection);
                           shown_at := now;
                           muted := false;
                           line_count := refl_line_count reflection |})
            else db in
          (Returned composed, db)
      end.

(** [_validate_hhmm]: the ValueError of [strptime] is raised again. *)
Definition _validate_hhmm (value : str) : outcome unit :=
  match strptime_HM value with
  | Some _ => Returned tt
  | None => Raised ValueError
  end.

Definition one_of (value : str) (allowed : list str) : bool :=
  existsb (str_eqb value) allowed.

Definition set_companion_level (chat level : str) (sql : Z) (db : Storage)
  : outcome UserSettings * Storage :=
  let level := lower level in
  if negb (one_of level [lit "off"; lit "light"; lit "standard"])
  then (Raised ValueError, db)
  else
    let (settings, db) := get_user_settings db chat in
    let settings := with_companion_level level settings in
    (Returned settings, upsert_user_settings db settings sql).

Definition set_quiet_hours (chat start_ end_ : str) (sql : Z) (db : Storage)
  : outcome UserSettings * Storage :=
  match _validate_hhmm start_, _validate_hhmm end_ with
  | Returned _, Returned _ =>
      let (settings, db) := get_user_settings db chat in
      let settings := with_quiet_hours start_ end_ settings in
      (Returned settings, upsert_user_settings db settings sql)
  | _, _ => (Raised ValueError, db)
  end.

Definition set_nudge_frequency (chat frequency : str) (sql : Z) (db : Storage)
  : outcome UserSettings * Storage :=
  let frequency := lower frequency in
  if negb (one_of frequency [lit "off"; lit "weekly"; lit "standard"])
  then (Raised ValueError, db)
  else
    let (settings, db) := get_user_settings db chat in
    let settings := with_nudge_frequency frequency settings in
    (Returned settings, upsert_user_settings db settings sql).

Definition _quiet_bounds (settings : UserSettings) : outcome (time * time) :=
  match strptime_HM (quiet_hours_start settings),
        strptime_HM (quiet_hours_end settings) with
  | Some start_, Some end_ => Returned (start_, end_)
  | _, _ => Raised ValueError
  end.

Definition _is_quiet_time (current start_ end_ : time) : bool :=
  if time_lt start_ end_
  then time_le start_ current && time_lt current end_
  else time_ge current start_ || time_lt current end_.

Definition _is_after_now (candidate now : datetime) : bool :=
  candidate >? now + timedelta 0 0 1.

(** The condition of the while loop of [_compute_next_nudge_time]. *)
Definition keeps_adjusting (now : datetime) (quiet_start quiet_end : time)
    (candidate : datetime) : bool :=
  negb (_is_after_now candidate now)
  || _is_quiet_time (time_of candidate) quiet_start quiet_end.

(** The while loop of [_compute_next_nudge_time], started at [candidate].
    The distance of the candidate to [now + 2 days] decreases at every turn
    that does not leave the loop. *)
Equations? adjust_candidate (now : datetime) (quiet_start quiet_end : time)
    (candidate : datetime) : datetime
    by wf (Z.to_nat (now + timedelta 2 0 0 - candidate)) lt :=
  adjust_candidate now quiet_start quiet_end candidate
    with keeps_adjusting now quiet_start quiet_end candidate := {
    | false => candidate
    | true with Z_gt_dec (candidate + timedelta 0 1 0 - now) (timedelta 2 0 0) := {
        | left _ => candidate + timedelta 0 1 0
        | right _ =>
            adjust_candidate now quiet_start quiet_end
              (candidate + timedelta 0 1 0) } }.
Proof.
  unfold timedelta, us_per_day, us_per_hour, us_per_minute, us_per_second in *.
  lia.
Qed.

(** One run of the same loop as a relation: [loop_run now s e c n r] when
    the loop started at candidate [c] leaves after [n] advances with [r]. *)
Inductive loop_run (now : datetime) (quiet_start quiet_end : time)
  : datetime -> nat -> datetime -> Prop :=
| run_exit candidate :
    keeps_adjusting now quiet_start quiet_end candidate = false ->
    loop_run now quiet_start quiet_end candidate 0 candidate
| run_break candidate :
    keeps_adjusting now quiet_start quiet_end candidate = true ->
    candidate + timedelta 0 1 0 - now > timedelta 2 0 0 ->
    loop_run now quiet_start quiet_end candidate 1 (candidate + timedelta 0 1 0)
| run_again candidate n result :
    keeps_adjusting now quiet_start quiet_end candidate = true ->
    candidate + timedelta 0 1 0 - now <= timedelta 2 0 0 ->
    loop_run now quiet_start quiet_end (candidate + timedelta 0 1 0) n result ->
    loop_run now quiet_start quiet_end candidate (S n) result.

(** The candidate with which [_compute_next_nudge_time] enters its loop. *)
Definition first_candidate (settings : UserSettings) (now : datetime)
    (quiet_end : time) : datetime :=
  let delta :=
    if str_eqb (nudge_frequency settings) (lit "standard")
    then timedelta 3 0 0 else timedelta 7 0 0 in
  let candidate := replace_second_microsecond_0 (now + delta) in
  let candidate :=
    replace_hour_minute candidate (hour quiet_end) (minute quiet_end) in
  candidate + timedelta 0 0 60.

Definition _compute_next_nudge_time (settings : UserSettings) (now : datetime)
  : outcome datetime :=
  bounds ← _quiet_bounds settings;
  let (quiet_start, quiet_end) := (bounds : time * time) in
  mret (adjust_candidate now quiet_start quiet_end
          (first_candidate settings now quiet_end)).

(** [random.choice(seq)] with the drawn index [draw]. *)
Definition choice {A : Type} (draw : nat) (seq : list A) : option A :=
  seq !! (draw mod length seq)%nat.

Definition _pick_spark (self : CompanionService) (draw_1 draw_2 : nat)
  : option str :=
  match (map_to_list (sparks self)).*1 with
  | [] => None
  | keys =>
      match choice draw_1 keys with
      | None => None
      | Some topic =>
          match default [] (sparks self !! topic) with
          | [] => None
          | candidates => choice draw_2 candidates
          end
      end
  end.

Definition schedule_next_nudge (self : CompanionService) (env : Env)
    (chat : str) (w : World) : outcome (option datetime) * World :=
  let (settings, db) := get_user_settings (storage w) chat in
  if negb (enabled self)
     || str_eqb (companion_level settings) (lit "off")
     || str_eqb (nudge_frequency settings) (lit "off")
  then (Returned None, w)
  else
    let now := utcnow env in
    if in_future (last_nudge_at settings) now
    then (Returned (last_nudge_at settings), w)
    else
      match _compute_next_nudge_time settings now with
      | Raised e => (Raised e, w)
      | Unmodelled => (Unmodelled, w)
      | Returned target_time =>
          match _pick_spark self (choice_1 env) (choice_2 env) with
          | None => (Returned None, w)
          | Some spark =>
              if negb (truthy spark) then (Returned None, w)
              else
                let message :=
                  lit "Spark: " ++ spark ++ lit " Reply stop to mute." in
                let (scheduled, w) :=
                  schedule_reminder_task env chat message target_time w in
                if negb scheduled then (Returned None, w)
                else
                  let settings := with_last_nudge_at (Some target_time) settings in
                  (Returned (Some target_time),
                   {| storage :=
                        upsert_user_settings (storage w) settings (sql_now env);
                      broker_jobs := broker_jobs w |})
          end
      end.

End Companion.
Import Companion.

(** ** Vocabulary of the properties *)

(** Offset of a time of day from midnight, in microseconds. *)
Definition offset (t : time) : Z :=
  hour t * us_per_hour + minute t * us_per_minute
  + second t * us_per_second + microsecond t.

Definition time_ok (t : time) : Prop :=
  0 <= hour t < 24 /\ 0 <= minute t < 60 /\ 0 <= second t < 60
  /\ 0 <= microsecond t < us_per_second.

(** The database after a sequence of storage calls, first call first. *)
Definition run_calls (calls : list StorageCall) (db : Storage) : Storage :=
  foldl (fun st call => run_call call st) db calls.

(** The rejection checks that [_should_reflect] makes before it touches
    the streak: companion on, message not empty, no stop word, no pause in
    force, not a repeat of the previous user message. *)
Definition passes_rejection_checks (now : datetime) (message : str)
    (recent : list Message) (settings : UserSettings) : bool :=
  let normalized := lower (strip message) in
  negb (str_eqb (companion_level settings) (lit "off"))
  && truthy normalized
  && negb (has_stop_word (map (strip_chars punctuation) (split normalized)))
  && negb (in_future (reflections_paused_until settings) now)
  && negb (repeats_last recent normalized).

(** The arguments of one later call of [wrap_response] by a user. *)
Record Consider := mkConsider {
  c_env : Env;
  c_message : str;
  c_base : str;
  c_recent : list Message }.

(** Every call of the sequence, run in order from [db], returns its base
    reply. *)
Fixpoint all_return_base (self : CompanionService) (chat : str)
    (calls : list Consider) (db : Storage) : Prop :=
  match calls with
  | [] => True
  | c :: rest =>
      let result :=
        wrap_response self (c_env c) chat (c_message c) (c_base c) (c_recent c) db in
      fst result = Returned (c_base c)
      /\ all_return_base self chat rest (snd result)
  end.

(** Sample data for the concrete checks. *)
Definition empty_db : Storage :=
  {| user_settings := ∅; companion_metrics := []; reminders := [] |}.

Definition sample_service : CompanionService :=
  {| enabled := true;
     templates := DEFAULT_TEMPLATE_SET;
     sparks :=
       {[ lit "health" :=
            [lit "Walk while taking your next call to freshen the loop."] ]};
     blindspots := ∅ |}.

(** 2026-11-04T12:00:00.500000. *)
Definition sample_now : datetime := 63929390400500000.

(** An environment in which every clock reads [now], the draws are 0 and
    nothing fails. *)
Definition env_at (now : datetime) : Env :=
  {| utcnow := now; utcnow_shown := now; sql_now := now / us_per_second;
     local_now := now; choice_1 := 0; choice_2 := 0;
     broker_ok := true; metric_ok := true |}.

(** The database that holds exactly the given settings. *)
Definition db_with (settings : UserSettings) : Storage :=
  upsert_user_settings empty_db settings 0.

(** The ids of the bank, in its order; [None] for a template without. *)
Definition bank_ids (self : CompanionService) : list (option str) :=
  map key_id (templates self).

(** The template ids of [n] consecutive successful reflections of a user
    whose last_template_id is [last]: each reflection uses
    [_next_template] and stores the id of its template; a template without
    id ends the run, no reflection being built from it. *)
Fixpoint rotation (self : CompanionService) (last : option str) (n : nat)
  : list str :=
  match n with
  | O => []
  | S n' =>
      match _next_template self last with
      | None => []
      | Some template =>
          match key_id template with
          | None => []
          | Some id => id :: rotation self (Some id) n'
          end
      end
  end.

(** Every template of the bank has an id, the ids are pairwise different
    and none is empty. *)
Definition bank_ok (self : CompanionService) : Prop :=
  NoDup (bank_ids self)
  /\ Forall (fun i : option str => exists id : str, i = Some id /\ id <> [])
       (bank_ids self).

(** The id at position [k] of the bank read as a cycle. *)
Definition id_at (self : CompanionService) (k : nat) : option str :=
  nth (k mod length (templates self)) (bank_ids self) None.

(** A bank of templates with the given ids and one question each. *)
Definition bank_of (ids : list string) : CompanionService :=
  {| enabled := true;
     templates :=
       map (fun i => {| key_id := Some (lit i); key_summary := [];
                        key_question := lit "What is next?";
                        key_stretch := [] |}) ids;
     sparks := ∅;
     blindspots := ∅ |}.

(** A bank of three templates of which the second has no key "id". *)
Definition bank_missing_id : CompanionService :=
  {| enabled := true;
     templates :=
       [ {| key_id := Some (lit "a"); key_summary := [];
            key_question := lit "What is next?"; key_stretch := [] |};
         {| key_id := None; key_summary := [];
            key_question := lit "What is next?"; key_stretch := [] |};
         {| key_id := Some (lit "c"); key_summary := [];
            key_question := lit "What is next?"; key_stretch := [] |} ];
     sparks := ∅;
     blindspots := ∅ |}.

(** The first reflections of any run, as many as the bank has templates,
    use every id of the bank once; [k] is the number of reflections since
    [last] after which the run starts. *)
Definition covers_before_repeat (self : CompanionService) : Prop :=
  forall (last : option str) (k : nat),
    Permutation
      (map Some
         (take (length (templates self))
            (drop k (rotation self last (k + length (templates self))))))
      (bank_ids self).

(** No two consecutive reflections use the same template id. *)
Definition never_twice_in_a_row (self : CompanionService) : Prop :=
  forall (last : option str) (n i : nat) (a b : str),
    rotation self last n !! i = Some a ->
    rotation self last n !! S i = Some b ->
    a <> b.

(** No spark comes out of the bank for the draws of the call: none is
    picked, or the one picked is the empty string. *)
Definition no_spark (self : CompanionService) (env : Env) : bool :=
  match _pick_spark self (choice_1 env) (choice_2 env) with
  | None => true
  | Some spark => negb (truthy spark)
  end.

(** A timestamp without microseconds. *)
Definition whole_seconds (t : datetime) : Prop := t mod us_per_second = 0.

(** A service whose only spark topic has no spark. *)
Definition sparkless_service : CompanionService :=
  {| enabled := true;
     templates := DEFAULT_TEMPLATE_SET;
     sparks := {[ lit "health" := [] ]};
     blindspots := ∅ |}.

(** 2026-11-05T12:00:00, one day after [sample_now] less its half second. *)
Definition sample_later : datetime := 63929476800000000.

Definition world_with (settings : UserSettings) : World :=
  {| storage := db_with settings; broker_jobs := [] |}.

(** A row whose [updated_at] alone is rewritten. *)
Definition touch_row (sql : Z) (row : SettingsRow) : SettingsRow :=
  {| col_companion_level := col_companion_level row;
     col_nudge_frequency := col_nudge_frequency row;
     col_quiet_hours_start := col_quiet_hours_start row;
     col_quiet_hours_end := col_quiet_hours_end row;
     col_last_reflection_at := col_last_reflection_at row;
     col_short_reply_streak := col_short_reply_streak row;
     col_reflections_paused_until := col_reflections_paused_until row;
     col_last_template_id := col_last_template_id row;
     col_last_nudge_at := col_last_nudge_at row;
     col_created_at := col_created_at row;
     col_updated_at := sql |}.

(** ** storage.py: the brain and the delivery of reminders *)

Module BrainModel.

(** A row of the table brain_history. *)
Record HistoryRow := mkHistoryRow {
  hrow_chat_id : str;
  hrow_content : str;
  hrow_reason : str }.

(** The tables brain (one content per chat id) and brain_history (rows in
    the order of their insertion). *)
Record BrainTables := mkBrainTables {
  brain : gmap str str;
  brain_history : list HistoryRow }.

Definition read_user_context (self : BrainTables) (chat : str) : str :=
  default [] (brain self !! chat).

(** [reason or "Auto-versioned before update"]. *)
Definition reason_or_default (reason : option str) : str :=
  match reason with
  | Some r => if truthy r then r else lit "Auto-versioned before update"
  | None => lit "Auto-versioned before update"
  end.

Definition update_user_context (self : BrainTables) (chat content : str)
    (reason : option str) : BrainTables :=
  let current_content := default [] (brain self !! chat) in
  if negb (str_eqb (strip current_content) (strip content))
  then
    {| brain := <[chat := content]> (brain self);
       brain_history :=
         if truthy current_content
         then brain_history self
              ++ [ {| hrow_chat_id := chat; hrow_content := current_content;
                      hrow_reason := reason_or_default reason |} ]
         else brain_history self |}
  else self.

End BrainModel.
Import BrainModel.

(** [Storage.mark_reminder_delivered]: UPDATE reminders SET delivered = TRUE
    WHERE id = ?. The row with id [n] is the [n]-th row inserted, as in
    [store_reminder]; an id without a row changes nothing. *)
Definition mark_reminder_delivered (self : Storage) (reminder_id : Z)
  : Storage :=
  {| user_settings := user_settings self;
     companion_metrics := companion_metrics self;
     reminders :=
       if 1 <=? reminder_id
       then alter (fun row =>
                     {| rrow_chat_id := rrow_chat_id row;
                        rrow_message := rrow_message row;
                        rrow_scheduled_time := rrow_scheduled_time row;
                        rrow_delivered := true |})
              (Z.to_nat (reminder_id - 1)) (reminders self)
       else reminders self |}.

(** ** nosy_bot.py *)

Definition SUSPICIOUS_PATTERNS : list str :=
  [lit "<script"; lit "<?php"; lit "javascript:"; lit "data:"].

(** [validate_input]; [max_message_length] is config.MAX_MESSAGE_LENGTH
    (4000 in config.py). The chat id is only logged. *)
Definition validate_input (max_message_length : Z) (text : str) : bool :=
  if negb (truthy text) || negb (truthy (strip text)) then false
  else if len text >? max_message_length then false
  else if existsb (contains (lower text)) SUSPICIOUS_PATTERNS then false
  else true.

(** ** semantic_memory.py *)

(** [content.split('\n\n')]: the pieces between non-overlapping
    occurrences of two line feeds, read from the left; [cur] is the piece
    being read. *)
Fixpoint split_blank_line (cur s : str) : list str :=
  match s with
  | [] => [cur]
  | c :: rest =>
      match rest with
      | c' :: rest' =>
          if Ascii.eqb c newline && Ascii.eqb c' newline
          then cur :: split_blank_line [] rest'
          else split_blank_line (cur ++ [c]) rest
      | [] => [cur ++ [c]]
      end
  end.

(** One turn of the loop of [_chunk_content] on the state
    (chunks, current_chunk). *)
Definition chunk_step (chunk_size : Z) (state : list str * str) (para : str)
  : list str * str :=
  let (chunks, current_chunk) := state in
  if len current_chunk + len para <=? chunk_size
  then (chunks, current_chunk ++ para ++ [newline; newline])
  else ((if truthy (strip current_chunk)
         then chunks ++ [strip current_chunk] else chunks),
        para ++ [newline; newline]).

Definition _chunk_content (content : str) (chunk_size : Z) : list str :=
  if len content <=? chunk_size
  then (if truthy (strip content) then [content] else [])
  else
    let paragraphs := split_blank_line [] content in
    let (chunks, current_chunk) :=
      foldl (chunk_step chunk_size) ([], []) paragraphs in
    if truthy (strip current_chunk)
    then chunks ++ [strip current_chunk] else chunks.

(** ** Vocabulary of the further properties *)

(** A settings record as a later read finds it: every timestamp without
    its microseconds. *)
Definition as_stored (s : UserSettings) : UserSettings :=
  {| chat_id := chat_id s;
     companion_level := companion_level s;
     nudge_frequency := nudge_frequency s;
     quiet_hours_start := quiet_hours_start s;
     quiet_hours_end := quiet_hours_end s;
     last_reflection_at := _from_iso (_to_iso (last_reflection_at s));
     short_reply_streak := short_reply_streak s;
     reflections_paused_until := _from_iso (_to_iso (reflections_paused_until s));
     last_template_id := last_template_id s;
     last_nudge_at := _from_iso (_to_iso (last_nudge_at s)) |}.

(** The row that [record_companion_metric] inserts for a shown reflection. *)
Definition shown_metric_row (chat template : str) (shown : datetime) (lines : Z)
  : MetricRow :=
  {| mrow_chat_id := chat;
     mrow_shown_at := Iso (replace_microsecond_0 shown / us_per_second);
     mrow_template_id := Some template;
     mrow_muted := 0;
     mrow_line_count := lines |}.

(** A token: not empty, no whitespace in it. *)
Definition token_ok (w : str) : Prop :=
  w <> [] /\ forallb (fun c => negb (isspace c)) w = true.

(** No brace in the string. *)
Definition brace_free (s : str) : bool :=
  forallb (fun c => negb (Ascii.eqb c PyFormat.lbrace)
                    && negb (Ascii.eqb c PyFormat.rbrace)) s.

(** The database after a sequence of calls of [wrap_response] by one user,
    first call first. *)
Definition run_considers (self : CompanionService) (chat : str)
    (calls : list Consider) (db : Storage) : Storage :=
  foldl (fun st c =>
           snd (wrap_response self (c_env c) chat (c_message c) (c_base c)
                  (c_recent c) st))
    db calls.

(** The keywords that [TOPIC_MAP] lists for a topic, and whether the
    lower-cased message contains one of them. *)
Definition keywords_of (topic : str) : list str :=
  match find (fun entry => str_eqb (fst entry) topic) TOPIC_MAP with
  | Some entry => snd entry
  | None => []
  end.

Definition mentions (message topic : str) : bool :=
  existsb (contains (lower message)) (keywords_of topic).

(** The row of a reminder that has not been delivered, and the delay with
    which [schedule_reminder] defers its job. *)
Definition pending_row (chat message : str) (scheduled_time : datetime)
  : ReminderRow :=
  {| rrow_chat_id := chat; rrow_message := message;
     rrow_scheduled_time := scheduled_time; rrow_delivered := false |}.

Definition nudge_message (spark : str) : str :=
  lit "Spark: " ++ spark ++ lit " Reply stop to mute.".

(** The characters of a text that are not white space, in their order. *)
Definition visible (s : str) : str :=
  List.filter (fun c => negb (isspace c)) s.

(** The brain tables after a sequence of updates of one chat id. *)
Definition run_updates (chat : str) (updates : list (str * option str))
    (self : BrainTables) : BrainTables :=
  foldl (fun st u => update_user_context st chat (fst u) (snd u)) self updates.

(** What [_chunk_content] guarantees of a chunk when the content is longer
    than [chunk_size]: it is not blank, carries no surrounding white space,
    and either fits the size or is one whole paragraph. *)
Definition good_chunk (chunk_size : Z) (paragraphs : list str) (chunk : str)
  : Prop :=
  truthy chunk = true
  /\ strip chunk = chunk
  /\ (len chunk <= chunk_size
      \/ exists para : str, In para paragraphs /\ chunk = strip para).

(** What holds of the chunk under construction in the loop. *)
Definition open_chunk (chunk_size : Z) (paragraphs : list str) (current : str)
  : Prop :=
  strip current = []
  \/ len (strip current) <= chunk_size
  \/ exists para : str, In para paragraphs /\ strip current = strip para.

(** The topic that [_pick_spark] draws: [random.choice] on the keys of the
    spark bank; none when the bank has no topic. *)
Definition drawn_topic (self : CompanionService) (draw_1 : nat) : option str :=
  choice draw_1 ((map_to_list (sparks self)).*1).

(* ===================================================================== *)
(** * Part II: properties *)
(* ===================================================================== *)

(** ** Sanity checks of the embedding on concrete inputs *)

Example split_example :
  split (lit "  Please, stop.  now ") = [lit "Please,"; lit "stop."; lit "now"].
Proof. reflexivity. Qed.

Example lower_example : lower (lit "StOp!") = lit "stop!".
Proof. reflexivity. Qed.

Example strip_chars_example :
  strip_chars (lit ",.?!") (lit "?!stop.,") = lit "stop".
Proof. reflexivity. Qed.

Example strptime_examples :
  strptime_HM (lit "22:00") = Some (mkTime 22 0 0 0)
  /\ strptime_HM (lit "7:5") = Some (mkTime 7 5 0 0)
  /\ strptime_HM (lit "24:00") = None
  /\ strptime_HM (lit "23:60") = None
  /\ strptime_HM (lit "0700") = None.
Proof. repeat split; reflexivity. Qed.

Example format_examples :
  PyFormat.format (lit "Move {topic}: {{{focus}}}") (lit "work") (lit "x")
  = Returned (lit "Move work: {x}")
  /\ PyFormat.format (lit "a {other} b") (lit "work") (lit "x") = Raised KeyError
  /\ PyFormat.format (lit "a } b") (lit "work") (lit "x") = Raised ValueError.
Proof. repeat split; reflexivity. Qed.

(** ** Strings *)

Section StringFacts.

Lemma str_eqb_eq (a b : str) : str_eqb a b = true <-> a = b.
Proof.
  revert b. induction a as [|x a IH]; intros [|y b]; simpl; split;
    try congruence; try done.
  - intros H. apply andb_true_iff in H as [Hx Hab].
    apply Ascii.eqb_eq in Hx. apply IH in Hab. congruence.
  - intros H. injection H as -> ->. apply andb_true_iff. split.
    + apply Ascii.eqb_refl.
    + by apply IH.
Qed.

Lemma str_eqb_refl (a : str) : str_eqb a a = true.
Proof. by apply str_eqb_eq. Qed.

Lemma str_eqb_neq (a b : str) : str_eqb a b = false <-> a <> b.
Proof.
  destruct (str_eqb a b) eqn:E.
  - apply str_eqb_eq in E. split; [done | congruence].
  - split; [| done]. intros _ Hab. apply str_eqb_eq in Hab. congruence.
Qed.

Lemma isspace_lower_char (c : ascii) : isspace (lower_char c) = isspace c.
Proof. destruct c as [[] [] [] [] [] [] [] []]; reflexivity. Qed.

Lemma lower_nil_iff (s : str) : lower s = [] <-> s = [].
Proof. destruct s; simpl; split; congruence. Qed.

(** Lower-casing does not move token boundaries. *)
Lemma split_from_lower (cur s : str) :
  split_from (lower cur) (lower s) = map lower (split_from cur s).
Proof.
  revert cur. induction s as [|c s IH]; intros cur; simpl.
  - destruct cur; reflexivity.
  - rewrite isspace_lower_char. destruct (isspace c).
    + destruct cur as [|x cur]; simpl.
      * apply (IH []).
      * f_equal. apply (IH []).
    + rewrite <- IH. unfold lower. by rewrite map_app.
Qed.

Lemma split_lower (s : str) : split (lower s) = map lower (split s).
Proof. apply (split_from_lower [] s). Qed.

(** What [lstrip_by] and [rstrip_by] remove. *)
Lemma lstrip_by_decomp (p : ascii -> bool) (s : str) :
  exists w, s = w ++ lstrip_by p s /\ forallb p w = true.
Proof.
  induction s as [|c s (w & Hw & Hp)]; simpl.
  - by exists [].
  - destruct (p c) eqn:Hc.
    + exists (c :: w). simpl. rewrite Hc, Hp. split; [congruence | done].
    + by exists [].
Qed.

Lemma rstrip_by_decomp (p : ascii -> bool) (s : str) :
  exists w, s = rstrip_by p s ++ w /\ forallb p w = true.
Proof.
  unfold rstrip_by.
  destruct (lstrip_by_decomp p (rev s)) as (w & Hw & Hp).
  exists (rev w). split.
  - rewrite <- rev_app_distr, <- Hw. by rewrite rev_involutive.
  - rewrite forallb_forall in *. intros x Hx. apply Hp. by apply in_rev.
Qed.

Lemma split_from_trailing_space (cur w : str) :
  forallb isspace w = true -> split_from cur w = split_from cur [].
Proof.
  revert cur. induction w as [|c w IH]; intros cur Hw; [done |].
  simpl in Hw. apply andb_true_iff in Hw as [Hc Hw]. simpl. rewrite Hc.
  rewrite (IH [] Hw). by destruct cur.
Qed.

Lemma split_from_app_space (cur s w : str) :
  forallb isspace w = true -> split_from cur (s ++ w) = split_from cur s.
Proof.
  intros Hw. revert cur. induction s as [|c s IH]; intros cur.
  - by apply split_from_trailing_space.
  - simpl. destruct (isspace c); [destruct cur |]; by rewrite IH.
Qed.

Lemma split_lstrip (s : str) : split (lstrip_by isspace s) = split s.
Proof.
  unfold split. induction s as [|c s IH]; simpl; [done |].
  destruct (isspace c) eqn:Hc; [done |]. simpl. by rewrite Hc.
Qed.

Lemma split_rstrip (s : str) : split (rstrip_by isspace s) = split s.
Proof.
  destruct (rstrip_by_decomp isspace s) as (w & Hw & Hp).
  unfold split. rewrite Hw at 2. by rewrite split_from_app_space.
Qed.

(** Stripping the ends of a message does not change its tokens. *)
Lemma split_strip (s : str) : split (strip s) = split s.
Proof. unfold strip, strip_by. by rewrite split_rstrip, split_lstrip. Qed.

(** The tokens of the normalised message are the lower-cased tokens of the
    message. *)
Lemma split_normalized (s : str) :
  split (lower (strip s)) = map lower (split s).
Proof. by rewrite split_lower, split_strip. Qed.

(** When stripping on the right leaves a word that does not begin with a
    stripped character, stripping on both sides leaves the same word. *)
Lemma strip_by_of_rstrip_by (p : ascii -> bool) (s : str) (c : ascii) (r : str) :
  rstrip_by p s = c :: r -> p c = false -> strip_by p s = c :: r.
Proof.
  intros Hr Hc. unfold strip_by.
  destruct (rstrip_by_decomp p s) as (w & Hw & _).
  rewrite Hr in Hw.
  assert (Hl : lstrip_by p s = s) by (rewrite Hw; simpl; by rewrite Hc).
  by rewrite Hl.
Qed.

End StringFacts.

(** ** Times of day *)

Section TimeFacts.

Lemma time_cmp_refl (a : time) : time_cmp a a = Eq.
Proof. unfold time_cmp. by rewrite !Z.compare_refl. Qed.

Lemma time_lt_irrefl (a : time) : time_lt a a = false.
Proof. unfold time_lt. by rewrite time_cmp_refl. Qed.

(** The order on times is total: [a >= b] or [a < b]. *)
Lemma time_ge_or_lt (a b : time) : time_ge a b || time_lt a b = true.
Proof. unfold time_ge, time_lt. by destruct (time_cmp a b). Qed.

Lemma time_ge_not_lt (a b : time) : time_ge a b = negb (time_lt a b).
Proof. unfold time_ge, time_lt. by destruct (time_cmp a b). Qed.

(** On well-formed times the tuple order is the order of the offsets. *)
Lemma time_cmp_offset (a b : time) :
  time_ok a -> time_ok b -> time_cmp a b = (offset a ?= offset b).
Proof.
  unfold time_ok, offset, time_cmp, us_per_hour, us_per_minute, us_per_second.
  intros (Ha1 & Ha2 & Ha3 & Ha4) (Hb1 & Hb2 & Hb3 & Hb4).
  symmetry.
  destruct (Z.compare_spec (hour a) (hour b)) as [Eh|Lh|Gh];
    [| apply Z.compare_lt_iff; lia | apply Z.compare_gt_iff; lia].
  destruct (Z.compare_spec (minute a) (minute b)) as [Em|Lm|Gm];
    [| apply Z.compare_lt_iff; lia | apply Z.compare_gt_iff; lia].
  destruct (Z.compare_spec (second a) (second b)) as [Es|Ls|Gs];
    [| apply Z.compare_lt_iff; lia | apply Z.compare_gt_iff; lia].
  destruct (Z.compare_spec (microsecond a) (microsecond b)) as [Eu|Lu|Gu];
    [apply Z.compare_eq_iff | apply Z.compare_lt_iff | apply Z.compare_gt_iff];
    lia.
Qed.

Lemma strptime_HM_ok (s : str) (t : time) :
  strptime_HM s = Some t -> time_ok t /\ second t = 0 /\ microsecond t = 0.
Proof.
  assert (Hdigit : forall c v, digit c = Some v -> 0 <= v <= 9).
  { intros c v. unfold digit. case_match; [| done]. intros [= <-].
    apply andb_true_iff in H as [H1 H2].
    apply Nat.leb_le in H1, H2. lia. }
  assert (Hmin : forall r m, parse_minute r = Some m -> 0 <= m < 60).
  { intros r m. unfold parse_minute.
    destruct r as [|d1 [|d2 [|? ?]]]; try done.
    - intros H%Hdigit. lia.
    - destruct (digit d1) as [a|] eqn:Ea; [| done].
      destruct (digit d2) as [b|] eqn:Eb; [| done].
      apply Hdigit in Ea, Eb.
      destruct (a <=? 5) eqn:E5; [| done]. apply Z.leb_le in E5.
      intros [= <-]. lia. }
  unfold strptime_HM, time_ok.
  destruct s as [|d1 [|c rest]]; try done.
  destruct (Ascii.eqb c colon).
  - destruct (digit d1) as [h|] eqn:Eh; [| done].
    destruct (parse_minute rest) as [m|] eqn:Em; [| done].
    apply Hdigit in Eh. apply Hmin in Em. intros [= <-]. simpl.
    unfold us_per_second. lia.
  - destruct rest as [|c' rest']; [done |].
    destruct (Ascii.eqb c' colon); [| done].
    destruct (digit d1) as [a|] eqn:Ea; [| done].
    destruct (digit c) as [b|] eqn:Eb; [| done].
    destruct (parse_minute rest') as [m|] eqn:Em; [| done].
    destruct (10 * a + b <=? 23) eqn:E23; [| done]. apply Z.leb_le in E23.
    apply Hdigit in Ea, Eb. apply Hmin in Em. intros [= <-]. simpl.
    unfold us_per_second. lia.
Qed.

(** The time of day of a datetime is a well-formed time. *)
Lemma time_of_ok (dt : datetime) : time_ok (time_of dt).
Proof.
  unfold time_ok, time_of, us_per_day, us_per_hour, us_per_minute,
    us_per_second. simpl.
  pose proof (Z.mod_pos_bound dt (24 * (60 * (60 * 1000000))) ltac:(lia)).
  pose proof (Z.mod_pos_bound dt (60 * (60 * 1000000)) ltac:(lia)).
  pose proof (Z.mod_pos_bound dt (60 * 1000000) ltac:(lia)).
  pose proof (Z.mod_pos_bound dt 1000000 ltac:(lia)).
  repeat split; try lia;
    try (apply Z.div_pos; lia); apply Z.div_lt_upper_bound; lia.
Qed.

End TimeFacts.

(** ** Quiet hours *)

(** On well-formed times the quiet-window test is the interval test on
    the offsets from midnight, the interval wrapping when it does not
    begin before it ends. *)
Lemma quiet_time_by_offset (t start_ end_ : time) :
  time_ok t -> time_ok start_ -> time_ok end_ ->
  _is_quiet_time t start_ end_
  = if offset start_ <? offset end_
    then (offset start_ <=? offset t) && (offset t <? offset end_)
    else (offset start_ <=? offset t) || (offset t <? offset end_).
Proof.
  intros Ht Hs He. unfold _is_quiet_time, time_lt, time_le, time_ge.
  rewrite (time_cmp_offset start_ end_), (time_cmp_offset start_ t),
    (time_cmp_offset t end_), (time_cmp_offset t start_) by done.
  rewrite (Z.compare_antisym (offset start_) (offset t)).
  unfold Z.ltb, Z.leb.
  destruct (offset start_ ?= offset end_), (offset start_ ?= offset t),
    (offset t ?= offset end_); reflexivity.
Qed.

(** The bounds parsed from the stored quiet hours are well-formed times,
    so that in [_compute_next_nudge_time] the quiet-window test is the
    interval test on offsets. *)
Lemma quiet_bounds_ok (settings : UserSettings) (start_ end_ : time) :
  _quiet_bounds settings = Returned (start_, end_) ->
  time_ok start_ /\ time_ok end_.
Proof.
  unfold _quiet_bounds.
  destruct (strptime_HM (quiet_hours_start settings)) as [a|] eqn:Ea; [| done].
  destruct (strptime_HM (quiet_hours_end settings)) as [b|] eqn:Eb; [| done].
  intros [= <- <-]. split.
  - by apply (strptime_HM_ok _ _ Ea).
  - by apply (strptime_HM_ok _ _ Eb).
Qed.

Lemma quiet_candidate_by_offset (settings : UserSettings) (start_ end_ : time)
    (candidate : datetime) :
  _quiet_bounds settings = Returned (start_, end_) ->
  _is_quiet_time (time_of candidate) start_ end_
  = if offset start_ <? offset end_
    then (offset start_ <=? offset (time_of candidate))
         && (offset (time_of candidate) <? offset end_)
    else (offset start_ <=? offset (time_of candidate))
         || (offset (time_of candidate) <? offset end_).
Proof.
  intros [Hs He]%quiet_bounds_ok.
  apply quiet_time_by_offset; [apply time_of_ok | done | done].
Qed.

(** C5. Quiet-hours membership handles the wrap past midnight: a time of
    day [t] is quiet exactly when [start < end] and [start <= t < end], or
    [start >= end] and ([t >= start] or [t < end]); for the window
    22:00-07:00 the time 23:30 is quiet and 08:00 is not. *)
Theorem quiet_time_wraparound :
  (forall t start_ end_ : time,
      _is_quiet_time t start_ end_ = true <->
      (time_lt start_ end_ = true
       /\ time_le start_ t = true /\ time_lt t end_ = true)
      \/ (time_ge start_ end_ = true
          /\ (time_ge t start_ = true \/ time_lt t end_ = true)))
  /\ _is_quiet_time (mkTime 23 30 0 0) (mkTime 22 0 0 0) (mkTime 7 0 0 0) = true
  /\ _is_quiet_time (mkTime 8 0 0 0) (mkTime 22 0 0 0) (mkTime 7 0 0 0) = false.
Proof.
  split; [| split; reflexivity].
  intros t start_ end_. unfold _is_quiet_time.
  rewrite (time_ge_not_lt start_ end_).
  destruct (time_lt start_ end_) eqn:Hse; simpl.
  - rewrite andb_true_iff. split.
    + intros [H1 H2]. left. done.
    + intros [(_ & H1 & H2) | [H _]]; [done | discriminate].
  - rewrite orb_true_iff. split.
    + intros H. right. done.
    + intros [[H _] | [_ H]]; [discriminate | done].
Qed.

(** C9. When the two bounds of the quiet window are equal, every time of
    day is quiet. *)
Theorem quiet_window_equal_bounds_whole_day :
  forall t bound : time, _is_quiet_time t bound bound = true.
Proof.
  intros t bound. unfold _is_quiet_time.
  rewrite time_lt_irrefl. apply time_ge_or_lt.
Qed.

(** ** The settings store *)

Section StorageFacts.

Lemma to_iso_from_iso (x : option isotext) : _to_iso (_from_iso x) = x.
Proof.
  destruct x as [[s]|]; [| done]. simpl. do 2 f_equal.
  unfold replace_microsecond_0, us_per_second.
  rewrite Z.mod_mul by lia. rewrite Z.sub_0_r. apply Z.div_mul. lia.
Qed.

(** A timestamp survives the round trip through a DATETIME column up to
    its microseconds. *)
Lemma from_iso_to_iso (v : datetime) :
  _from_iso (_to_iso (Some v)) = Some (replace_microsecond_0 v).
Proof.
  simpl. f_equal. unfold replace_microsecond_0, us_per_second.
  pose proof (Z.div_mod v 1000000 ltac:(lia)) as H.
  replace (v - v mod 1000000) with (1000000 * (v / 1000000)) by lia.
  rewrite (Z.mul_comm 1000000), Z.div_mul by lia. lia.
Qed.

Lemma get_user_settings_db (db : Storage) (chat : str) :
  snd (get_user_settings db chat) = db.
Proof. unfold get_user_settings. by destruct (user_settings db !! chat). Qed.

Lemma get_user_settings_chat_id (db : Storage) (chat : str) :
  chat_id (fst (get_user_settings db chat)) = chat.
Proof. unfold get_user_settings. by destruct (user_settings db !! chat). Qed.

(** Writing back the record that was read leaves every user's record as it
    was. *)
Lemma upsert_read_back (db : Storage) (chat c : str) (sql : Z) :
  fst (get_user_settings
         (upsert_user_settings db (fst (get_user_settings db chat)) sql) c)
  = fst (get_user_settings db c).
Proof.
  unfold get_user_settings, upsert_user_settings.
  destruct (user_settings db !! chat) as [row|] eqn:Hrow; simpl;
    (destruct (decide (chat = c)) as [<-|Hne];
     [ rewrite lookup_insert_eq, Hrow; simpl; by rewrite ?to_iso_from_iso
     | rewrite lookup_insert_ne by done;
       by destruct (user_settings db !! c) ]).
Qed.

(** Writing back the record read from an existing row rewrites that row
    with its own values; only [updated_at] moves. *)
Lemma upsert_read_back_row (db : Storage) (chat : str) (sql : Z)
    (row : SettingsRow) :
  user_settings db !! chat = Some row ->
  user_settings
    (upsert_user_settings db (fst (get_user_settings db chat)) sql)
  = <[chat := touch_row sql row]> (user_settings db).
Proof.
  intros Hrow. unfold get_user_settings, upsert_user_settings.
  rewrite Hrow. simpl. rewrite Hrow, !to_iso_from_iso. done.
Qed.

(** Logging a metric does not touch the settings. *)
Lemma get_user_settings_after_metric (db : Storage) (metric : CompanionMetric)
    (c : str) :
  fst (get_user_settings (snd (record_companion_metric db metric)) c)
  = fst (get_user_settings db c).
Proof.
  unfold get_user_settings. simpl. by destruct (user_settings db !! c).
Qed.

Lemma upsert_other_tables (db : Storage) (settings : UserSettings) (sql : Z) :
  companion_metrics (upsert_user_settings db settings sql) = companion_metrics db
  /\ reminders (upsert_user_settings db settings sql) = reminders db.
Proof. done. Qed.

Lemma run_call_creates_row (call : StorageCall) (db : Storage) (chat : str) :
  user_settings db !! chat = None ->
  user_settings (run_call call db) !! chat <> None ->
  exists settings sql,
    call = CallUpsertUserSettings settings sql /\ chat_id settings = chat.
Proof.
  intros Hnone Hsome. destruct call as [c|settings sql|metric|c msg t]; simpl in *.
  - rewrite get_user_settings_db in Hsome. done.
  - exists settings, sql. split; [done |].
    destruct (decide (chat_id settings = chat)) as [|Hne]; [done |].
    rewrite lookup_insert_ne in Hsome by done. done.
  - done.
  - done.
Qed.

Lemma run_calls_creates_row (calls : list StorageCall) (db : Storage) (chat : str) :
  user_settings db !! chat = None ->
  user_settings (run_calls calls db) !! chat <> None ->
  exists settings sql,
    In (CallUpsertUserSettings settings sql) calls /\ chat_id settings = chat.
Proof.
  revert db. induction calls as [|call calls IH]; intros db Hnone Hsome.
  - done.
  - unfold run_calls in Hsome. simpl in Hsome.
    destruct (user_settings (run_call call db) !! chat) as [row|] eqn:Hrow.
    + destruct (run_call_creates_row call db chat Hnone) as (s & t & -> & Hs).
      { by rewrite Hrow. }
      exists s, t. split; [by left | done].
    + destruct (IH _ Hrow Hsome) as (s & t & Hin & Hs).
      exists s, t. split; [by right | done].
Qed.

End StorageFacts.

(** C10. Reading settings never writes: for a chat id with no stored row,
    [get_user_settings] returns the record of documented defaults and
    leaves the database as it was; after any sequence of storage calls a
    row for that chat id exists only if one of the calls was an upsert of
    that chat id. *)
Theorem get_user_settings_never_writes :
  forall (db : Storage) (chat : str),
    user_settings db !! chat = None ->
    let settings := fst (get_user_settings db chat) in
    snd (get_user_settings db chat) = db
    /\ chat_id settings = chat
    /\ companion_level settings = lit "light"
    /\ nudge_frequency settings = lit "weekly"
    /\ quiet_hours_start settings = lit "22:00"
    /\ quiet_hours_end settings = lit "07:00"
    /\ short_reply_streak settings = 0
    /\ last_reflection_at settings = None
    /\ reflections_paused_until settings = None
    /\ last_template_id settings = None
    /\ last_nudge_at settings = None
    /\ (forall calls : list StorageCall,
          user_settings (run_calls calls db) !! chat <> None ->
          exists settings' sql,
            In (CallUpsertUserSettings settings' sql) calls
            /\ chat_id settings' = chat).
Proof.
  intros db chat Hnone settings. subst settings.
  unfold get_user_settings. rewrite Hnone. simpl.
  repeat (split; [reflexivity |]).
  intros calls. by apply run_calls_creates_row.
Qed.

Lemma get_user_settings_never_writes_witness :
  let db := {| user_settings := ∅; companion_metrics := []; reminders := [] |} in
  snd (get_user_settings db (lit "42")) = db
  /\ companion_level (fst (get_user_settings db (lit "42"))) = lit "light".
Proof.
  intros db.
  pose proof (get_user_settings_never_writes db (lit "42") ltac:(reflexivity)) as H.
  simpl in H. destruct H as (H1 & _ & H2 & _). split; [exact H1 | exact H2].
Defined.

(** ** The reflection decision engine *)

Section DecisionFacts.

Lemma get_user_settings_pair (db : Storage) (chat : str) :
  get_user_settings db chat = (fst (get_user_settings db chat), db).
Proof.
  rewrite <- (get_user_settings_db db chat) at 3. apply surjective_pairing.
Qed.

Lemma should_reflect_off (now : datetime) (message : str)
    (recent : list Message) (settings : UserSettings) :
  companion_level settings = lit "off" ->
  _should_reflect now message recent settings = (false, settings).
Proof. intros H. unfold _should_reflect. by rewrite H. Qed.

(** Whenever [_should_reflect] refuses and hands back the settings it was
    given, [wrap_response] returns the base reply and rewrites the row with
    the values it has read. *)
Lemma wrap_response_refused (self : CompanionService) (env : Env)
    (chat message base : str) (recent : list Message) (db : Storage) :
  enabled self = true ->
  _should_reflect (utcnow env) message recent (fst (get_user_settings db chat))
  = (false, fst (get_user_settings db chat)) ->
  wrap_response self env chat message base recent db
  = (Returned base,
     upsert_user_settings db (fst (get_user_settings db chat)) (sql_now env)).
Proof.
  intros Hen Hdec. unfold wrap_response.
  rewrite Hen, get_user_settings_pair, Hdec. done.
Qed.

(** A message with a token that reads, lower-cased and without its
    trailing punctuation, as a stop word is recognised by the code, which
    strips both ends of every token of the normalised message. *)
Lemma stop_token_found (message tok : str) :
  In tok (split message) ->
  In (rstrip_chars punctuation (lower tok)) STOP_WORDS ->
  has_stop_word (map (strip_chars punctuation) (split (lower (strip message))))
  = true.
Proof.
  intros Htok Hstop. rewrite split_normalized.
  unfold has_stop_word. apply existsb_exists.
  exists (rstrip_chars punctuation (lower tok)). split; [done |].
  apply existsb_exists. exists (rstrip_chars punctuation (lower tok)).
  split; [| apply str_eqb_refl].
  apply in_map_iff. exists (lower tok). split; [| by apply in_map].
  unfold strip_chars, rstrip_chars in *.
  destruct Hstop as [H | [H | [H | []]]]; rewrite <- H;
    symmetry in H; by apply (strip_by_of_rstrip_by _ _ _ _ H).
Qed.

Lemma should_reflect_stop_word (now : datetime) (message tok : str)
    (recent : list Message) (settings : UserSettings) :
  In tok (split message) ->
  In (rstrip_chars punctuation (lower tok)) STOP_WORDS ->
  _should_reflect now message recent settings = (false, settings).
Proof.
  intros Htok Hstop. unfold _should_reflect.
  rewrite (stop_token_found message tok Htok Hstop).
  destruct (str_eqb (companion_level settings) (lit "off")); [done |].
  by destruct (negb (truthy (lower (strip message)))).
Qed.

Lemma should_reflect_paused (now : datetime) (message : str)
    (recent : list Message) (settings : UserSettings) :
  in_future (reflections_paused_until settings) now = true ->
  _should_reflect now message recent settings = (false, settings).
Proof.
  intros Hp. unfold _should_reflect. rewrite Hp.
  destruct (str_eqb (companion_level settings) (lit "off")); [done |].
  destruct (negb (truthy (lower (strip message)))); [done |].
  by destruct (has_stop_word _).
Qed.

(** Whenever [_should_reflect] refuses, [wrap_response] returns the base
    reply and stores the settings object as [_should_reflect] left it. *)
Lemma wrap_response_suppressed (self : CompanionService) (env : Env)
    (chat message base : str) (recent : list Message) (db : Storage)
    (settings' : UserSettings) :
  enabled self = true ->
  _should_reflect (utcnow env) message recent (fst (get_user_settings db chat))
  = (false, settings') ->
  wrap_response self env chat message base recent db
  = (Returned base, upsert_user_settings db settings' (sql_now env)).
Proof.
  intros Hen Hdec. unfold wrap_response.
  rewrite Hen, get_user_settings_pair, Hdec. done.
Qed.

(** The outcome of [_should_reflect] once the rejection checks are passed. *)
Lemma should_reflect_after_checks (now : datetime) (message : str)
    (recent : list Message) (settings : UserSettings) :
  passes_rejection_checks now message recent settings = true ->
  let streak :=
    if len (split message) <? 5 then short_reply_streak settings + 1 else 0 in
  _should_reflect now message recent settings
  = if streak >=? 3
    then (false,
          with_reflections_paused_until (Some (now + timedelta 0 24 0))
            (with_short_reply_streak streak settings))
    else (true, with_short_reply_streak streak settings).
Proof.
  unfold passes_rejection_checks, _should_reflect.
  intros H. repeat (apply andb_true_iff in H as [H ?]).
  apply negb_true_iff in H.
  repeat match goal with
         | Hn : negb _ = true |- _ => apply negb_true_iff in Hn; rewrite Hn
         end.
  rewrite H. replace (truthy (lower (strip message))) with true. simpl.
  assert (Hlen : len (split (lower (strip message))) = len (split message)).
  { unfold len. by rewrite split_normalized, length_map. }
  rewrite Hlen. by destruct (len (split message) <? 5).
Qed.

(** What a later read finds after an upsert: the settings that were
    written, their timestamps cut to whole seconds. *)
Lemma get_after_upsert (db : Storage) (settings : UserSettings) (sql : Z)
    (chat : str) :
  chat_id settings = chat ->
  let stored :=
    fst (get_user_settings (upsert_user_settings db settings sql) chat) in
  short_reply_streak stored = short_reply_streak settings
  /\ reflections_paused_until stored
     = _from_iso (_to_iso (reflections_paused_until settings))
  /\ last_nudge_at stored = _from_iso (_to_iso (last_nudge_at settings))
  /\ last_template_id stored = last_template_id settings
  /\ companion_level stored = companion_level settings
  /\ nudge_frequency stored = nudge_frequency settings
  /\ quiet_hours_start stored = quiet_hours_start settings
  /\ quiet_hours_end stored = quiet_hours_end settings.
Proof.
  intros <-. unfold get_user_settings, upsert_user_settings. simpl.
  rewrite lookup_insert_eq. simpl. done.
Qed.

(** While the stored pause lies in the future, a call returns the base
    reply and leaves the stored record as it is. *)
Lemma paused_call_returns_base (self : CompanionService) (env : Env)
    (chat message base : str) (recent : list Message) (db : Storage) :
  in_future (reflections_paused_until (fst (get_user_settings db chat)))
    (utcnow env) = true ->
  let result := wrap_response self env chat message base recent db in
  fst result = Returned base
  /\ fst (get_user_settings (snd result) chat) = fst (get_user_settings db chat).
Proof.
  intros Hp result. subst result.
  destruct (enabled self) eqn:Hen.
  - rewrite wrap_response_refused by (done || by apply should_reflect_paused).
    simpl. by rewrite upsert_read_back.
  - unfold wrap_response. rewrite Hen. done.
Qed.

Lemma paused_calls_return_base (self : CompanionService) (chat : str)
    (calls : list Consider) (db : Storage) (until : datetime) :
  reflections_paused_until (fst (get_user_settings db chat)) = Some until ->
  Forall (fun c => utcnow (c_env c) < until) calls ->
  all_return_base self chat calls db.
Proof.
  intros Hp Hcalls. revert db Hp.
  induction Hcalls as [|c rest Hc _ IH]; intros db Hp; simpl; [done |].
  assert (Hfut : in_future
                   (reflections_paused_until (fst (get_user_settings db chat)))
                   (utcnow (c_env c)) = true).
  { rewrite Hp. simpl. apply Z.gtb_lt. lia. }
  destruct (paused_call_returns_base self (c_env c) chat (c_message c)
              (c_base c) (c_recent c) db Hfut) as [Hbase Hsame].
  split; [done |]. apply IH. by rewrite Hsame.
Qed.

Lemma should_reflect_last_template_id (now : datetime) (message : str)
    (recent : list Message) (settings : UserSettings) :
  last_template_id (snd (_should_reflect now message recent settings))
  = last_template_id settings.
Proof.
  unfold _should_reflect. repeat (case_match; simpl; try done).
Qed.

Lemma build_reflection_template (self : CompanionService) (draw : nat)
    (message base : str) (settings : UserSettings)
    (reflection : ReflectionResult) :
  _build_reflection self draw message base settings = Returned (Some reflection) ->
  exists template,
    _next_template self (last_template_id settings) = Some template
    /\ key_id template = Some (refl_template_id reflection).
Proof.
  unfold _build_reflection.
  destruct (_next_template self (last_template_id settings)) as [template|];
    [| done].
  intros H. exists template. split; [done |].
  destruct (element_of (key_question template) _ _) as [q| |]; try done.
  destruct (element_of (key_stretch template) _ _) as [t| |]; try done.
  cbn in H. destruct (q ++ t); [done |].
  destruct (key_id template) as [id|]; [| done]. by injection H as <-.
Qed.

(** A reflection that is shown uses the template that follows the stored
    last_template_id, and stores the id of that template: consecutive
    successful reflections of a user walk through [rotation]. *)
Lemma shown_reflection_advances_rotation (self : CompanionService) (env : Env)
    (chat message base : str) (recent : list Message) (db : Storage)
    (reflection : ReflectionResult) :
  let settings := fst (get_user_settings db chat) in
  let decided := _should_reflect (utcnow env) message recent settings in
  enabled self = true ->
  fst decided = true ->
  _build_reflection self (choice_1 env) message base (snd decided)
  = Returned (Some reflection) ->
  let result := wrap_response self env chat message base recent db in
  fst result = Returned (_merge_response base (text reflection))
  /\ exists (template : Template) (id : str),
       _next_template self (last_template_id settings) = Some template
       /\ key_id template = Some id
       /\ last_template_id (fst (get_user_settings (snd result) chat))
          = Some id
       /\ rotation self (last_template_id settings) 1 = [id].
Proof.
  intros settings decided Hen Hdec Hbuild result. subst result.
  destruct (build_reflection_template _ _ _ _ _ _ Hbuild) as (t & Hnext & Hid).
  unfold decided in Hnext. rewrite should_reflect_last_template_id in Hnext.
  unfold wrap_response. rewrite Hen, get_user_settings_pair. cbn [negb].
  fold settings. fold decided.
  destruct decided as [decision settings'] eqn:Hd. simpl in Hdec, Hbuild.
  subst decision. cbn [negb]. rewrite Hbuild. cbn [fst snd].
  split; [done |]. exists t, (refl_template_id reflection).
  split; [done |]. split; [done |]. split.
  - set (stored :=
           with_short_reply_streak 0
             (with_reflections_paused_until None
                (with_last_template_id (Some (refl_template_id reflection))
                   (with_last_reflection_at (Some (utcnow_shown env))
                      settings')))).
    assert (Hchat : chat_id stored = chat).
    { simpl. replace settings' with (snd decided) by (by rewrite Hd).
      unfold decided, _should_reflect.
      repeat (case_match; simpl; try apply get_user_settings_chat_id). }
    destruct (get_after_upsert db stored (sql_now env) chat Hchat)
      as (_ & _ & _ & Hlast & _).
    simpl in Hlast.
    destruct (metric_ok env); [| done].
    by rewrite get_user_settings_after_metric.
  - simpl. by rewrite Hnext, Hid.
Qed.

End DecisionFacts.

(** C1. For a user whose settings have companion_level = off,
    [wrap_response] returns the base reply unchanged, and afterwards the
    stored settings record of that user (and of every other user) is the
    record stored before the call: the user's row exists before the call,
    no row is added, and the upsert of an enabled service rewrites the row
    with the values read from it, moving its [updated_at] only; no metric
    is logged. *)
Theorem companion_off_is_a_no_op :
  forall (self : CompanionService) (env : Env) (chat message base : str)
         (recent : list Message) (db : Storage),
    companion_level (fst (get_user_settings db chat)) = lit "off" ->
    let result := wrap_response self env chat message base recent db in
    fst result = Returned base
    /\ (forall c : str,
          fst (get_user_settings (snd result) c) = fst (get_user_settings db c))
    /\ (exists row : SettingsRow,
          user_settings db !! chat = Some row
          /\ user_settings (snd result)
             = if enabled self
               then <[chat := touch_row (sql_now env) row]> (user_settings db)
               else user_settings db)
    /\ dom (user_settings (snd result)) = dom (user_settings db)
    /\ companion_metrics (snd result) = companion_metrics db
    /\ reminders (snd result) = reminders db.
Proof.
  intros self env chat message base recent db Hoff result. subst result.
  assert (Hrow : exists row, user_settings db !! chat = Some row).
  { unfold get_user_settings in Hoff.
    destruct (user_settings db !! chat) as [row|]; [by exists row | done]. }
  destruct Hrow as [row Hrow].
  destruct (enabled self) eqn:Hen.
  - rewrite wrap_response_refused by (done || by apply should_reflect_off).
    cbn [fst snd]. split; [done |].
    split; [intros c; apply upsert_read_back |].
    rewrite (upsert_read_back_row db chat (sql_now env) row Hrow).
    split; [by exists row |]. split; [| done].
    rewrite dom_insert_L.
    assert (Hin : chat ∈ dom (user_settings db)) by (apply elem_of_dom; eauto).
    apply set_eq. intros c. rewrite elem_of_union, elem_of_singleton.
    split; [intros [-> | Hc]; done | by right].
  - unfold wrap_response. rewrite Hen. simpl.
    repeat split; try done. by exists row.
Qed.

Lemma companion_off_is_a_no_op_witness :
  let db := db_with (with_companion_level (lit "off") (default_settings (lit "42"))) in
  fst (wrap_response sample_service (env_at sample_now) (lit "42")
         (lit "How should I plan the week ahead?") (lit "Start small.") [] db)
  = Returned (lit "Start small.").
Proof.
  intros db.
  apply (companion_off_is_a_no_op sample_service (env_at sample_now) (lit "42")
           (lit "How should I plan the week ahead?") (lit "Start small.") [] db).
  reflexivity.
Defined.

(** C2 (as amended). When some whitespace-separated token of the user
    message, lower-cased and with its trailing commas, full stops, question
    marks and exclamation marks stripped, is "stop", "mute" or "quiet",
    [wrap_response] returns the base reply whatever the stored streak and
    pause are, and the stored short_reply_streak (indeed the whole stored
    record) is what it was, also for a message of fewer than five tokens. *)
Theorem stop_word_suppresses_and_keeps_streak :
  forall (self : CompanionService) (env : Env) (chat message base : str)
         (recent : list Message) (db : Storage) (tok : str),
    In tok (split message) ->
    In (rstrip_chars punctuation (lower tok)) STOP_WORDS ->
    let result := wrap_response self env chat message base recent db in
    fst result = Returned base
    /\ short_reply_streak (fst (get_user_settings (snd result) chat))
       = short_reply_streak (fst (get_user_settings db chat))
    /\ fst (get_user_settings (snd result) chat) = fst (get_user_settings db chat).
Proof.
  intros self env chat message base recent db tok Htok Hstop result.
  subst result.
  destruct (enabled self) eqn:Hen.
  - rewrite wrap_response_refused
      by (done || by apply (should_reflect_stop_word _ _ tok)).
    simpl. rewrite upsert_read_back. done.
  - unfold wrap_response. rewrite Hen. done.
Qed.

Lemma stop_word_suppresses_and_keeps_streak_witness :
  let db := db_with (with_short_reply_streak 2 (default_settings (lit "42"))) in
  let result :=
    wrap_response sample_service (env_at sample_now) (lit "42")
      (lit "Please STOP!?") (lit "Sure.") [] db in
  fst result = Returned (lit "Sure.")
  /\ short_reply_streak (fst (get_user_settings (snd result) (lit "42"))) = 2.
Proof.
  intros db result.
  destruct (stop_word_suppresses_and_keeps_streak sample_service
              (env_at sample_now) (lit "42") (lit "Please STOP!?") (lit "Sure.")
              [] db (lit "STOP!?")) as (H1 & H2 & _).
  - simpl. right. left. reflexivity.
  - simpl. left. reflexivity.
  - split; [exact H1 | exact H2].
Defined.

(** C2, the claim as first stated, fails for trailing punctuation other
    than the four characters that the code strips: the token "stop;" reads
    as "stop" once its semicolon is taken off, yet the message gets a
    reflection, and from a streak of 2 it moves the stored streak to 3. *)
Lemma stop_word_other_punctuation_counterexample :
  let fresh := db_with (default_settings (lit "42")) in
  let strained :=
    db_with (with_short_reply_streak 2 (default_settings (lit "42"))) in
  let first :=
    wrap_response sample_service (env_at sample_now) (lit "42")
      (lit "stop;") (lit "Sure.") [] fresh in
  let second :=
    wrap_response sample_service (env_at sample_now) (lit "42")
      (lit "stop;") (lit "Sure.") [] strained in
  split (lit "stop;") = [lit "stop;"]
  /\ rstrip_chars (lit ";") (lower (lit "stop;")) = lit "stop"
  /\ fst first
     = Returned (lit "Sure." ++ [newline]
                 ++ lit "What would move life forward today?")
  /\ fst first <> Returned (lit "Sure.")
  /\ short_reply_streak (fst (get_user_settings strained (lit "42"))) = 2
  /\ short_reply_streak (fst (get_user_settings (snd second) (lit "42"))) = 3.
Proof.
  vm_compute. repeat split; discriminate.
Qed.

(** C3 (as amended). For a message that passes the rejection checks of an
    enabled companion, [_should_reflect] sets short_reply_streak to its old
    value plus one when the message has fewer than five tokens and to 0
    otherwise. When the resulting streak reaches 3 it sets
    reflections_paused_until to now + 24 hours and refuses: [wrap_response]
    returns the base reply and stores the streak and the pause, the pause
    cut to whole seconds; every later sequence of calls by that user at
    times before the stored pause returns base replies only. Below 3 the
    decision is to reflect and the pause is left as it was. *)
Theorem throttle_streak_and_pause :
  forall (self : CompanionService) (env : Env) (chat message base : str)
         (recent : list Message) (db : Storage),
    enabled self = true ->
    let settings := fst (get_user_settings db chat) in
    let now := utcnow env in
    passes_rejection_checks now message recent settings = true ->
    let streak :=
      if len (split message) <? 5 then short_reply_streak settings + 1 else 0 in
    let decided := _should_reflect now message recent settings in
    short_reply_streak (snd decided) = streak
    /\ (streak < 3 ->
        fst decided = true
        /\ reflections_paused_until (snd decided)
           = reflections_paused_until settings)
    /\ (3 <= streak ->
        let result := wrap_response self env chat message base recent db in
        let stored := fst (get_user_settings (snd result) chat) in
        let until := replace_microsecond_0 (now + timedelta 0 24 0) in
        fst decided = false
        /\ reflections_paused_until (snd decided) = Some (now + timedelta 0 24 0)
        /\ fst result = Returned base
        /\ short_reply_streak stored = streak
        /\ reflections_paused_until stored = Some until
        /\ forall calls : list Consider,
             Forall (fun c => utcnow (c_env c) < until) calls ->
             all_return_base self chat calls (snd result)).
Proof.
  intros self env chat message base recent db Hen settings now Hchecks
         streak decided.
  pose proof (should_reflect_after_checks now message recent settings Hchecks)
    as Hdec.
  fold streak in Hdec. simpl in Hdec. fold decided in Hdec.
  destruct (streak >=? 3) eqn:H3.
  - apply Z.geb_le in H3. rewrite Hdec. simpl.
    split; [done |]. split; [lia |]. intros _.
    assert (Hwrap := wrap_response_suppressed self env chat message base recent
                       db _ Hen Hdec).
    rewrite Hwrap. simpl.
    destruct (get_after_upsert db
                (with_reflections_paused_until (Some (now + timedelta 0 24 0))
                   (with_short_reply_streak streak settings)) (sql_now env)
                chat (get_user_settings_chat_id db chat)) as (Hs & Hp & _).
    change (reflections_paused_until
              (with_reflections_paused_until (Some (now + timedelta 0 24 0))
                 (with_short_reply_streak streak settings)))
      with (Some (now + timedelta 0 24 0)) in Hp.
    rewrite from_iso_to_iso in Hp.
    repeat (split; [done |]).
    intros calls Hcalls.
    by apply (paused_calls_return_base self chat calls _ _ Hp).
  - rewrite Hdec. simpl. split; [done |]. split; [done |].
    intros Hge. apply Z.geb_le in Hge. congruence.
Qed.

Lemma throttle_streak_and_pause_witness :
  let db := db_with (with_short_reply_streak 2 (default_settings (lit "42"))) in
  let result :=
    wrap_response sample_service (env_at sample_now) (lit "42")
      (lit "ok then") (lit "Fine.") [] db in
  fst result = Returned (lit "Fine.")
  /\ short_reply_streak (fst (get_user_settings (snd result) (lit "42"))) = 3
  /\ reflections_paused_until (fst (get_user_settings (snd result) (lit "42")))
     = Some (sample_now + timedelta 0 24 0 - 500000).
Proof.
  intros db result.
  destruct (throttle_streak_and_pause sample_service (env_at sample_now)
              (lit "42") (lit "ok then") (lit "Fine.") [] db
              eq_refl eq_refl) as (_ & _ & H).
  destruct H as (_ & _ & Hbase & Hstreak & Hpause & _).
  - vm_compute. discriminate.
  - split; [exact Hbase |]. split; [exact Hstreak | exact Hpause].
Defined.

(** C3, the claim as first stated, fails in the last fraction of a second
    before now + 24 hours: the pause is stored without its microseconds, so
    a call made between the stored pause and now + 24 hours is not
    suppressed. Here the third short message arrives at 12:00:00.5 and a
    long message one microsecond before 12:00:00.5 of the next day gets a
    reflection. *)
Lemma pause_gap_counterexample :
  let db := db_with (with_short_reply_streak 2 (default_settings (lit "42"))) in
  let settings := fst (get_user_settings db (lit "42")) in
  let decided := _should_reflect sample_now (lit "ok then") [] settings in
  let first :=
    wrap_response sample_service (env_at sample_now) (lit "42")
      (lit "ok then") (lit "Fine.") [] db in
  let later := sample_now + timedelta 0 24 0 - 1 in
  let second :=
    wrap_response sample_service (env_at later) (lit "42")
      (lit "I went to the gym again today") (lit "Good job.")
      [mkMessage (lit "42") (lit "ok then") (lit "Fine.") sample_now]
      (snd first) in
  passes_rejection_checks sample_now (lit "ok then") [] settings = true
  /\ short_reply_streak (snd decided) = 3
  /\ reflections_paused_until (snd decided) = Some (sample_now + timedelta 0 24 0)
  /\ fst first = Returned (lit "Fine.")
  /\ later < sample_now + timedelta 0 24 0
  /\ fst second
     = Returned (lit "Good job." ++ [newline]
                 ++ lit "What would move health forward today?")
  /\ fst second <> Returned (lit "Good job.").
Proof.
  vm_compute. repeat split; discriminate.
Qed.

(** ** The nudge scheduler: the adjustment loop *)

Section LoopFacts.

Variables (now : datetime) (quiet_start quiet_end : time).

Lemma hour_step (d : Z) :
  (d + timedelta 0 1 0) / us_per_hour = d / us_per_hour + 1.
Proof.
  replace (timedelta 0 1 0) with (1 * us_per_hour) by reflexivity.
  apply Z.div_add. unfold us_per_hour, us_per_minute, us_per_second. lia.
Qed.

(** The loop leaves after finitely many advances, and their number is
    bounded by the hours that separate the candidate from now + 2 days. *)
Lemma adjust_candidate_run (candidate : datetime) :
  exists n : nat,
    loop_run now quiet_start quiet_end candidate n
      (adjust_candidate now quiet_start quiet_end candidate)
    /\ Z.of_nat n
       <= Z.max 1 ((now + timedelta 2 0 0 - candidate) / us_per_hour + 1).
Proof.
  funelim (adjust_candidate now quiet_start quiet_end candidate).
  - exists 0%nat. split; [by apply run_exit | lia].
  - exists 1%nat. split; [by apply run_break | lia].
  - destruct H as (m & Hrun & Hm).
    exists (S m). split; [apply run_again; [done | lia | done] |].
    assert (Hroom : 0 <= now + timedelta 2 0 0 - (candidate + timedelta 0 1 0))
      by lia.
    replace (now + timedelta 2 0 0 - candidate)
      with (now + timedelta 2 0 0 - (candidate + timedelta 0 1 0)
            + timedelta 0 1 0) by lia.
    rewrite hour_step.
    assert (0 <= (now + timedelta 2 0 0 - (candidate + timedelta 0 1 0))
                 / us_per_hour).
    { apply Z.div_pos; [done |].
      unfold us_per_hour, us_per_minute, us_per_second. lia. }
    lia.
Qed.

(** What a run of the loop is: [n] advances of one hour, each from a
    candidate on which the loop condition held, none but the last beyond
    now + 2 days; at the end the condition fails or the bound is passed. *)
Lemma loop_run_shape (candidate : datetime) (n : nat) (result : datetime) :
  loop_run now quiet_start quiet_end candidate n result ->
  result = candidate + Z.of_nat n * timedelta 0 1 0
  /\ (forall j : nat, (j < n)%nat ->
        keeps_adjusting now quiet_start quiet_end
          (candidate + Z.of_nat j * timedelta 0 1 0) = true)
  /\ (forall j : nat, (0 < j < n)%nat ->
        candidate + Z.of_nat j * timedelta 0 1 0 - now <= timedelta 2 0 0)
  /\ (keeps_adjusting now quiet_start quiet_end result = false
      \/ ((0 < n)%nat /\ result - now > timedelta 2 0 0)).
Proof.
  induction 1 as [c Hc | c Hc Hb | c n r Hc Hb Hrun (IH1 & IH2 & IH3 & IH4)].
  - split; [lia |]. split; [lia |]. split; [lia |]. by left.
  - split; [lia |]. split.
    { intros j Hj. replace j with 0%nat by lia.
      by replace (c + Z.of_nat 0 * timedelta 0 1 0) with c by lia. }
    split; [lia |]. right. split; [lia | done].
  - split; [lia |]. split.
    { intros [|j] Hj.
      - by replace (c + Z.of_nat 0 * timedelta 0 1 0) with c by lia.
      - replace (c + Z.of_nat (S j) * timedelta 0 1 0)
          with (c + timedelta 0 1 0 + Z.of_nat j * timedelta 0 1 0) by lia.
        apply IH2. lia. }
    split.
    { intros [|[|j]] Hj; [lia | |].
      - lia.
      - replace (c + Z.of_nat (S (S j)) * timedelta 0 1 0)
          with (c + timedelta 0 1 0 + Z.of_nat (S j) * timedelta 0 1 0) by lia.
        apply IH3. lia. }
    destruct IH4 as [Hq | [_ Hq]]; [by left | right; split; [lia | done]].
Qed.

Lemma loop_run_deterministic (candidate : datetime) (n n' : nat)
    (r r' : datetime) :
  loop_run now quiet_start quiet_end candidate n r ->
  loop_run now quiet_start quiet_end candidate n' r' ->
  n = n' /\ r = r'.
Proof.
  intros Hrun. revert n' r'.
  induction Hrun as [c Hc | c Hc Hb | c n r Hc Hb Hrun IH]; intros n' r' Hrun';
    inversion Hrun'; subst; try congruence; try lia; try done.
  destruct (IH _ _ H1) as [-> ->]. done.
Qed.

End LoopFacts.

(** C6. The adjustment loop of the nudge time terminates for every quiet
    window, every [now] and every starting candidate: it leaves after a
    number of one-hour advances bounded by the hours between the candidate
    and now + 2 days. Every advance is made from a candidate that is not
    more than one minute in the future or lies in the quiet window; the loop
    stops at the first candidate for which neither holds, or with the
    candidate that first exceeds now + 2 days. *)
Theorem nudge_adjustment_terminates :
  forall (now : datetime) (quiet_start quiet_end : time) (candidate : datetime),
    let result := adjust_candidate now quiet_start quiet_end candidate in
    exists n : nat,
      loop_run now quiet_start quiet_end candidate n result
      /\ Z.of_nat n
         <= Z.max 1 ((now + timedelta 2 0 0 - candidate) / us_per_hour + 1)
      /\ result = candidate + Z.of_nat n * timedelta 0 1 0
      /\ Forall (fun j : nat =>
                   let c := candidate + Z.of_nat j * timedelta 0 1 0 in
                   (negb (_is_after_now c now)
                    || _is_quiet_time (time_of c) quiet_start quiet_end) = true)
           (seq 0 n)
      /\ Forall (fun j : nat =>
                   candidate + Z.of_nat j * timedelta 0 1 0 - now
                   <= timedelta 2 0 0)
           (seq 1 (n - 1))
      /\ ((_is_after_now result now = true
           /\ _is_quiet_time (time_of result) quiet_start quiet_end = false)
          \/ ((0 < n)%nat /\ result - now > timedelta 2 0 0)).
Proof.
  intros now quiet_start quiet_end candidate result.
  destruct (adjust_candidate_run now quiet_start quiet_end candidate)
    as (n & Hrun & Hbound).
  exists n. split; [done |]. split; [done |].
  destruct (loop_run_shape _ _ _ _ _ _ Hrun) as (H1 & H2 & H3 & H4).
  split; [done |]. split.
  { apply List.Forall_forall. intros j Hj. apply in_seq in Hj.
    apply (H2 j). lia. }
  split.
  { apply List.Forall_forall. intros j Hj. apply in_seq in Hj.
    apply (H3 j). lia. }
  destruct H4 as [Hq | Hq]; [left | by right].
  unfold keeps_adjusting in Hq. apply orb_false_iff in Hq as [Ha Hq].
  by apply negb_false_iff in Ha.
Qed.

(** ** Template rotation *)

Section RotationFacts.

Lemma lookup_key_id (bank : list Template) (i : nat) (t : Template) :
  bank !! i = Some t -> map key_id bank !! i = Some (key_id t).
Proof.
  intros H. change (map key_id bank) with (key_id <$> bank).
  by rewrite list_lookup_fmap, H.
Qed.

(** With pairwise different ids, the scan stops at the one template that
    carries the id and returns its successor in the cycle. *)
Lemma has_id_spec (t : Template) (last : str) :
  has_id t last = true <-> key_id t = Some last.
Proof.
  unfold has_id. destruct (key_id t) as [id|]; [| done].
  rewrite str_eqb_eq. split; congruence.
Qed.

Lemma scan_known (bank rest : list Template) (idx i : nat) (t : Template)
    (id : str) :
  NoDup (map key_id bank) ->
  bank !! i = Some t ->
  key_id t = Some id ->
  (idx <= i)%nat ->
  drop idx bank = rest ->
  scan_templates bank rest idx id
  = bank !! ((i + 1) mod length bank)%nat.
Proof.
  intros Hnd Hi Hid. revert idx.
  induction rest as [|t0 rest IH]; intros idx Hle Hdrop.
  - apply drop_nil_inv in Hdrop.
    apply lookup_lt_Some in Hi. lia.
  - assert (H0 : bank !! idx = Some t0).
    { rewrite <- (Nat.add_0_r idx), <- lookup_drop, Hdrop. done. }
    simpl. destruct (has_id t0 id) eqn:E.
    + apply has_id_spec in E.
      assert (idx = i) as ->; [| done].
      apply (NoDup_lookup (map key_id bank) idx i (key_id t)); [done | |].
      * rewrite Hid, <- E. by apply lookup_key_id.
      * by apply lookup_key_id.
    + apply IH.
      * destruct (decide (idx = i)) as [->|]; [| lia].
        rewrite Hi in H0. injection H0 as ->.
        apply has_id_spec in Hid. congruence.
      * rewrite <- (Nat.add_1_r idx), <- drop_drop, Hdrop. done.
Qed.

(** Whatever the last id, the scan returns a template of the bank. *)
Lemma scan_in_bank (bank rest : list Template) (idx : nat) (last : str) :
  bank <> [] ->
  exists s, (s < length bank)%nat
            /\ scan_templates bank rest idx last = bank !! s.
Proof.
  intros Hne. assert (Hm : (0 < length bank)%nat).
  { destruct bank; [done | simpl; lia]. }
  revert idx. induction rest as [|t0 rest IH]; intros idx; simpl.
  - exists 0%nat. split; [done |]. by destruct bank.
  - destruct (has_id t0 last).
    + exists ((idx + 1) mod length bank)%nat. split; [| done].
      apply Nat.mod_upper_bound. lia.
    + apply IH.
Qed.

Variable self : CompanionService.

Lemma next_template_in_bank (last : option str) :
  templates self <> [] ->
  exists s t, (s < length (templates self))%nat
              /\ templates self !! s = Some t
              /\ _next_template self last = Some t.
Proof.
  intros Hne. unfold _next_template.
  destruct (templates self) as [|first others] eqn:Hbank; [done |].
  assert (Hfirst : exists s t, (s < length (first :: others))%nat
                               /\ (first :: others) !! s = Some t
                               /\ Some first = Some t).
  { exists 0%nat, first. simpl. split; [lia | done]. }
  destruct last as [last_id|]; [| done].
  destruct (negb (truthy last_id)); [done |].
  destruct (scan_in_bank (first :: others) (first :: others) 0 last_id)
    as (s & Hs & Hscan); [done |].
  destruct (lookup_lt_is_Some_2 (first :: others) s Hs) as [t Ht].
  exists s, t. split; [done |]. split; [done |]. by rewrite Hscan.
Qed.

(** The template after a template of a well-formed bank is its successor
    in the cycle. *)
(** In a well-formed bank every template has an id, which is not empty. *)
Lemma bank_ok_id (i : nat) (t : Template) :
  bank_ok self ->
  templates self !! i = Some t ->
  exists id : str, key_id t = Some id /\ id <> [].
Proof.
  intros [_ Hne] Hi.
  assert (Hin : In (key_id t) (bank_ids self)).
  { apply list_elem_of_In, list_elem_of_lookup. exists i.
    by apply lookup_key_id. }
  rewrite List.Forall_forall in Hne. by apply Hne.
Qed.

Lemma next_template_known (i : nat) (t : Template) :
  bank_ok self ->
  templates self !! i = Some t ->
  _next_template self (key_id t)
  = templates self !! ((i + 1) mod length (templates self))%nat.
Proof.
  intros Hok Hi. destruct (bank_ok_id i t Hok Hi) as (id & Hid & Hne).
  destruct Hok as [Hnd _]. rewrite Hid. unfold _next_template.
  assert (Htruthy : truthy id = true) by by destruct id.
  rewrite Htruthy. simpl negb. cbv iota.
  destruct (templates self) as [|first others] eqn:Hbank; [done |].
  unfold bank_ids in Hnd. rewrite Hbank in Hnd.
  apply (scan_known (first :: others) (first :: others) 0 i t id);
    [done | done | done | lia | done].
Qed.

Lemma mod_wrap (r j m : nat) :
  (r < m)%nat -> (j < m)%nat ->
  ((r + j) mod m = if r + j <? m then r + j else r + j - m)%nat.
Proof.
  intros Hr Hj. destruct (r + j <? m)%nat eqn:E.
  - apply Nat.ltb_lt in E. by apply Nat.mod_small.
  - apply Nat.ltb_ge in E.
    replace (r + j)%nat with (r + j - m + 1 * m)%nat at 1 by lia.
    rewrite Nat.Div0.mod_add. apply Nat.mod_small. lia.
Qed.

(** Two positions less than a full turn apart are different positions of
    the cycle. *)
Lemma mod_add_cancel (a j j' m : nat) :
  (j < m)%nat -> (j' < m)%nat ->
  ((a + j) mod m = (a + j') mod m)%nat -> j = j'.
Proof.
  intros Hj Hj'.
  rewrite <- (Nat.Div0.add_mod_idemp_l a j), <- (Nat.Div0.add_mod_idemp_l a j').
  assert (Hr : (a mod m < m)%nat) by (apply Nat.mod_upper_bound; lia).
  rewrite !mod_wrap by done.
  destruct (a mod m + j <? m)%nat eqn:E1; destruct (a mod m + j' <? m)%nat eqn:E2;
    try apply Nat.ltb_lt in E1; try apply Nat.ltb_lt in E2;
    try apply Nat.ltb_ge in E1; try apply Nat.ltb_ge in E2; lia.
Qed.

Lemma id_at_lookup (s : nat) (t : Template) :
  templates self !! s = Some t -> id_at self s = key_id t.
Proof.
  intros Hs. unfold id_at.
  rewrite Nat.mod_small by (by apply lookup_lt_Some in Hs).
  rewrite nth_lookup. unfold bank_ids. by rewrite (lookup_key_id _ _ _ Hs).
Qed.

Lemma id_at_periodic (a b : nat) :
  id_at self (a mod length (templates self) + b) = id_at self (a + b).
Proof. unfold id_at. by rewrite Nat.Div0.add_mod_idemp_l. Qed.

Lemma id_at_inj (a j j' : nat) :
  NoDup (bank_ids self) ->
  (j < length (templates self))%nat -> (j' < length (templates self))%nat ->
  id_at self (a + j) = id_at self (a + j') -> j = j'.
Proof.
  intros Hnd Hj Hj' Heq. unfold id_at in Heq.
  assert (Hlen : length (bank_ids self) = length (templates self))
    by apply length_map.
  apply (mod_add_cancel a j j' (length (templates self))); [done | done |].
  apply (proj1 (List.NoDup_nth (bank_ids self) None)
           (proj1 (NoDup_ListNoDup _) Hnd));
    [rewrite Hlen; apply Nat.mod_upper_bound; lia
    |rewrite Hlen; apply Nat.mod_upper_bound; lia | done].
Qed.

Lemma id_at_in_bank (k : nat) :
  templates self <> [] -> In (id_at self k) (bank_ids self).
Proof.
  intros Hne. unfold id_at. apply nth_In.
  unfold bank_ids. rewrite length_map. apply Nat.mod_upper_bound.
  by destruct (templates self).
Qed.

(** From a template of a well-formed bank on, the reflections walk the
    cycle. *)
Lemma rotation_known (n s : nat) (t : Template) :
  bank_ok self ->
  templates self !! s = Some t ->
  map Some (rotation self (key_id t) n)
  = map (fun j => id_at self (s + 1 + j)) (seq 0 n).
Proof.
  intros Hok. revert s t. induction n as [|n IH]; intros s t Hs; [done |].
  cbn [rotation]. rewrite (next_template_known s t Hok Hs).
  assert (Hm : (0 < length (templates self))%nat)
    by (apply lookup_lt_Some in Hs; lia).
  destruct (lookup_lt_is_Some_2 (templates self)
              ((s + 1) mod length (templates self))) as [t' Ht'].
  { apply Nat.mod_upper_bound. lia. }
  rewrite Ht'. destruct (bank_ok_id _ t' Hok Ht') as (id' & Hid' & _).
  rewrite Hid'. cbn [map seq]. f_equal.
  - rewrite <- Hid', <- (id_at_lookup _ _ Ht').
    rewrite <- (id_at_periodic (s + 1) 0). by rewrite !Nat.add_0_r.
  - rewrite <- Hid', (IH _ _ Ht'), <- seq_shift, map_map.
    apply map_ext. intros j.
    by rewrite <- Nat.add_assoc, id_at_periodic.
Qed.

(** From any last id, known or not, the reflections walk the cycle from
    some position. *)
Lemma rotation_walks_cycle (last : option str) :
  bank_ok self ->
  templates self <> [] ->
  exists s, forall n,
    map Some (rotation self last n)
    = map (fun j => id_at self (s + j)) (seq 0 n).
Proof.
  intros Hok Hne.
  destruct (next_template_in_bank last Hne) as (s & t & Hs & Ht & Hnext).
  destruct (bank_ok_id _ t Hok Ht) as (id & Hid & _).
  exists s. intros [|n]; [done |]. cbn [rotation]. rewrite Hnext, Hid.
  cbn [map seq]. f_equal.
  - by rewrite Nat.add_0_r, (id_at_lookup _ _ Ht).
  - rewrite <- Hid, (rotation_known n s t Hok Ht), <- seq_shift, map_map.
    apply map_ext. intros j. f_equal. lia.
Qed.

(** Any stretch of the cycle as long as the bank holds every id once. *)
Lemma cycle_window (a : nat) :
  bank_ok self ->
  Permutation
    (map (fun j => id_at self (a + j)) (seq 0 (length (templates self))))
    (bank_ids self).
Proof.
  intros [Hnd Hne].
  destruct (templates self) as [|first others] eqn:Hbank.
  { unfold bank_ids. by rewrite Hbank. }
  assert (Hbank' : templates self <> []) by (by rewrite Hbank).
  rewrite <- Hbank.
  assert (Hwin : NoDup (map (fun j => id_at self (a + j))
                          (seq 0 (length (templates self))))).
  { apply (NoDup_fmap_2_strong (fun j => id_at self (a + j))).
    - intros j j' Hj Hj' Heq.
      apply elem_of_seq in Hj, Hj'.
      apply (id_at_inj a j j'); [done | lia | lia | done].
    - apply NoDup_seq. }
  apply NoDup_Permutation; [done | done |].
  intros x. rewrite !list_elem_of_In. split.
  - intros Hx. apply in_map_iff in Hx as (j & <- & _).
    by apply id_at_in_bank.
  - revert x. apply List.NoDup_length_incl.
    + by apply NoDup_ListNoDup.
    + unfold bank_ids. rewrite !length_map, length_seq. done.
    + intros x Hx. apply in_map_iff in Hx as (j & <- & _).
      by apply id_at_in_bank.
Qed.

End RotationFacts.

(** C4 (as amended). For a bank in which every template has an id, the
    ids being pairwise different and non-empty, and from any
    last_template_id (known, unknown or absent):
    the first reflections of any run of consecutive successful reflections,
    as many as the bank has templates, use every template id exactly once;
    and when the bank has at least two templates, no two consecutive
    reflections use the same template. *)
Theorem template_rotation_covers_bank :
  forall self : CompanionService,
    bank_ok self ->
    covers_before_repeat self
    /\ ((2 <= length (templates self))%nat -> never_twice_in_a_row self).
Proof.
  intros self Hok. split.
  - intros last k.
    destruct (templates self) as [|first others] eqn:Hbank.
    { unfold bank_ids. rewrite Hbank. done. }
    rewrite <- Hbank.
    destruct (rotation_walks_cycle self last Hok) as [s Hs];
      [by rewrite Hbank |].
    change (map Some) with (fmap (M:=list) (@Some str)).
    rewrite fmap_take, fmap_drop.
    change (fmap (M:=list) (@Some str)) with (map (@Some str)).
    rewrite Hs.
    change (map (fun j => id_at self (s + j)))
      with (fmap (M:=list) (fun j => id_at self (s + j))).
    rewrite <- fmap_drop, <- fmap_take, drop_seq, take_seq.
    rewrite (Nat.add_comm 0 k).
    replace (k + length (templates self) - k)%nat
      with (length (templates self)) by lia.
    rewrite Nat.min_id, <- (fmap_add_seq k 0), <- list_fmap_compose.
    rewrite <- (cycle_window self (s + k) Hok).
    apply Permutation_refl'. apply map_ext. intros j. simpl.
    f_equal. lia.
  - intros Hm last n i a b Ha Hb Heq. subst b.
    destruct (rotation_walks_cycle self last Hok) as [s Hs].
    { destruct (templates self); [simpl in Hm; lia | done]. }
    apply (f_equal (fmap (@Some str))) in Ha, Hb.
    rewrite <- list_lookup_fmap in Ha, Hb.
    change (fmap (M:=list) (@Some str)) with (map (@Some str)) in Ha, Hb.
    rewrite Hs in Ha, Hb. cbn [fmap option_fmap option_map] in Ha, Hb.
    change (map (fun j => id_at self (s + j)))
      with (fmap (M:=list) (fun j => id_at self (s + j))) in Ha, Hb.
    rewrite list_lookup_fmap in Ha, Hb.
    destruct (seq 0 n !! i) as [x|] eqn:Hx; [| done].
    destruct (seq 0 n !! S i) as [y|] eqn:Hy; [| done].
    apply lookup_seq in Hx as [-> _]. apply lookup_seq in Hy as [-> _].
    simpl in Ha, Hb. injection Ha as Ha. injection Hb as Hb.
    assert (Hcontra : 0%nat = 1%nat); [| done].
    apply (id_at_inj self (s + i) 0 1 (proj1 Hok)); [lia | lia |].
    rewrite Nat.add_0_r. rewrite Ha.
    replace (s + i + 1)%nat with (s + S i)%nat by lia. by rewrite Hb.
Qed.

Lemma default_bank_ok : bank_ok sample_service.
Proof.
  split.
  - apply (bool_decide_unpack _). vm_compute. exact I.
  - repeat (constructor; [eexists; split; [reflexivity | discriminate] |]).
    constructor.
Defined.

Lemma template_rotation_covers_bank_witness :
  Permutation (map Some (rotation sample_service (Some (lit "tension")) 3))
    [Some (lit "focus"); Some (lit "tension"); Some (lit "momentum")]
  /\ never_twice_in_a_row sample_service.
Proof.
  destruct (template_rotation_covers_bank sample_service default_bank_ok)
    as [Hcover Hrow].
  split.
  - exact (Hcover (Some (lit "tension")) 0%nat).
  - apply Hrow. simpl. lia.
Defined.

(** C4, the claim as first stated, fails for banks that a cards file can
    hold: with a single template every reflection repeats the previous
    template; after a template whose id is empty the rotation starts again
    at the first template, and with a repeated id it returns to the first
    occurrence, so that a template is never reached; at a template without
    id the reflection fails with KeyError, so that the run ends there. *)
Lemma rotation_counterexample :
  rotation (bank_of ["only"]%string) None 2 = [lit "only"; lit "only"]
  /\ ~ never_twice_in_a_row (bank_of ["only"]%string)
  /\ rotation (bank_of ["a"; ""; "c"]%string) None 3 = [lit "a"; lit ""; lit "a"]
  /\ ~ covers_before_repeat (bank_of ["a"; ""; "c"]%string)
  /\ rotation (bank_of ["a"; "b"; "a"; "c"]%string) None 4
     = [lit "a"; lit "b"; lit "a"; lit "b"]
  /\ ~ covers_before_repeat (bank_of ["a"; "b"; "a"; "c"]%string)
  /\ rotation bank_missing_id None 3 = [lit "a"]
  /\ _build_reflection bank_missing_id 0 (lit "Planning the week") []
       (with_last_template_id (Some (lit "a")) (default_settings (lit "42")))
     = Raised KeyError
  /\ ~ covers_before_repeat bank_missing_id.
Proof.
  split; [reflexivity |]. split.
  { intros H.
    apply (H None 2%nat 0%nat (lit "only") (lit "only")); reflexivity. }
  split; [reflexivity |]. split.
  { intros H. specialize (H None 0%nat).
    assert (Hin : In (Some (lit "c"))
                    (bank_ids (bank_of ["a"; ""; "c"]%string))).
    { simpl. tauto. }
    apply (Permutation_in _ (Permutation_sym H)) in Hin.
    vm_compute in Hin. intuition discriminate. }
  split; [reflexivity |]. split.
  { intros H. specialize (H None 0%nat).
    assert (Hin : In (Some (lit "c"))
                    (bank_ids (bank_of ["a"; "b"; "a"; "c"]%string))).
    { simpl. tauto. }
    apply (Permutation_in _ (Permutation_sym H)) in Hin.
    vm_compute in Hin. intuition discriminate. }
  split; [reflexivity |]. split; [reflexivity |].
  intros H. specialize (H None 0%nat).
  assert (Hin : In (Some (lit "c")) (bank_ids bank_missing_id)).
  { simpl. tauto. }
  apply (Permutation_in _ (Permutation_sym H)) in Hin.
  vm_compute in Hin. intuition discriminate.
Qed.

(** ** The nudge scheduler: scheduling *)

Section ScheduleFacts.

Lemma whole_seconds_kept (t : datetime) :
  whole_seconds t -> _from_iso (_to_iso (Some t)) = Some t.
Proof.
  intros H. rewrite from_iso_to_iso. unfold replace_microsecond_0.
  unfold whole_seconds in H. rewrite H. f_equal. lia.
Qed.

Lemma first_candidate_whole_seconds (settings : UserSettings) (now : datetime)
    (quiet_end : time) :
  whole_seconds (first_candidate settings now quiet_end).
Proof.
  unfold whole_seconds, first_candidate.
  generalize (now + (if str_eqb (nudge_frequency settings) (lit "standard")
                     then timedelta 3 0 0 else timedelta 7 0 0)).
  intros x.
  unfold replace_hour_minute, replace_second_microsecond_0, timedelta,
    us_per_day, us_per_hour, us_per_minute, us_per_second.
  pose proof (Z.div_mod x 60000000 ltac:(lia)) as Hx.
  replace (60 * 1000000) with 60000000 in * by lia.
  set (c := x - x mod 60000000).
  assert (Hc : c = (x / 60000000) * 60000000) by (subst c; lia).
  assert (Hc0 : c mod 60000000 = 0) by (rewrite Hc; apply Z.mod_mul; lia).
  rewrite Hc0.
  pose proof (Z.div_mod c (24 * (60 * 60000000)) ltac:(lia)) as Hd.
  replace (c - c mod (24 * (60 * 60000000)) + hour quiet_end * (60 * 60000000)
           + minute quiet_end * 60000000 + 0
           + (0 * (24 * (60 * 60000000)) + 0 * (60 * 60000000) + 60 * 60000000))
    with ((86400 * (c / (24 * (60 * 60000000))) + 3600 * hour quiet_end
           + 60 * minute quiet_end + 3600) * 1000000) by lia.
  apply Z.mod_mul. lia.
Qed.

Lemma adjust_candidate_whole_seconds (now : datetime)
    (quiet_start quiet_end : time) (candidate : datetime) :
  whole_seconds candidate ->
  whole_seconds (adjust_candidate now quiet_start quiet_end candidate).
Proof.
  intros Hc.
  destruct (adjust_candidate_run now quiet_start quiet_end candidate)
    as (n & Hrun & _).
  apply loop_run_shape in Hrun as (-> & _).
  unfold whole_seconds in *.
  replace (Z.of_nat n * timedelta 0 1 0)
    with (Z.of_nat n * 3600 * us_per_second)
    by (unfold timedelta, us_per_day, us_per_hour, us_per_minute,
          us_per_second; lia).
  rewrite Z.mod_add by (unfold us_per_second; lia). done.
Qed.

Lemma compute_next_nudge_time_whole_seconds (settings : UserSettings)
    (now t : datetime) :
  _compute_next_nudge_time settings now = Returned t -> whole_seconds t.
Proof.
  unfold _compute_next_nudge_time.
  destruct (_quiet_bounds settings) as [[s e]| |]; simpl; try done.
  intros H. cbv [mret outcome_ret] in H. injection H as <-. apply adjust_candidate_whole_seconds,
                   first_candidate_whole_seconds.
Qed.

(** With quiet hours that parse, the nudge time is computed. *)
Lemma compute_next_nudge_time_returns (settings : UserSettings) (now : datetime)
    (bounds : time * time) :
  _quiet_bounds settings = Returned bounds ->
  _compute_next_nudge_time settings now
  = Returned (adjust_candidate now (fst bounds) (snd bounds)
                (first_candidate settings now (snd bounds))).
Proof.
  intros H. unfold _compute_next_nudge_time. rewrite H. by destruct bounds.
Qed.

(** The first candidate already lies more than two days ahead: the loop
    of [_compute_next_nudge_time] advances it at most once. *)
Lemma first_candidate_beyond_two_days (settings : UserSettings)
    (now : datetime) (quiet_end : time) :
  time_ok quiet_end ->
  first_candidate settings now quiet_end - now > timedelta 2 0 0.
Proof.
  intros (Hh & Hm & _). unfold first_candidate.
  assert (Hdelta : timedelta 3 0 0
                   <= (if str_eqb (nudge_frequency settings) (lit "standard")
                       then timedelta 3 0 0 else timedelta 7 0 0)).
  { destruct (str_eqb _ _); unfold timedelta, us_per_day, us_per_hour,
      us_per_minute, us_per_second; lia. }
  revert Hdelta.
  generalize (if str_eqb (nudge_frequency settings) (lit "standard")
              then timedelta 3 0 0 else timedelta 7 0 0).
  intros delta Hdelta.
  unfold replace_hour_minute, replace_second_microsecond_0, timedelta,
    us_per_day, us_per_hour, us_per_minute, us_per_second in *.
  pose proof (Z.mod_pos_bound (now + delta) (60 * 1000000) ltac:(lia)).
  pose proof (Z.mod_pos_bound
                (now + delta - (now + delta) mod (60 * 1000000))
                (24 * (60 * (60 * 1000000))) ltac:(lia)).
  pose proof (Z.mod_pos_bound
                (now + delta - (now + delta) mod (60 * 1000000))
                (60 * 1000000) ltac:(lia)).
  lia.
Qed.

Lemma nudge_time_advances_at_most_once (settings : UserSettings)
    (now : datetime) (start_ end_ : time) :
  _quiet_bounds settings = Returned (start_, end_) ->
  let candidate := first_candidate settings now end_ in
  _compute_next_nudge_time settings now
  = Returned (if _is_quiet_time (time_of candidate) start_ end_
              then candidate + timedelta 0 1 0 else candidate).
Proof.
  intros Hb candidate.
  rewrite (compute_next_nudge_time_returns _ _ _ Hb). cbn [fst snd].
  fold candidate. f_equal.
  destruct (quiet_bounds_ok _ _ _ Hb) as [_ He].
  pose proof (first_candidate_beyond_two_days settings now end_ He) as Hfar.
  fold candidate in Hfar.
  destruct (adjust_candidate_run now start_ end_ candidate) as (n & Hrun & _).
  assert (Hafter : _is_after_now candidate now = true).
  { unfold _is_after_now. apply Z.gtb_lt.
    unfold timedelta, us_per_day, us_per_hour, us_per_minute,
      us_per_second in *. lia. }
  inversion Hrun as [c Hc Hn Hr | c Hc Hbreak Hn Hr | c k r Hc Hstay Hrest];
    subst.
  - unfold keeps_adjusting in Hc. rewrite Hafter in Hc. simpl in Hc.
    rewrite Hc. congruence.
  - unfold keeps_adjusting in Hc. rewrite Hafter in Hc. simpl in Hc.
    rewrite Hc. congruence.
  - unfold timedelta, us_per_day, us_per_hour, us_per_minute,
      us_per_second in *. lia.
Qed.

(** [schedule_next_nudge] with the settings it reads named. *)
Lemma schedule_next_nudge_unfold (self : CompanionService) (env : Env)
    (chat : str) (w : World) :
  schedule_next_nudge self env chat w
  = let settings := fst (get_user_settings (storage w) chat) in
    if negb (enabled self)
       || str_eqb (companion_level settings) (lit "off")
       || str_eqb (nudge_frequency settings) (lit "off")
    then (Returned None, w)
    else if in_future (last_nudge_at settings) (utcnow env)
    then (Returned (last_nudge_at settings), w)
    else
      match _compute_next_nudge_time settings (utcnow env) with
      | Raised e => (Raised e, w)
      | Unmodelled => (Unmodelled, w)
      | Returned target_time =>
          match _pick_spark self (choice_1 env) (choice_2 env) with
          | None => (Returned None, w)
          | Some spark =>
              if negb (truthy spark) then (Returned None, w)
              else
                let message :=
                  lit "Spark: " ++ spark ++ lit " Reply stop to mute." in
                let scheduled :=
                  schedule_reminder_task env chat message target_time w in
                if negb (fst scheduled) then (Returned None, snd scheduled)
                else
                  (Returned (Some target_time),
                   {| storage :=
                        upsert_user_settings (storage (snd scheduled))
                          (with_last_nudge_at (Some target_time) settings)
                          (sql_now env);
                      broker_jobs := broker_jobs (snd scheduled) |})
          end
      end.
Proof.
  unfold schedule_next_nudge. rewrite get_user_settings_pair. cbv zeta.
  destruct (negb (enabled self) || _ || _); [done |].
  destruct (in_future _ _); [done |].
  destruct (_compute_next_nudge_time _ _) as [target_time| |]; try done.
  destruct (_pick_spark _ _ _) as [spark|]; [| done].
  destruct (negb (truthy spark)); [done |].
  by destruct (schedule_reminder_task _ _ _ _ _) as [scheduled w'].
Qed.

(** The hand-off to the queue touches the reminders table only, and the
    queue exactly when the broker takes the job. *)
Lemma schedule_reminder_task_effect (env : Env) (chat message : str)
    (t : datetime) (w : World) :
  let r := schedule_reminder_task env chat message t w in
  fst r = broker_ok env
  /\ user_settings (storage (snd r)) = user_settings (storage w)
  /\ (broker_ok env = false -> broker_jobs (snd r) = broker_jobs w)
  /\ (broker_ok env = true ->
      length (broker_jobs (snd r)) = S (length (broker_jobs w))).
Proof.
  unfold schedule_reminder_task, schedule_reminder. simpl.
  destruct (broker_ok env); simpl; repeat split; try done.
  intros _. rewrite length_app. simpl. lia.
Qed.

(** With a nudge pending, the call returns its time and touches nothing. *)
Lemma schedule_pending (self : CompanionService) (env : Env) (chat : str)
    (w : World) (t : datetime) :
  let settings := fst (get_user_settings (storage w) chat) in
  enabled self = true ->
  str_eqb (companion_level settings) (lit "off") = false ->
  str_eqb (nudge_frequency settings) (lit "off") = false ->
  last_nudge_at settings = Some t ->
  utcnow env < t ->
  schedule_next_nudge self env chat w = (Returned (Some t), w).
Proof.
  intros settings Hen Hlevel Hfreq Hlast Hnow.
  rewrite schedule_next_nudge_unfold. cbv zeta. fold settings.
  rewrite Hen, Hlevel, Hfreq, Hlast. simpl.
  assert (Hgt : (t >? utcnow env) = true) by (apply Z.gtb_lt; lia).
  by rewrite Hgt.
Qed.

(** With the companion or the nudges off, the call returns none and
    touches nothing. *)
Lemma schedule_off (self : CompanionService) (env : Env) (chat : str)
    (w : World) :
  let settings := fst (get_user_settings (storage w) chat) in
  enabled self = false
  \/ companion_level settings = lit "off"
  \/ nudge_frequency settings = lit "off" ->
  schedule_next_nudge self env chat w = (Returned None, w).
Proof.
  intros settings H. rewrite schedule_next_nudge_unfold. cbv zeta.
  fold settings.
  destruct H as [-> | [-> | ->]]; simpl; [done | |].
  - by rewrite orb_true_r.
  - by rewrite !orb_true_r.
Qed.

(** The quiet hours that reach the settings store parse: the defaults do,
    and [set_quiet_hours] stores two strings only after [strptime] has
    accepted both; it then stores them as given. *)
Lemma default_quiet_bounds (chat : str) :
  _quiet_bounds (default_settings chat)
  = Returned (mkTime 22 0 0 0, mkTime 7 0 0 0).
Proof. reflexivity. Qed.

Lemma set_quiet_hours_validates (chat start_ end_ : str) (sql : Z)
    (db : Storage) :
  match fst (set_quiet_hours chat start_ end_ sql db) with
  | Returned settings =>
      (exists bounds, _quiet_bounds settings = Returned bounds)
      /\ let stored :=
           fst (get_user_settings
                  (snd (set_quiet_hours chat start_ end_ sql db)) chat) in
         quiet_hours_start stored = start_ /\ quiet_hours_end stored = end_
  | _ => snd (set_quiet_hours chat start_ end_ sql db) = db
  end.
Proof.
  unfold set_quiet_hours, _validate_hhmm, _quiet_bounds.
  destruct (strptime_HM start_) as [a|] eqn:Ea; [| done].
  destruct (strptime_HM end_) as [b|] eqn:Eb; [| done].
  rewrite get_user_settings_pair. cbn [fst snd].
  split.
  - exists (a, b). simpl. by rewrite Ea, Eb.
  - destruct (get_after_upsert db
                (with_quiet_hours start_ end_ (fst (get_user_settings db chat)))
                sql chat (get_user_settings_chat_id db chat))
      as (_ & _ & _ & _ & _ & _ & Hs & He).
    done.
Qed.

End ScheduleFacts.

(** C7 (as amended). Nudge scheduling is idempotent for a user whose
    companion and nudges are on: when the stored last_nudge_at is strictly
    in the future, [schedule_next_nudge] returns that timestamp and leaves
    settings, reminders and queue as they are; hence whenever a call has
    returned a timestamp, a second call made before that timestamp returns
    the same timestamp and changes nothing, so that the two calls together
    enqueue at most one job. When the companion is disabled or
    companion_level or nudge_frequency is off, the call returns none,
    whatever last_nudge_at is, and changes nothing. *)
Theorem nudge_scheduling_idempotent :
  forall (self : CompanionService) (env : Env) (chat : str) (w : World),
    let settings := fst (get_user_settings (storage w) chat) in
    (forall t : datetime,
        enabled self = true ->
        companion_level settings <> lit "off" ->
        nudge_frequency settings <> lit "off" ->
        last_nudge_at settings = Some t ->
        utcnow env < t ->
        schedule_next_nudge self env chat w = (Returned (Some t), w))
    /\ (forall (t : datetime) (w1 : World) (env2 : Env),
          schedule_next_nudge self env chat w = (Returned (Some t), w1) ->
          utcnow env2 < t ->
          schedule_next_nudge self env2 chat w1 = (Returned (Some t), w1)
          /\ (length (broker_jobs w1) <= S (length (broker_jobs w)))%nat)
    /\ (enabled self = false
        \/ companion_level settings = lit "off"
        \/ nudge_frequency settings = lit "off" ->
        schedule_next_nudge self env chat w = (Returned None, w)).
Proof.
  intros self env chat w settings. split; [| split].
  - intros t Hen Hlevel Hfreq Hlast Hnow.
    apply schedule_pending; try done; by apply str_eqb_neq.
  - intros t w1 env2 Hfirst Hnow2.
    rewrite schedule_next_nudge_unfold in Hfirst. cbv zeta in Hfirst.
    fold settings in Hfirst.
    destruct (negb (enabled self)
              || str_eqb (companion_level settings) (lit "off")
              || str_eqb (nudge_frequency settings) (lit "off")) eqn:Hoff;
      [done |].
    apply orb_false_iff in Hoff as [Hoff Hfreq].
    apply orb_false_iff in Hoff as [Hen Hlevel].
    apply negb_false_iff in Hen.
    destruct (in_future (last_nudge_at settings) (utcnow env)) eqn:Hfut.
    { injection Hfirst as Hlast <-. split; [| lia].
      by apply schedule_pending. }
    destruct (_compute_next_nudge_time settings (utcnow env))
      as [target| |] eqn:Htarget; try done.
    destruct (_pick_spark self (choice_1 env) (choice_2 env)) as [spark|];
      [| done].
    destruct (negb (truthy spark)); [done |].
    set (message := lit "Spark: " ++ spark ++ lit " Reply stop to mute.") in *.
    destruct (schedule_reminder_task_effect env chat message target w)
      as (Hok & Htable & _ & Hjobs).
    destruct (negb (fst (schedule_reminder_task env chat message target w)))
      eqn:Hsched; [done |].
    apply negb_false_iff in Hsched. rewrite Hok in Hsched.
    injection Hfirst as -> <-. simpl. split; [| rewrite (Hjobs Hsched); lia].
    destruct (get_after_upsert
                (storage (snd (schedule_reminder_task env chat message t w)))
                (with_last_nudge_at (Some t) settings) (sql_now env) chat
                (get_user_settings_chat_id (storage w) chat))
      as (_ & _ & Hlast & _ & Hlevel' & Hfreq' & _).
    apply schedule_pending; simpl; try done.
    + by rewrite Hlevel'.
    + by rewrite Hfreq'.
    + rewrite Hlast. apply whole_seconds_kept.
      by apply (compute_next_nudge_time_whole_seconds settings (utcnow env)).
  - apply schedule_off.
Qed.

Lemma nudge_scheduling_idempotent_witness :
  let w := world_with (default_settings (lit "42")) in
  let first := schedule_next_nudge sample_service (env_at sample_now) (lit "42") w in
  let second :=
    schedule_next_nudge sample_service (env_at (sample_now + timedelta 0 1 0))
      (lit "42") (snd first) in
  fst first = Returned (Some 63929980800000000)
  /\ second = first
  /\ length (broker_jobs (snd second)) = 1%nat.
Proof.
  intros w first second.
  assert (Hfirst : first = (Returned (Some 63929980800000000), snd first))
    by (vm_compute; reflexivity).
  destruct (nudge_scheduling_idempotent sample_service (env_at sample_now)
              (lit "42") w) as (_ & Htwice & _).
  destruct (Htwice 63929980800000000 (snd first)
              (env_at (sample_now + timedelta 0 1 0)) Hfirst) as [Hsecond _].
  - vm_compute. reflexivity.
  - split; [rewrite Hfirst; reflexivity |].
    split; [subst second; rewrite Hsecond; symmetry; exact Hfirst |].
    subst second. rewrite Hsecond. vm_compute. reflexivity.
Defined.

(** C7, the claim as first stated, fails for a user who has turned the
    companion off while a nudge is pending: the call returns none and not
    the stored timestamp. *)
Lemma pending_nudge_off_counterexample :
  let settings :=
    with_last_nudge_at (Some sample_later)
      (with_companion_level (lit "off") (default_settings (lit "42"))) in
  let w := world_with settings in
  let result := schedule_next_nudge sample_service (env_at sample_now) (lit "42") w in
  last_nudge_at (fst (get_user_settings (storage w) (lit "42"))) = Some sample_later
  /\ sample_now < sample_later
  /\ result = (Returned None, w)
  /\ fst result <> Returned (Some sample_later).
Proof.
  vm_compute. repeat split; discriminate.
Qed.

(** What a call that fails leaves, and what a call that writes has done. *)
Lemma schedule_failure_keeps_state (self : CompanionService) (env : Env)
    (chat : str) (w : World) :
  let result := schedule_next_nudge self env chat w in
  let settings := fst (get_user_settings (storage w) chat) in
  (no_spark self env = true \/ broker_ok env = false ->
   user_settings (storage (snd result)) = user_settings (storage w)
   /\ broker_jobs (snd result) = broker_jobs w
   /\ (in_future (last_nudge_at settings) (utcnow env) = false ->
       (exists bounds, _quiet_bounds settings = Returned bounds) ->
       fst result = Returned None))
  /\ (user_settings (storage (snd result)) <> user_settings (storage w) ->
      broker_ok env = true
      /\ no_spark self env = false
      /\ exists t : datetime,
           fst result = Returned (Some t)
           /\ last_nudge_at
                (fst (get_user_settings (storage (snd result)) chat)) = Some t
           /\ length (broker_jobs (snd result)) = S (length (broker_jobs w))).
Proof.
  intros result settings. subst result.
  rewrite schedule_next_nudge_unfold. cbv zeta. fold settings.
  unfold no_spark.
  destruct (negb (enabled self)
            || str_eqb (companion_level settings) (lit "off")
            || str_eqb (nudge_frequency settings) (lit "off")).
  { simpl. split; [done |]. intros H. done. }
  destruct (in_future (last_nudge_at settings) (utcnow env)) eqn:Hfut.
  { simpl. split; [| done]. intros _. repeat split; done. }
  destruct (_compute_next_nudge_time settings (utcnow env))
    as [target| |] eqn:Htarget.
  2:{ simpl. split; [| done]. intros _. repeat split; try done.
      intros _ [bounds Hb].
      rewrite (compute_next_nudge_time_returns _ _ _ Hb) in Htarget. done. }
  2:{ simpl. split; [| done]. intros _. repeat split; try done.
      intros _ [bounds Hb].
      rewrite (compute_next_nudge_time_returns _ _ _ Hb) in Htarget. done. }
  destruct (_pick_spark self (choice_1 env) (choice_2 env)) as [spark|].
  2:{ simpl. split; [| done]. intros _. repeat split; done. }
  destruct (negb (truthy spark)) eqn:Hspark.
  { simpl. split; [| done]. intros _. repeat split; done. }
  set (message := lit "Spark: " ++ spark ++ lit " Reply stop to mute.").
  destruct (schedule_reminder_task_effect env chat message target w)
    as (Hok & Htable & Hkeep & Hjobs).
  rewrite Hok. destruct (broker_ok env) eqn:Hbroker; simpl.
  - split.
    { intros [H | H]; discriminate. }
    intros _. split; [done |]. split; [done |].
    exists target. split; [done |]. split; [| by apply Hjobs].
    destruct (get_after_upsert
                (storage (snd (schedule_reminder_task env chat message target w)))
                (with_last_nudge_at (Some target) settings) (sql_now env) chat
                (get_user_settings_chat_id (storage w) chat))
      as (_ & _ & Hlast & _).
    rewrite Hlast. apply whole_seconds_kept.
    by apply (compute_next_nudge_time_whole_seconds settings (utcnow env)).
  - split; [| done].
    intros _. split; [done |]. split; [by apply Hkeep | done].
Qed.

(** C8 (as amended). Nudge scheduling is atomic on failure. When no spark
    comes out of the bank or the broker does not take the job, the call
    leaves every user's settings row and the queue as they are. It then
    returns none when the companion is disabled or companion_level or
    nudge_frequency is off, and when no nudge is pending (for quiet hours
    that parse); when the companion is enabled, level and frequency are not
    off and a nudge is pending, it returns the stored last_nudge_at. In
    every call the settings table changes only together with a successful
    hand-off, and then last_nudge_at is the returned time. *)
Theorem nudge_scheduling_atomic_on_failure :
  forall (self : CompanionService) (env : Env) (chat : str) (w : World),
    let result := schedule_next_nudge self env chat w in
    let settings := fst (get_user_settings (storage w) chat) in
    (no_spark self env = true \/ broker_ok env = false ->
     user_settings (storage (snd result)) = user_settings (storage w)
     /\ broker_jobs (snd result) = broker_jobs w
     /\ (in_future (last_nudge_at settings) (utcnow env) = false ->
         (exists bounds, _quiet_bounds settings = Returned bounds) ->
         fst result = Returned None)
     /\ (enabled self = false
         \/ companion_level settings = lit "off"
         \/ nudge_frequency settings = lit "off" ->
         fst result = Returned None)
     /\ (enabled self = true ->
         companion_level settings <> lit "off" ->
         nudge_frequency settings <> lit "off" ->
         in_future (last_nudge_at settings) (utcnow env) = true ->
         fst result = Returned (last_nudge_at settings)))
    /\ (user_settings (storage (snd result)) <> user_settings (storage w) ->
        broker_ok env = true
        /\ no_spark self env = false
        /\ exists t : datetime,
             fst result = Returned (Some t)
             /\ last_nudge_at
                  (fst (get_user_settings (storage (snd result)) chat)) = Some t
             /\ length (broker_jobs (snd result)) = S (length (broker_jobs w))).
Proof.
  intros self env chat w result settings.
  destruct (schedule_failure_keeps_state self env chat w) as [Hfail Hchange].
  fold result settings in Hfail, Hchange.
  split; [| exact Hchange].
  intros Hf. destruct (Hfail Hf) as (Htable & Hjobs & Hnone).
  split; [exact Htable |]. split; [exact Hjobs |]. split; [exact Hnone |].
  split.
  - intros Hoff. subst result. by rewrite schedule_off.
  - intros Hen Hlevel Hfreq Hfut. subst result.
    destruct (last_nudge_at settings) as [t|] eqn:Hlast; [| done].
    simpl in Hfut. apply Z.gtb_lt in Hfut.
    rewrite (schedule_pending self env chat w t); try done;
      by apply str_eqb_neq.
Qed.

Lemma nudge_scheduling_atomic_on_failure_witness :
  let w := world_with (default_settings (lit "42")) in
  let result :=
    schedule_next_nudge sparkless_service (env_at sample_now) (lit "42") w in
  fst result = Returned None
  /\ user_settings (storage (snd result)) = user_settings (storage w)
  /\ broker_jobs (snd result) = [].
Proof.
  intros w result.
  destruct (nudge_scheduling_atomic_on_failure sparkless_service
              (env_at sample_now) (lit "42") w) as [Hfail _].
  destruct Hfail as (Htable & Hjobs & Hnone & _).
  - left. vm_compute. reflexivity.
  - split; [| split; [exact Htable | exact Hjobs]].
    apply Hnone.
    + vm_compute. reflexivity.
    + eexists. vm_compute. reflexivity.
Defined.

(** C8, the claim as first stated, fails for a user with a nudge pending:
    with no spark in the bank the call still returns the stored timestamp,
    not none. *)
Lemma no_spark_pending_counterexample :
  let settings := with_last_nudge_at (Some sample_later) (default_settings (lit "42")) in
  let w := world_with settings in
  let env := env_at sample_now in
  let result := schedule_next_nudge sparkless_service env (lit "42") w in
  _pick_spark sparkless_service (choice_1 env) (choice_2 env) = None
  /\ (forall draw_1 draw_2, _pick_spark sparkless_service draw_1 draw_2 = None)
  /\ result = (Returned (Some sample_later), w)
  /\ fst result <> Returned None.
Proof.
  split; [vm_compute; reflexivity |].
  split.
  { intros draw_1 draw_2. unfold _pick_spark, sparkless_service. simpl.
    rewrite map_to_list_singleton. simpl. unfold choice. simpl.
    by rewrite lookup_singleton_eq. }
  vm_compute. split; [reflexivity | discriminate].
Qed.

(* ===================================================================== *)
(** * Part III: further properties of the code *)
(* ===================================================================== *)

(** ** The decision engine beyond the claims *)

Section MoreDecisionFacts.

Lemma truthy_lower (s : str) : truthy (lower s) = truthy s.
Proof. by destruct s. Qed.

Lemma should_reflect_blank (now : datetime) (message : str)
    (recent : list Message) (settings : UserSettings) :
  strip message = [] ->
  _should_reflect now message recent settings = (false, settings).
Proof.
  intros H. unfold _should_reflect. rewrite H. simpl. by case_match.
Qed.

Lemma should_reflect_repeat (now : datetime) (message : str)
    (recent : list Message) (settings : UserSettings) :
  repeats_last recent (lower (strip message)) = true ->
  _should_reflect now message recent settings = (false, settings).
Proof.
  intros H. unfold _should_reflect. rewrite H.
  repeat (case_match; try done).
Qed.

End MoreDecisionFacts.

(** X1. A blank message (empty or whitespace only) and a message that
    repeats the previous user message of the conversation, up to case and
    surrounding whitespace, get the base reply; the stored record of every
    user is what it was: neither the streak nor the pause moves. *)
Theorem blank_or_repeated_message_is_suppressed :
  forall (self : CompanionService) (env : Env) (chat message base : str)
         (recent : list Message) (db : Storage),
    strip message = []
    \/ (exists previous : Message,
          last recent = Some previous
          /\ strip (user_message previous) <> []
          /\ lower (strip (user_message previous)) = lower (strip message)) ->
    let result := wrap_response self env chat message base recent db in
    fst result = Returned base
    /\ (forall c : str,
          fst (get_user_settings (snd result) c) = fst (get_user_settings db c))
    /\ companion_metrics (snd result) = companion_metrics db.
Proof.
  intros self env chat message base recent db Hcase result. subst result.
  assert (Hrefuse :
            _should_reflect (utcnow env) message recent
              (fst (get_user_settings db chat))
            = (false, fst (get_user_settings db chat))).
  { destruct Hcase as [Hblank | (previous & Hlast & Hne & Hsame)].
    - by apply should_reflect_blank.
    - apply should_reflect_repeat. unfold repeats_last. rewrite Hlast.
      rewrite truthy_lower, Hsame, str_eqb_refl.
      by destruct (strip (user_message previous)). }
  destruct (enabled self) eqn:Hen.
  - rewrite wrap_response_refused by done.
    cbn [fst snd]. split; [done |]. split; [| done].
    intros c. apply upsert_read_back.
  - unfold wrap_response. rewrite Hen. done.
Qed.

Lemma blank_or_repeated_message_is_suppressed_witness :
  let db := db_with (with_short_reply_streak 1 (default_settings (lit "42"))) in
  let result :=
    wrap_response sample_service (env_at sample_now) (lit "42")
      (lit "  What about my Budget?") (lit "Here it is.")
      [mkMessage (lit "42") (lit "what about my budget? ") (lit "Hm.") sample_now]
      db in
  fst result = Returned (lit "Here it is.")
  /\ short_reply_streak (fst (get_user_settings (snd result) (lit "42"))) = 1.
Proof.
  intros db result.
  destruct (blank_or_repeated_message_is_suppressed sample_service
              (env_at sample_now) (lit "42") (lit "  What about my Budget?")
              (lit "Here it is.")
              [mkMessage (lit "42") (lit "what about my budget? ") (lit "Hm.")
                 sample_now] db) as (Hbase & Hsame & _).
  - right. eexists. split; [reflexivity |]. split; [discriminate | reflexivity].
  - split; [exact Hbase |]. subst result. rewrite (Hsame (lit "42")).
    reflexivity.
Defined.

(** ** The settings store beyond the claims *)

Section MoreStorageFacts.

Lemma get_after_upsert_full (db : Storage) (settings : UserSettings) (sql : Z) :
  fst (get_user_settings (upsert_user_settings db settings sql)
         (chat_id settings))
  = as_stored settings.
Proof.
  unfold get_user_settings, upsert_user_settings. simpl.
  by rewrite lookup_insert_eq.
Qed.

Lemma floor_timestamp_idempotent (v : option datetime) :
  _from_iso (_to_iso (_from_iso (_to_iso v))) = _from_iso (_to_iso v).
Proof. by rewrite to_iso_from_iso. Qed.

Lemma as_stored_idempotent (settings : UserSettings) :
  as_stored (as_stored settings) = as_stored settings.
Proof.
  unfold as_stored. cbn [chat_id companion_level nudge_frequency
    quiet_hours_start quiet_hours_end last_reflection_at short_reply_streak
    reflections_paused_until last_template_id last_nudge_at].
  by rewrite !floor_timestamp_idempotent.
Qed.

Lemma as_stored_read (db : Storage) (c : str) :
  as_stored (fst (get_user_settings db c)) = fst (get_user_settings db c).
Proof.
  unfold get_user_settings.
  destruct (user_settings db !! c) as [row|]; [| done].
  unfold as_stored. simpl fst.
  cbn [chat_id companion_level nudge_frequency
    quiet_hours_start quiet_hours_end last_reflection_at short_reply_streak
    reflections_paused_until last_template_id last_nudge_at].
  by rewrite !to_iso_from_iso.
Qed.

Lemma get_user_settings_other (db : Storage) (settings : UserSettings)
    (sql : Z) (c : str) :
  c <> chat_id settings ->
  get_user_settings (upsert_user_settings db settings sql) c
  = (fst (get_user_settings db c), upsert_user_settings db settings sql).
Proof.
  intros Hne. unfold get_user_settings at 1.
  unfold upsert_user_settings at 1. cbn [user_settings].
  rewrite lookup_insert_ne by done.
  unfold get_user_settings. by destruct (user_settings db !! c).
Qed.

(** A storage call keeps every existing settings row and its creation
    time. *)
Lemma run_call_keeps_row (call : StorageCall) (db : Storage) (c : str)
    (row : SettingsRow) :
  user_settings db !! c = Some row ->
  exists row', user_settings (run_call call db) !! c = Some row'
               /\ col_created_at row' = col_created_at row.
Proof.
  intros Hrow. destruct call as [c0|settings sql|metric|c0 msg t]; simpl.
  - rewrite get_user_settings_db. by exists row.
  - destruct (decide (chat_id settings = c)) as [<-|Hne].
    + rewrite lookup_insert_eq, Hrow. eexists. split; [done |]. done.
    + rewrite lookup_insert_ne by done. by exists row.
  - by exists row.
  - by exists row.
Qed.

End MoreStorageFacts.

(** X2. The settings round trip: after [upsert_user_settings] a read of
    the same chat id returns the record that was written, its timestamps
    cut to whole seconds; writing back what was read changes nothing more
    (the upsert is idempotent on the settings), and the rows of all other
    chat ids, the metrics and the reminders are untouched. *)
Theorem upsert_then_get_round_trip :
  forall (db : Storage) (settings : UserSettings) (sql sql' : Z),
    let db' := upsert_user_settings db settings sql in
    let stored := fst (get_user_settings db' (chat_id settings)) in
    stored = as_stored settings
    /\ as_stored stored = stored
    /\ (forall c : str,
          fst (get_user_settings (upsert_user_settings db' stored sql') c)
          = fst (get_user_settings db' c))
    /\ (forall c : str, c <> chat_id settings ->
          user_settings db' !! c = user_settings db !! c)
    /\ companion_metrics db' = companion_metrics db
    /\ reminders db' = reminders db.
Proof.
  intros db settings sql sql' db' stored. subst stored db'.
  rewrite get_after_upsert_full.
  split; [done |]. split; [apply as_stored_idempotent |]. split.
  - intros c. rewrite <- (get_after_upsert_full db settings sql).
    apply upsert_read_back.
  - split; [| done]. intros c Hne. unfold upsert_user_settings. simpl.
    by rewrite lookup_insert_ne.
Qed.

(** X3. Settings rows are never deleted and keep their creation time: a
    row that exists is still there, with the [created_at] it had, after any
    sequence of storage calls (reads, upserts, metric and reminder
    inserts). *)
Theorem settings_rows_are_kept :
  forall (calls : list StorageCall) (db : Storage) (c : str) (row : SettingsRow),
    user_settings db !! c = Some row ->
    exists row' : SettingsRow,
      user_settings (run_calls calls db) !! c = Some row'
      /\ col_created_at row' = col_created_at row.
Proof.
  induction calls as [|call calls IH]; intros db c row Hrow.
  - by exists row.
  - destruct (run_call_keeps_row call db c row Hrow) as (row1 & Hrow1 & Hc1).
    destruct (IH _ c row1 Hrow1) as (row' & Hrow' & Hc').
    exists row'. split; [exact Hrow' | congruence].
Qed.

Lemma settings_rows_are_kept_witness :
  let db := upsert_user_settings empty_db (default_settings (lit "42")) 100 in
  exists row' : SettingsRow,
    user_settings
      (run_calls
         [CallUpsertUserSettings
            (with_companion_level (lit "off") (default_settings (lit "42"))) 200;
          CallGetUserSettings (lit "7")]
         db) !! lit "42" = Some row'
    /\ col_created_at row' = 100.
Proof.
  intros db.
  destruct (settings_rows_are_kept
              [CallUpsertUserSettings
                 (with_companion_level (lit "off") (default_settings (lit "42")))
                 200;
               CallGetUserSettings (lit "7")]
              db (lit "42")
              (mkSettingsRow (lit "light") (lit "weekly") (lit "22:00")
                 (lit "07:00") None 0 None None None 100 100))
    as (row' & Hrow' & Hc).
  - vm_compute. reflexivity.
  - exists row'. split; [exact Hrow' | exact Hc].
Defined.

(** ** A shown reflection *)

Section ShownReflectionFacts.

(** [_should_reflect] assigns to the streak and to the pause only. *)
Lemma should_reflect_keeps_configuration (now : datetime) (message : str)
    (recent : list Message) (settings : UserSettings) :
  let settings' := snd (_should_reflect now message recent settings) in
  chat_id settings' = chat_id settings
  /\ companion_level settings' = companion_level settings
  /\ nudge_frequency settings' = nudge_frequency settings
  /\ quiet_hours_start settings' = quiet_hours_start settings
  /\ quiet_hours_end settings' = quiet_hours_end settings
  /\ last_reflection_at settings' = last_reflection_at settings
  /\ last_template_id settings' = last_template_id settings
  /\ last_nudge_at settings' = last_nudge_at settings.
Proof.
  unfold _should_reflect. repeat (case_match; simpl; try done).
Qed.

Lemma wrap_response_shown (self : CompanionService) (env : Env)
    (chat message base : str) (recent : list Message) (db : Storage)
    (settings' : UserSettings) (reflection : ReflectionResult) :
  enabled self = true ->
  _should_reflect (utcnow env) message recent (fst (get_user_settings db chat))
  = (true, settings') ->
  _build_reflection self (choice_1 env) message base settings'
  = Returned (Some reflection) ->
  let written :=
    with_short_reply_streak 0
      (with_reflections_paused_until None
         (with_last_template_id (Some (refl_template_id reflection))
            (with_last_reflection_at (Some (utcnow_shown env)) settings'))) in
  let db1 := upsert_user_settings db written (sql_now env) in
  wrap_response self env chat message base recent db
  = (Returned (_merge_response base (text reflection)),
     if metric_ok env
     then snd (record_companion_metric db1
                 {| metric_chat_id := chat;
                    template_id := Some (refl_template_id reflection);
                    shown_at := utcnow_shown env;
                    muted := false;
                    line_count := refl_line_count reflection |})
     else db1).
Proof.
  intros Hen Hdec Hbuild written db1. unfold wrap_response.
  rewrite Hen, get_user_settings_pair, Hdec. cbn [negb].
  rewrite Hbuild. done.
Qed.

End ShownReflectionFacts.

(** X4. What a shown reflection leaves behind. When [_should_reflect]
    agrees and a reflection is built, [wrap_response] returns the merged
    reply and stores short_reply_streak = 0, no pause, last_reflection_at =
    the time of showing (without microseconds) and last_template_id = the
    template used; level, nudge frequency, quiet hours and last_nudge_at
    stay as they were; exactly one metric row (line count as built, not
    muted) is appended unless the metric insert fails, which does not
    change the reply or the settings. *)
Theorem shown_reflection_persists_state :
  forall (self : CompanionService) (env : Env) (chat message base : str)
         (recent : list Message) (db : Storage) (reflection : ReflectionResult),
    let settings := fst (get_user_settings db chat) in
    let decided := _should_reflect (utcnow env) message recent settings in
    enabled self = true ->
    fst decided = true ->
    _build_reflection self (choice_1 env) message base (snd decided)
    = Returned (Some reflection) ->
    let result := wrap_response self env chat message base recent db in
    let stored := fst (get_user_settings (snd result) chat) in
    fst result = Returned (_merge_response base (text reflection))
    /\ short_reply_streak stored = 0
    /\ reflections_paused_until stored = None
    /\ last_reflection_at stored = Some (replace_microsecond_0 (utcnow_shown env))
    /\ last_template_id stored = Some (refl_template_id reflection)
    /\ companion_level stored = companion_level settings
    /\ nudge_frequency stored = nudge_frequency settings
    /\ quiet_hours_start stored = quiet_hours_start settings
    /\ quiet_hours_end stored = quiet_hours_end settings
    /\ last_nudge_at stored = last_nudge_at settings
    /\ companion_metrics (snd result)
       = companion_metrics db
         ++ (if metric_ok env
             then [shown_metric_row chat (refl_template_id reflection)
                     (utcnow_shown env) (refl_line_count reflection)]
             else [])
    /\ reminders (snd result) = reminders db.
Proof.
  intros self env chat message base recent db reflection settings decided
         Hen Hdec Hbuild result stored.
  destruct (should_reflect_keeps_configuration (utcnow env) message recent
              settings) as (Hchat & Hlevel & Hfreq & Hqs & Hqe & _ & _ & Hnudge).
  fold decided in Hchat, Hlevel, Hfreq, Hqs, Hqe, Hnudge.
  destruct decided as [decision settings'] eqn:Hd.
  cbn [fst snd] in *. subst decision.
  pose proof (wrap_response_shown self env chat message base recent db
                settings' reflection Hen Hd Hbuild) as Hwrap.
  cbv zeta in Hwrap. subst stored result. rewrite Hwrap. cbn [fst snd].
  set (written :=
         with_short_reply_streak 0
           (with_reflections_paused_until None
              (with_last_template_id (Some (refl_template_id reflection))
                 (with_last_reflection_at (Some (utcnow_shown env)) settings')))).
  assert (Hkey : chat_id written = chat).
  { simpl. rewrite Hchat. apply get_user_settings_chat_id. }
  assert (Hview :
            fst (get_user_settings
                   (if metric_ok env
                    then snd (record_companion_metric
                                (upsert_user_settings db written (sql_now env))
                                {| metric_chat_id := chat;
                                   template_id := Some (refl_template_id reflection);
                                   shown_at := utcnow_shown env;
                                   muted := false;
                                   line_count := refl_line_count reflection |})
                    else upsert_user_settings db written (sql_now env))
                   (chat_id written))
            = as_stored written).
  { destruct (metric_ok env);
      [rewrite get_user_settings_after_metric |];
      apply get_after_upsert_full. }
  rewrite Hkey in Hview. rewrite Hview. split; [done |].
  unfold as_stored, written. simpl.
  rewrite Hlevel, Hfreq, Hqs, Hqe, Hnudge.
  split; [done |]. split; [done |]. split.
  { f_equal. unfold replace_microsecond_0, us_per_second.
    pose proof (Z.div_mod (utcnow_shown env) 1000000 ltac:(lia)) as H.
    replace (utcnow_shown env - utcnow_shown env mod 1000000)
      with (utcnow_shown env / 1000000 * 1000000) by lia.
    rewrite Z.div_mul by lia. done. }
  split; [done |]. repeat (split; [done |]).
  split.
  { fold settings. pose proof (as_stored_read db chat) as Hread.
    fold settings in Hread. unfold as_stored in Hread.
    by apply (f_equal last_nudge_at) in Hread. }
  split; [| by destruct (metric_ok env)].
  destruct (metric_ok env); simpl; [done | by rewrite app_nil_r].
Qed.

Lemma shown_reflection_persists_state_witness :
  let db := db_with (with_short_reply_streak 1 (default_settings (lit "42"))) in
  let result :=
    wrap_response sample_service (env_at sample_now) (lit "42")
      (lit "I went to the gym again today") (lit "Good job.") [] db in
  let stored := fst (get_user_settings (snd result) (lit "42")) in
  fst result
  = Returned (lit "Good job." ++ [newline]
              ++ lit "What would move health forward today?")
  /\ short_reply_streak stored = 0
  /\ last_template_id stored = Some (lit "focus")
  /\ length (companion_metrics (snd result)) = 1%nat.
Proof.
  intros db result stored.
  destruct (shown_reflection_persists_state sample_service (env_at sample_now)
              (lit "42") (lit "I went to the gym again today") (lit "Good job.")
              [] db
              {| text := lit "What would move health forward today?";
                 refl_template_id := lit "focus";
                 refl_line_count := 1 |})
    as (Hreply & Hstreak & _ & _ & Htemplate & _ & _ & _ & _ & _ & Hmetrics & _).
  - reflexivity.
  - vm_compute. reflexivity.
  - vm_compute. reflexivity.
  - split; [exact Hreply |]. split; [exact Hstreak |].
    split; [exact Htemplate |].
    subst result. rewrite Hmetrics. reflexivity.
Defined.

(** ** What [wrap_response] never touches *)

Section FrameFacts.

Lemma upsert_frame (db : Storage) (settings : UserSettings) (sql : Z)
    (chat c : str) :
  chat_id settings = chat -> c <> chat ->
  user_settings (upsert_user_settings db settings sql) !! c
  = user_settings db !! c.
Proof.
  intros <- Hne. unfold upsert_user_settings. simpl.
  by rewrite lookup_insert_ne.
Qed.

Lemma upsert_row_exists (db : Storage) (settings : UserSettings) (sql : Z) :
  is_Some (user_settings (upsert_user_settings db settings sql)
           !! chat_id settings).
Proof.
  unfold upsert_user_settings. simpl. rewrite lookup_insert_eq. eauto.
Qed.

End FrameFacts.

(** X5. The footprint of [wrap_response]. Whatever the message and the
    outcome, it leaves the settings rows of all other chat ids and the
    reminders as they are and adds at most one metric row, for the chat id
    of the call; a disabled service and a call that raises leave the whole
    database as it was; a call of an enabled service that returns leaves a
    settings row for the chat id, so the row is created by the first
    message. *)
Theorem wrap_response_footprint :
  forall (self : CompanionService) (env : Env) (chat message base : str)
         (recent : list Message) (db : Storage),
    let result := wrap_response self env chat message base recent db in
    (forall c : str, c <> chat ->
        user_settings (snd result) !! c = user_settings db !! c)
    /\ reminders (snd result) = reminders db
    /\ (companion_metrics (snd result) = companion_metrics db
        \/ exists row : MetricRow,
             companion_metrics (snd result) = companion_metrics db ++ [row]
             /\ mrow_chat_id row = chat)
    /\ (enabled self = false -> result = (Returned base, db))
    /\ match fst result with
       | Returned _ =>
           enabled self = true ->
           is_Some (user_settings (snd result) !! chat)
       | _ => snd result = db
       end.
Proof.
  intros self env chat message base recent db result. subst result.
  unfold wrap_response.
  destruct (enabled self) eqn:Hen; cbn [negb].
  2:{ cbn [fst snd]. repeat split; try done. by left. }
  rewrite get_user_settings_pair.
  destruct (should_reflect_keeps_configuration (utcnow env) message recent
              (fst (get_user_settings db chat))) as (Hchat & _).
  rewrite get_user_settings_chat_id in Hchat.
  destruct (_should_reflect (utcnow env) message recent
              (fst (get_user_settings db chat))) as [decision settings'].
  cbn [fst snd] in Hchat.
  destruct decision; cbn [negb].
  2:{ cbn [fst snd]. split; [intros c Hc; by apply (upsert_frame _ _ _ chat) |].
      split; [done |]. split; [by left |]. split; [done |].
      intros _. rewrite <- Hchat. apply upsert_row_exists. }
  destruct (_build_reflection self (choice_1 env) message base settings')
    as [[reflection|]| |]; cbn [fst snd].
  - split.
    { intros c Hc. destruct (metric_ok env); simpl;
        by rewrite lookup_insert_ne by (rewrite Hchat; done). }
    split; [by destruct (metric_ok env) |]. split.
    { destruct (metric_ok env); [right | by left].
      eexists. split; [reflexivity | done]. }
    split; [done |]. intros _.
    destruct (metric_ok env); simpl; rewrite Hchat, lookup_insert_eq; eauto.
  - split; [intros c Hc; by apply (upsert_frame _ _ _ chat) |].
    split; [done |]. split; [by left |]. split; [done |].
    intros _. rewrite <- Hchat. apply upsert_row_exists.
  - repeat split; try done. by left.
  - repeat split; try done. by left.
Qed.

(** ** Words: [split], [join], [_trim_line] and [_focus] *)

Section WordFacts.

Lemma split_from_tokens (cur s : str) :
  forallb (fun c => negb (isspace c)) cur = true ->
  Forall token_ok (split_from cur s).
Proof.
  revert cur. induction s as [|c s IH]; intros cur Hcur; simpl.
  - destruct cur as [|x cur]; [constructor |].
    constructor; [| constructor]. by split.
  - destruct (isspace c) eqn:Hc.
    + destruct cur as [|x cur]; [by apply IH |].
      constructor; [by split | by apply IH].
    + apply IH. rewrite forallb_app, Hcur. simpl. by rewrite Hc.
Qed.

(** The words of a string are tokens. *)
Lemma split_tokens (s : str) : Forall token_ok (split s).
Proof. by apply split_from_tokens. Qed.

Lemma split_from_token_prefix (cur p s : str) :
  forallb (fun c => negb (isspace c)) p = true ->
  split_from cur (p ++ s) = split_from (cur ++ p) s.
Proof.
  revert cur. induction p as [|c p IH]; intros cur Hp; simpl.
  - by rewrite app_nil_r.
  - simpl in Hp. apply andb_true_iff in Hp as [Hc Hp].
    apply negb_true_iff in Hc. rewrite Hc, (IH _ Hp).
    by rewrite <- app_assoc.
Qed.

Lemma split_from_after_space (cur s : str) :
  cur <> [] ->
  split_from cur (lit " " ++ s) = cur :: split_from [] s.
Proof. intros H. by destruct cur. Qed.

(** Joining tokens with single spaces and splitting again gives the tokens
    back. *)
Lemma split_join (words : list str) :
  Forall token_ok words -> split (join (lit " ") words) = words.
Proof.
  induction 1 as [|p rest [Hne Hp] Hrest IH]; [done |].
  unfold split in *. destruct rest as [|q rest'].
  - simpl. rewrite <- (app_nil_r p) at 1.
    rewrite split_from_token_prefix by done. simpl. by destruct p.
  - change (join (lit " ") (p :: q :: rest'))
      with (p ++ lit " " ++ join (lit " ") (q :: rest')).
    rewrite split_from_token_prefix by done.
    rewrite app_nil_l, split_from_after_space by done.
    by rewrite IH.
Qed.

End WordFacts.

(** X6. [_trim_line] keeps exactly the first 30 words of a line, in order:
    the result has at most 30 words, a line of at most 30 words is returned
    as it is (spacing included), and a longer line becomes its first 30
    words joined by single spaces. *)
Theorem trim_line_keeps_first_30_words :
  forall line : str,
    split (_trim_line line) = take 30 (split line)
    /\ len (split (_trim_line line)) <= 30
    /\ (len (split line) <= 30 -> _trim_line line = line)
    /\ (30 < len (split line) ->
        _trim_line line = join (lit " ") (take 30 (split line))).
Proof.
  intros line.
  assert (Hsplit : split (_trim_line line) = take 30 (split line)).
  { unfold _trim_line. destruct (len (split line) <=? 30) eqn:E.
    - apply Z.leb_le in E. unfold len in E.
      rewrite take_ge by lia. done.
    - apply split_join, Forall_take, split_tokens. }
  split; [done |]. split.
  { rewrite Hsplit. unfold len. rewrite length_take. lia. }
  unfold _trim_line. split; intros H.
  - apply Z.leb_le in H. by rewrite H.
  - apply Z.leb_gt in H. by rewrite H.
Qed.

(** X7. [_focus] is the message with its whitespace collapsed, capped at 64
    characters: the result never has more than 64 characters; when the
    collapsed message fits it is returned whole and has the words of the
    message; otherwise the result is its first 61 characters followed by
    three dots, 64 characters in all. *)
Theorem focus_is_capped_at_64_characters :
  forall message : str,
    let clean := join (lit " ") (split message) in
    len (_focus message) <= 64
    /\ (len clean <= 64 ->
        _focus message = clean /\ split (_focus message) = split message)
    /\ (64 < len clean ->
        _focus message = take 61 clean ++ lit "..."
        /\ len (_focus message) = 64).
Proof.
  intros message clean. unfold _focus. rewrite split_strip. fold clean.
  destruct (len clean <=? 64) eqn:E.
  - apply Z.leb_le in E. split; [done |]. split; [| lia].
    intros _. split; [done |]. apply split_join, split_tokens.
  - apply Z.leb_gt in E.
    assert (Hlen : len (take 61 clean ++ lit "...") = 64).
    { unfold len in *. rewrite length_app, length_take.
      change (length (lit "...")) with 3%nat. lia. }
    split; [lia |]. split; [lia | done].
Qed.

(** ** Rendering a template line *)

Section RenderFacts.

Lemma format_run_brace_free (out topic focus s : str) :
  brace_free s = true ->
  PyFormat.format_run PyFormat.Literal out topic focus s = Returned (out ++ s).
Proof.
  revert out. induction s as [|c s IH]; intros out H; simpl.
  - by rewrite app_nil_r.
  - simpl in H. apply andb_true_iff in H as [Hc Hs].
    apply andb_true_iff in Hc as [Hl Hr].
    apply negb_true_iff in Hl, Hr. rewrite Hl, Hr, (IH _ Hs).
    by rewrite <- app_assoc.
Qed.

Lemma trim_line_words (line : str) : len (split (_trim_line line)) <= 30.
Proof.
  unfold _trim_line. destruct (len (split line) <=? 30) eqn:E.
  - by apply Z.leb_le in E.
  - rewrite split_join by apply Forall_take, split_tokens.
    unfold len. rewrite length_take. lia.
Qed.

Lemma trim_line_truthy (line : str) :
  truthy line = true -> truthy (_trim_line line) = true.
Proof.
  intros H. unfold _trim_line.
  destruct (len (split line) <=? 30) eqn:E; [done |].
  apply Z.leb_gt in E. unfold len in E.
  pose proof (split_tokens line) as Htok.
  destruct (split line) as [|w ws]; [simpl in E; lia |].
  apply Forall_cons in Htok as [[Hw _] _].
  destruct w as [|c w]; [done |].
  simpl. by destruct (take 29 ws).
Qed.

Lemma format_line_words (template topic focus line : str) :
  _format_line template topic focus = Returned line ->
  len (split line) <= 30.
Proof.
  unfold _format_line. destruct (negb (truthy template)).
  - intros [= <-]. done.
  - destruct (PyFormat.format template topic focus) as [x|[]|];
      try done; intros [= <-]; apply trim_line_words.
Qed.

(** The lines that one key of the template contributes are rendered from
    it and are not empty. *)
Lemma element_of_spec (line topic focus : str) (elements : list str) :
  element_of line topic focus = Returned elements ->
  forall x, In x elements ->
    x <> [] /\ line <> [] /\ _format_line line topic focus = Returned x.
Proof.
  unfold element_of. destruct (truthy line) eqn:Hline.
  - destruct (_format_line line topic focus) as [formatted| |]; try done.
    cbn. destruct (truthy formatted) eqn:Hf; intros [= <-] x Hx; [| done].
    destruct Hx as [<- | []]. repeat split.
    + by destruct formatted.
    + by destruct line.
  - by intros [= <-] x Hx.
Qed.

End RenderFacts.

(** X8. [_format_line] renders a template line without braces as the line
    itself (cut to 30 words) whatever topic and focus are, gives the empty
    string for an empty template, falls back to the unformatted template
    when [format] meets an unknown field name, so that it never raises
    KeyError, and never returns more than 30 words. *)
Theorem format_line_plain_text_and_fallback :
  forall template topic focus : str,
    (brace_free template = true ->
     _format_line template topic focus = Returned (_trim_line template))
    /\ (PyFormat.format template topic focus = Raised KeyError ->
        _format_line template topic focus = Returned (_trim_line template))
    /\ match _format_line template topic focus with
       | Returned line => len (split line) <= 30
       | Raised KeyError => False
       | _ => True
       end
    /\ _format_line [] topic focus = Returned [].
Proof.
  intros template topic focus. split; [| split; [| split; [| done]]].
  - intros H. unfold _format_line, PyFormat.format.
    rewrite format_run_brace_free by done.
    destruct template; [done |]. done.
  - intros H. unfold _format_line. rewrite H.
    destruct template; [| done].
    by vm_compute in H.
  - destruct (_format_line template topic focus) as [line|e|] eqn:E;
      [by apply (format_line_words _ _ _ _ E) | | done].
    unfold _format_line in E. destruct (negb (truthy template)); [done |].
    destruct (PyFormat.format template topic focus) as [x|[]|];
      try done; by injection E as <-.
Qed.

(** ** The reflection that is built and the reply that is returned *)

Section ReplyFacts.

Lemma format_line_no_key_error (template topic focus : str) :
  _format_line template topic focus <> Raised KeyError.
Proof.
  unfold _format_line. destruct (negb (truthy template)); [done |].
  by destruct (PyFormat.format template topic focus) as [x|[]|].
Qed.

Lemma element_of_no_key_error (line topic focus : str) :
  element_of line topic focus <> Raised KeyError.
Proof.
  unfold element_of. destruct (truthy line); [| done].
  pose proof (format_line_no_key_error line topic focus) as H.
  by destruct (_format_line line topic focus) as [x|[]|].
Qed.

(** The shape of a reflection that [_build_reflection] returns. *)
Lemma build_reflection_some (self : CompanionService) (draw : nat)
    (message base : str) (settings : UserSettings) (r : ReflectionResult) :
  _build_reflection self draw message base settings = Returned (Some r) ->
  refl_line_count r = 1
  /\ truthy (text r) = true
  /\ len (split (text r)) <= 30
  /\ exists template,
       _next_template self (last_template_id settings) = Some template
       /\ key_id template = Some (refl_template_id r)
       /\ (_format_line (key_question template) (_infer_topic message)
             (_focus message) = Returned (text r)
           \/ _format_line (key_stretch template) (_infer_topic message)
                (_focus message) = Returned (text r)).
Proof.
  unfold _build_reflection.
  destruct (_next_template self (last_template_id settings)) as [template|];
    [| done].
  destruct (element_of (key_question template) _ _) as [q| |] eqn:Hq; try done.
  destruct (element_of (key_stretch template) _ _) as [t| |] eqn:Ht; try done.
  cbv [mbind mret outcome_bind outcome_ret]. cbv zeta.
  destruct (q ++ t) as [|x xs] eqn:Hel; [done |].
  assert (Hin : In (nth (draw mod length (x :: xs)) (x :: xs) []) (q ++ t)).
  { rewrite Hel. apply nth_In. apply Nat.mod_upper_bound. done. }
  revert Hin. generalize (nth (draw mod length (x :: xs)) (x :: xs) []).
  intros chosen Hin. destruct (key_id template) as [id|] eqn:Hid; [| done].
  intros [= <-]. cbn [refl_line_count text refl_template_id].
  assert (Hfrom : chosen <> []
                  /\ (_format_line (key_question template) (_infer_topic message)
                        (_focus message) = Returned chosen
                      \/ _format_line (key_stretch template) (_infer_topic message)
                           (_focus message) = Returned chosen)).
  { apply in_app_or in Hin as [Hin | Hin].
    - destruct (element_of_spec _ _ _ _ Hq _ Hin) as (? & _ & ?). eauto.
    - destruct (element_of_spec _ _ _ _ Ht _ Hin) as (? & _ & ?). eauto. }
  destruct Hfrom as [Hne Hfrom]. split; [done |]. split.
  { by destruct chosen. }
  split.
  { destruct Hfrom as [H | H]; by apply format_line_words in H. }
  exists template. done.
Qed.

(** [_build_reflection] raises KeyError only from [template["id"]]: the
    template selected has no id and one of its lines has rendered. *)
Lemma build_reflection_key_error (self : CompanionService) (draw : nat)
    (message base : str) (settings : UserSettings) :
  _build_reflection self draw message base settings = Raised KeyError ->
  exists (template : Template) (line : str),
    _next_template self (last_template_id settings) = Some template
    /\ key_id template = None
    /\ truthy line = true
    /\ (_format_line (key_question template) (_infer_topic message)
          (_focus message) = Returned line
        \/ _format_line (key_stretch template) (_infer_topic message)
             (_focus message) = Returned line).
Proof.
  unfold _build_reflection.
  destruct (_next_template self (last_template_id settings)) as [template|];
    [| done].
  pose proof (element_of_no_key_error (key_question template)
                (_infer_topic message) (_focus message)) as Hnq.
  pose proof (element_of_no_key_error (key_stretch template)
                (_infer_topic message) (_focus message)) as Hnt.
  destruct (element_of (key_question template) _ _) as [q|[]|] eqn:Hq;
    try done.
  destruct (element_of (key_stretch template) _ _) as [t|[]|] eqn:Ht;
    try done.
  cbv [mbind mret outcome_bind outcome_ret]. cbv zeta.
  destruct (q ++ t) as [|x xs] eqn:Hel; [done |].
  destruct (key_id template) as [id|] eqn:Hid; [done |]. intros _.
  assert (Hin : In x (q ++ t)) by (rewrite Hel; by left).
  exists template, x. split; [done |]. split; [done |].
  apply in_app_or in Hin as [Hin | Hin].
  - destruct (element_of_spec _ _ _ _ Hq _ Hin) as (Hne & _ & Hline).
    split; [by destruct x | by left].
  - destruct (element_of_spec _ _ _ _ Ht _ Hin) as (Hne & _ & Hline).
    split; [by destruct x | by right].
Qed.

(** A template without id never gives a reflection. *)
Lemma build_reflection_needs_id (self : CompanionService) (draw : nat)
    (message base : str) (settings : UserSettings) (template : Template) :
  _next_template self (last_template_id settings) = Some template ->
  key_id template = None ->
  match _build_reflection self draw message base settings with
  | Returned (Some _) => False
  | _ => True
  end.
Proof.
  intros Hnext Hid.
  destruct (_build_reflection self draw message base settings)
    as [[r|]| |] eqn:E; try done.
  destruct (build_reflection_some _ _ _ _ _ _ E) as (_ & _ & _ & t & Ht & Hr & _).
  congruence.
Qed.

Lemma wrap_response_unfold (self : CompanionService) (env : Env)
    (chat message base : str) (recent : list Message) (db : Storage) :
  enabled self = true ->
  let decided :=
    _should_reflect (utcnow env) message recent (fst (get_user_settings db chat)) in
  wrap_response self env chat message base recent db
  = if fst decided
    then match _build_reflection self (choice_1 env) message base (snd decided) with
         | Raised e => (Raised e, db)
         | Unmodelled => (Unmodelled, db)
         | Returned None =>
             (Returned base, upsert_user_settings db (snd decided) (sql_now env))
         | Returned (Some reflection) =>
             wrap_response self env chat message base recent db
         end
    else (Returned base, upsert_user_settings db (snd decided) (sql_now env)).
Proof.
  intros Hen decided. subst decided. unfold wrap_response at 1.
  rewrite Hen, get_user_settings_pair at 1. cbn [negb].
  destruct (_should_reflect (utcnow env) message recent
              (fst (get_user_settings db chat))) as [decision settings'] eqn:Hdec.
  cbn [fst snd]. destruct decision; cbn [negb]; [| done].
  destruct (_build_reflection self (choice_1 env) message base settings')
    as [[reflection|]| |] eqn:Hb; try done.
  unfold wrap_response. rewrite Hen, get_user_settings_pair, Hdec. cbn [negb].
  by rewrite Hb.
Qed.

Lemma rstrip_prefix (s : str) : exists w, s = rstrip s ++ w.
Proof.
  destruct (rstrip_by_decomp isspace s) as (w & Hw & _). by exists w.
Qed.

End ReplyFacts.

(** X9. What [_build_reflection] returns. A reflection has line count 1
    and carries the id of the template that [_next_template] selects after
    the stored last_template_id; its text is the rendering by
    [_format_line] of that template's question or of its stretch for the
    inferred topic and the focus of the message, is not empty and has at
    most 30 words. Without a reflection either the bank is empty or neither
    line of the selected template renders to text. KeyError is raised only
    by the reading of the id: the selected template has no key "id" and one
    of its lines has rendered; an unknown field name in a line does not
    surface as a KeyError, and a template without id never gives a
    reflection. *)
Theorem build_reflection_renders_next_template :
  forall (self : CompanionService) (draw : nat) (message base : str)
         (settings : UserSettings),
    match _build_reflection self draw message base settings with
    | Returned (Some r) =>
        refl_line_count r = 1
        /\ truthy (text r) = true
        /\ len (split (text r)) <= 30
        /\ exists template,
             _next_template self (last_template_id settings) = Some template
             /\ key_id template = Some (refl_template_id r)
             /\ (_format_line (key_question template) (_infer_topic message)
                   (_focus message) = Returned (text r)
                 \/ _format_line (key_stretch template) (_infer_topic message)
                      (_focus message) = Returned (text r))
    | Returned None =>
        templates self = []
        \/ exists template,
             _next_template self (last_template_id settings) = Some template
             /\ element_of (key_question template) (_infer_topic message)
                  (_focus message) = Returned []
             /\ element_of (key_stretch template) (_infer_topic message)
                  (_focus message) = Returned []
    | Raised KeyError =>
        exists (template : Template) (line : str),
          _next_template self (last_template_id settings) = Some template
          /\ key_id template = None
          /\ truthy line = true
          /\ (_format_line (key_question template) (_infer_topic message)
                (_focus message) = Returned line
              \/ _format_line (key_stretch template) (_infer_topic message)
                   (_focus message) = Returned line)
    | _ => True
    end.
Proof.
  intros self draw message base settings.
  destruct (_build_reflection self draw message base settings)
    as [[r|]|e|] eqn:E.
  - by apply (build_reflection_some self draw message base settings).
  - unfold _build_reflection in E.
    destruct (_next_template self (last_template_id settings))
      as [template|] eqn:Hnext.
    + right. exists template. split; [done |].
      destruct (element_of (key_question template) _ _) as [q| |]; try done.
      destruct (element_of (key_stretch template) _ _) as [t| |]; try done.
      cbn in E. destruct q; [| by destruct (key_id template)].
      destruct t; [done | by destruct (key_id template)].
    + left. destruct (templates self) as [|first others] eqn:Hbank; [done |].
      destruct (next_template_in_bank self (last_template_id settings))
        as (s & t & _ & _ & Hsome); [by rewrite Hbank |].
      by rewrite Hsome in Hnext.
  - destruct e; try done.
    by apply (build_reflection_key_error self draw message base settings).
  - done.
Qed.

(** X10. The reply of [wrap_response] only adds to the base response. A
    call that returns gives either the base response unchanged or the base
    response without its trailing whitespace, a newline and one non-empty
    reflection of at most 30 words (the reflection alone when the base
    response is blank); in every case the right-stripped base response is a
    prefix of the reply. A call fails with a KeyError only when the
    template selected after the stored last_template_id has no key "id",
    and then the database is left as it was; with a bank in which every
    template has an id no call fails with a KeyError. *)
Theorem wrap_response_only_appends :
  forall (self : CompanionService) (env : Env) (chat message base : str)
         (recent : list Message) (db : Storage),
    let result := wrap_response self env chat message base recent db in
    match fst result with
    | Returned reply =>
        (reply = base
         \/ exists line : str,
              truthy line = true
              /\ len (split line) <= 30
              /\ reply = if truthy (rstrip base)
                         then rstrip base ++ [newline] ++ line
                         else line)
        /\ exists suffix : str, reply = rstrip base ++ suffix
    | Raised KeyError =>
        (exists template : Template,
            _next_template self
              (last_template_id (fst (get_user_settings db chat)))
            = Some template
            /\ key_id template = None
            /\ In template (templates self))
        /\ snd result = db
    | _ => True
    end
    /\ (Forall (fun template => is_Some (key_id template)) (templates self) ->
        match fst result with
        | Raised KeyError => False
        | _ => True
        end).
Proof.
  intros self env chat message base recent db result.
  assert (Hmain :
    match fst result with
    | Returned reply =>
        (reply = base
         \/ exists line : str,
              truthy line = true
              /\ len (split line) <= 30
              /\ reply = if truthy (rstrip base)
                         then rstrip base ++ [newline] ++ line
                         else line)
        /\ exists suffix : str, reply = rstrip base ++ suffix
    | Raised KeyError =>
        (exists template : Template,
            _next_template self
              (last_template_id (fst (get_user_settings db chat)))
            = Some template
            /\ key_id template = None
            /\ In template (templates self))
        /\ snd result = db
    | _ => True
    end).
  { subst result. destruct (enabled self) eqn:Hen.
    2:{ unfold wrap_response. rewrite Hen. cbn. split; [by left |].
        apply rstrip_prefix. }
    pose proof (wrap_response_unfold self env chat message base recent db Hen)
      as Hun. cbv zeta in Hun.
    pose proof (should_reflect_last_template_id (utcnow env) message recent
                  (fst (get_user_settings db chat))) as Hlast.
    destruct (_should_reflect (utcnow env) message recent
                (fst (get_user_settings db chat)))
      as [decision settings'] eqn:Hdec.
    cbn [fst snd] in Hun, Hlast. destruct decision.
    2:{ rewrite Hun. cbn. split; [by left | apply rstrip_prefix]. }
    destruct (_build_reflection self (choice_1 env) message base settings')
      as [[r|]|e|] eqn:Hb.
    - rewrite (wrap_response_shown self env chat message base recent db
                 settings' r Hen Hdec Hb).
      cbn [fst].
      destruct (build_reflection_some _ _ _ _ _ _ Hb)
        as (_ & Htext & Hwords & _).
      unfold _merge_response. split.
      + right. exists (text r). repeat split; try done.
        by destruct (truthy (rstrip base)).
      + destruct (truthy (rstrip base)) eqn:Hbase; cbn [negb].
        * by eexists.
        * exists (text r). by destruct (rstrip base).
    - rewrite Hun. cbn. split; [by left | apply rstrip_prefix].
    - rewrite Hun. cbn [fst snd]. destruct e; try done.
      split; [| done].
      destruct (build_reflection_key_error _ _ _ _ _ Hb)
        as (template & line & Hnext & Hid & _).
      rewrite Hlast in Hnext. exists template. split; [done |].
      split; [done |].
      destruct (templates self) as [|first others] eqn:Hbank.
      { unfold _next_template in Hnext. by rewrite Hbank in Hnext. }
      destruct (next_template_in_bank self
                  (last_template_id (fst (get_user_settings db chat))))
        as (s & t & _ & Ht & Hsome); [by rewrite Hbank |].
      rewrite Hsome in Hnext. injection Hnext as <-.
      rewrite <- Hbank. apply list_elem_of_In.
      by apply list_elem_of_lookup_2 in Ht.
    - rewrite Hun. done. }
  split; [exact Hmain |].
  intros Hall. destruct (fst result) as [reply|[]|]; try done.
  destruct Hmain as [(template & _ & Hid & Hin) _].
  rewrite List.Forall_forall in Hall. specialize (Hall _ Hin).
  rewrite Hid in Hall. by destruct Hall.
Qed.

(** ** The inferred topic and the built-in bank *)

Section BuiltinBankFacts.

Lemma infer_topic_cases (message : str) :
  _infer_topic message
  = if mentions message (lit "health") then lit "health"
    else if mentions message (lit "finance") then lit "finance"
    else if mentions message (lit "work") then lit "work"
    else lit "life".
Proof.
  unfold _infer_topic, mentions.
  change (keywords_of (lit "health")) with (snd (List.nth 0 TOPIC_MAP ([], []))).
  change (keywords_of (lit "finance")) with (snd (List.nth 1 TOPIC_MAP ([], []))).
  change (keywords_of (lit "work")) with (snd (List.nth 2 TOPIC_MAP ([], []))).
  unfold TOPIC_MAP. cbn [find snd fst List.nth].
  generalize (lower message). intros text.
  repeat match goal with
         | |- context [if existsb ?f ?l then _ else _] =>
             destruct (existsb f l); try reflexivity
         end.
Qed.

Lemma infer_topic_range (message : str) :
  In (_infer_topic message)
     [lit "health"; lit "finance"; lit "work"; lit "life"].
Proof.
  rewrite infer_topic_cases.
  repeat case_match; simpl; tauto.
Qed.

Lemma builtin_bank_builds (self : CompanionService) (draw : nat)
    (message base : str) (settings : UserSettings) :
  templates self = DEFAULT_TEMPLATE_SET ->
  exists r,
    _build_reflection self draw message base settings = Returned (Some r).
Proof.
  intros Hbank.
  destruct (next_template_in_bank self (last_template_id settings))
    as (s & t & Hs & Ht & Hnext); [by rewrite Hbank |].
  unfold _build_reflection. rewrite Hnext. cbv zeta.
  pose proof (infer_topic_range message) as Htopic.
  revert Htopic. generalize (_infer_topic message) (_focus message).
  intros topic focus Htopic.
  pose proof (Nat.mod_upper_bound draw 2 ltac:(done)) as Hdraw.
  rewrite Hbank in Ht, Hs. simpl in Hs.
  assert (Helems : (exists a b,
            (from_question ← element_of (key_question t) topic focus;
             from_stretch ← element_of (key_stretch t) topic focus;
             mret (from_question ++ from_stretch)) = Returned [a; b])
            /\ is_Some (key_id t)).
  { destruct s as [|[|[|s]]]; [| | | lia]; injection Ht as <-;
      simpl in Htopic;
      (split; [| by eexists]);
      destruct Htopic as [<- | [<- | [<- | [<- | []]]]];
      vm_compute; eauto. }
  destruct Helems as [(a & b & Helems) [id Hid]].
  destruct (element_of (key_question t) topic focus) as [q| |]; try done.
  destruct (element_of (key_stretch t) topic focus) as [u| |]; try done.
  cbv [mbind mret outcome_bind outcome_ret] in *.
  injection Helems as ->. rewrite Hid. eauto.
Qed.

Lemma should_reflect_below_threshold (now : datetime) (message : str)
    (recent : list Message) (settings : UserSettings) :
  short_reply_streak settings < 2 ->
  let decided := _should_reflect now message recent settings in
  (fst decided = false /\ snd decided = settings) \/ fst decided = true.
Proof.
  intros Hlow. unfold _should_reflect.
  repeat (case_match; cbn [fst snd]; try tauto).
  all: exfalso;
    match goal with
    | H : (_ >=? 3) = true |- _ => apply Z.geb_le in H; simpl in H; lia
    end.
Qed.

End BuiltinBankFacts.

Section TopicFacts.

Lemma startswith_app (p s : str) : startswith (p ++ s) p = true.
Proof.
  induction p as [|c p IH]; [by destruct s |].
  simpl. by rewrite Ascii.eqb_refl, IH.
Qed.

Lemma contains_app (before needle after : str) :
  contains (before ++ needle ++ after) needle = true.
Proof.
  induction before as [|c before IH].
  - rewrite app_nil_l. pose proof (startswith_app needle after) as H.
    destruct (needle ++ after); cbn [contains]; by rewrite H.
  - rewrite <- app_comm_cons. cbn [contains]. rewrite IH. apply orb_true_r.
Qed.

Lemma keywords_are_lower_case (topic keyword : str) :
  In keyword (keywords_of topic) -> lower keyword = keyword.
Proof.
  unfold keywords_of, TOPIC_MAP. cbn [find fst snd].
  repeat (destruct (str_eqb _ topic)); cbn [snd map In]; intros Hin;
    repeat (destruct Hin as [<- | Hin]; [by vm_compute |]); done.
Qed.

Lemma mentions_keyword (before word after topic : str) :
  In (lower word) (keywords_of topic) ->
  mentions (before ++ word ++ after) topic = true.
Proof.
  intros H. unfold mentions. apply existsb_exists. exists (lower word).
  split; [done |]. unfold lower. rewrite !map_app. apply contains_app.
Qed.

End TopicFacts.

(** X11. [_infer_topic] gives the first topic of [TOPIC_MAP], in the order
    health, finance, work, of which the lower-cased message contains a
    keyword, and "life" when it contains none; the result is always one of
    these four. Keywords are found as substrings and without regard to
    case: a message that contains a health keyword anywhere, in any
    capitalisation, has topic health whatever else it mentions. *)
Theorem infer_topic_first_mentioned_topic :
  forall message : str,
    let topic := _infer_topic message in
    let health := mentions message (lit "health") in
    let finance := mentions message (lit "finance") in
    let work := mentions message (lit "work") in
    In topic [lit "health"; lit "finance"; lit "work"; lit "life"]
    /\ (topic = lit "health" <-> health = true)
    /\ (topic = lit "finance" <-> health = false /\ finance = true)
    /\ (topic = lit "work"
        <-> health = false /\ finance = false /\ work = true)
    /\ (topic = lit "life"
        <-> health = false /\ finance = false /\ work = false)
    /\ (forall before word after : str,
          message = before ++ word ++ after ->
          In (lower word) (keywords_of (lit "health")) ->
          topic = lit "health").
Proof.
  intros message topic health finance work.
  assert (Hcases : topic = if health then lit "health"
                           else if finance then lit "finance"
                           else if work then lit "work" else lit "life")
    by apply infer_topic_cases.
  split; [apply infer_topic_range |].
  assert (Hlast : forall before word after : str,
             message = before ++ word ++ after ->
             In (lower word) (keywords_of (lit "health")) ->
             health = true).
  { intros before word after -> Hin. by apply mentions_keyword. }
  clearbody topic health finance work. subst topic.
  refine (conj _ (conj _ (conj _ (conj _ _)))).
  5:{ intros before word after Hm Hin. by rewrite (Hlast _ _ _ Hm Hin). }
  all: clear Hlast; destruct health, finance, work; split; intros H.
  all: repeat match goal with Hc : _ /\ _ |- _ => destruct Hc end;
    try done; try (by repeat split).
  all: by vm_compute in H.
Qed.

Section ThrottleFacts.

Variable self : CompanionService.
Hypothesis Hbank : templates self = DEFAULT_TEMPLATE_SET.

(** One call keeps a stored streak below 2 and the absence of a pause. *)
Lemma builtin_bank_step (env : Env) (chat message base : str)
    (recent : list Message) (db : Storage) :
  let stored := fst (get_user_settings db chat) in
  let after :=
    fst (get_user_settings
           (snd (wrap_response self env chat message base recent db)) chat) in
  short_reply_streak stored < 2 ->
  reflections_paused_until stored = None ->
  short_reply_streak after < 2 /\ reflections_paused_until after = None.
Proof.
  intros stored after Hlow Hnone. subst after.
  destruct (enabled self) eqn:Hen.
  2:{ unfold wrap_response. by rewrite Hen. }
  destruct (should_reflect_keeps_configuration (utcnow env) message recent
              stored) as (Hchat & _).
  assert (Hstored : chat_id stored = chat) by apply get_user_settings_chat_id.
  rewrite Hstored in Hchat.
  destruct (should_reflect_below_threshold (utcnow env) message recent stored
              Hlow) as [[Hno Hsame] | Hyes].
  - rewrite (wrap_response_suppressed self env chat message base recent db
               stored Hen).
    2:{ fold stored.
        destruct (_should_reflect (utcnow env) message recent stored).
        cbn [fst snd] in Hno, Hsame. congruence. }
    cbn [snd].
    assert (Hview : fst (get_user_settings
                           (upsert_user_settings db stored (sql_now env))
                           (chat_id stored)) = as_stored stored)
      by apply get_after_upsert_full.
    rewrite Hstored in Hview. rewrite Hview. unfold stored.
    by rewrite as_stored_read.
  - destruct (_should_reflect (utcnow env) message recent stored)
      as [decision settings'] eqn:Hdec.
    cbn [fst snd] in Hyes, Hchat. subst decision.
    destruct (builtin_bank_builds self (choice_1 env) message base settings'
                Hbank) as (r & Hr).
    rewrite (wrap_response_shown self env chat message base recent db
               settings' r Hen Hdec Hr).
    cbn [snd].
    set (written := with_short_reply_streak 0 _).
    assert (Hkey : chat_id written = chat) by done.
    assert (Hview : fst (get_user_settings
                           (upsert_user_settings db written (sql_now env))
                           (chat_id written)) = as_stored written)
      by apply get_after_upsert_full.
    rewrite Hkey in Hview.
    destruct (metric_ok env);
      rewrite ?get_user_settings_after_metric, Hview; done.
Qed.

Lemma builtin_bank_steps (chat : str) (calls : list Consider) (db : Storage) :
  let stored := fst (get_user_settings db chat) in
  let after := fst (get_user_settings (run_considers self chat calls db) chat) in
  short_reply_streak stored < 2 ->
  reflections_paused_until stored = None ->
  short_reply_streak after < 2 /\ reflections_paused_until after = None.
Proof.
  cbv zeta. revert db. induction calls as [|c calls IH]; intros db Hlow Hnone.
  - done.
  - unfold run_considers. cbn [foldl].
    destruct (builtin_bank_step (c_env c) chat (c_message c) (c_base c)
                (c_recent c) db Hlow Hnone) as [Hlow' Hnone'].
    by apply IH.
Qed.

End ThrottleFacts.

(** X12. With the built-in template bank the short-reply throttle is
    never reached. [_build_reflection] renders a reflection for every
    message, so every call of [wrap_response] that [_should_reflect] lets
    through shows one and stores short_reply_streak = 0; a user whose
    stored streak is below 2 and who is not paused (as every new user is)
    therefore keeps a stored streak below 2 and no pause through any
    sequence of calls, however many short messages it contains. *)
Theorem builtin_bank_never_reaches_throttle :
  forall (self : CompanionService) (chat : str) (calls : list Consider)
         (db : Storage),
    templates self = DEFAULT_TEMPLATE_SET ->
    let stored := fst (get_user_settings db chat) in
    let after := fst (get_user_settings (run_considers self chat calls db) chat) in
    short_reply_streak stored < 2 ->
    reflections_paused_until stored = None ->
    (forall (draw : nat) (message base : str) (settings : UserSettings),
        exists reflection,
          _build_reflection self draw message base settings
          = Returned (Some reflection))
    /\ short_reply_streak after < 2
    /\ reflections_paused_until after = None.
Proof.
  intros self chat calls db Hbank stored after Hlow Hnone. split.
  - intros draw message base settings. by apply builtin_bank_builds.
  - by apply builtin_bank_steps.
Qed.

Lemma builtin_bank_never_reaches_throttle_witness :
  let calls :=
    [ mkConsider (env_at sample_now) (lit "ok") (lit "Noted.") [];
      mkConsider (env_at sample_now) (lit "yes") (lit "Noted.") [];
      mkConsider (env_at sample_now) (lit "fine") (lit "Noted.") [];
      mkConsider (env_at sample_now) (lit "sure") (lit "Noted.") [] ] in
  let after :=
    fst (get_user_settings
           (run_considers sample_service (lit "42") calls empty_db) (lit "42")) in
  templates sample_service = DEFAULT_TEMPLATE_SET
  /\ short_reply_streak (fst (get_user_settings empty_db (lit "42"))) < 2
  /\ short_reply_streak after < 2
  /\ reflections_paused_until after = None
  /\ length (companion_metrics
               (run_considers sample_service (lit "42") calls empty_db)) = 4%nat.
Proof.
  intros calls after.
  destruct (builtin_bank_never_reaches_throttle sample_service (lit "42") calls
              empty_db)
    as (_ & Hstreak & Hpause).
  - reflexivity.
  - vm_compute. reflexivity.
  - reflexivity.
  - split; [reflexivity |]. split; [vm_compute; reflexivity |].
    split; [exact Hstreak |]. split; [exact Hpause |].
    vm_compute. reflexivity.
Defined.

(** ** The time of the next nudge *)

Section NudgeTimeFacts.

Lemma offset_time_of (dt : datetime) : offset (time_of dt) = dt mod us_per_day.
Proof.
  unfold offset, time_of, us_per_day, us_per_hour, us_per_minute,
    us_per_second. simpl.
  replace (24 * (60 * (60 * 1000000))) with 86400000000 by lia.
  replace (60 * (60 * 1000000)) with 3600000000 by lia.
  replace (60 * 1000000) with 60000000 by lia.
  set (d := dt mod 86400000000).
  assert (Hh : dt mod 3600000000 = d mod 3600000000).
  { subst d. symmetry. apply Z.mod_mod_divide. by exists 24. }
  assert (Hm : dt mod 60000000 = (dt mod 3600000000) mod 60000000).
  { symmetry. apply Z.mod_mod_divide. by exists 60. }
  assert (Hs : dt mod 1000000 = (dt mod 60000000) mod 1000000).
  { symmetry. apply Z.mod_mod_divide. by exists 60. }
  pose proof (Z.div_mod d 3600000000 ltac:(lia)).
  pose proof (Z.div_mod (dt mod 3600000000) 60000000 ltac:(lia)).
  pose proof (Z.div_mod (dt mod 60000000) 1000000 ltac:(lia)).
  lia.
Qed.

(** The first candidate: a whole minute on the day of [now + delta] or the
    next one, one hour after the end of the quiet window. *)
Lemma first_candidate_shape (settings : UserSettings) (now : datetime)
    (quiet_end : time) :
  time_ok quiet_end -> second quiet_end = 0 -> microsecond quiet_end = 0 ->
  let delta :=
    if str_eqb (nudge_frequency settings) (lit "standard")
    then timedelta 3 0 0 else timedelta 7 0 0 in
  let first := first_candidate settings now quiet_end in
  first mod us_per_minute = 0
  /\ first mod us_per_day = (offset quiet_end + us_per_hour) mod us_per_day
  /\ now + delta - timedelta 1 0 0 < first
  /\ first < now + delta + timedelta 1 1 0.
Proof.
  intros (Hh & Hm & _) Hs Hus delta first. subst first.
  unfold first_candidate. fold delta. unfold offset. rewrite Hs, Hus.
  generalize (now + delta). intros x.
  unfold replace_hour_minute, replace_second_microsecond_0, timedelta,
    us_per_day, us_per_hour, us_per_minute, us_per_second in *.
  replace (24 * (60 * (60 * 1000000))) with 86400000000 by lia.
  replace (60 * (60 * 1000000)) with 3600000000 by lia.
  replace (60 * 1000000) with 60000000 in * by lia.
  set (c := x - x mod 60000000).
  pose proof (Z.div_mod x 60000000 ltac:(lia)) as Hx.
  pose proof (Z.mod_pos_bound x 60000000 ltac:(lia)) as Hxb.
  assert (Hc : c = (x / 60000000) * 60000000) by (subst c; lia).
  assert (Hc0 : c mod 60000000 = 0) by (rewrite Hc; apply Z.mod_mul; lia).
  rewrite Hc0.
  pose proof (Z.div_mod c 86400000000 ltac:(lia)) as Hd.
  pose proof (Z.mod_pos_bound c 86400000000 ltac:(lia)) as Hdb.
  set (day := c / 86400000000) in *.
  repeat split.
  - match goal with
    | |- ?e mod _ = _ =>
        replace e
          with ((1440 * day + 60 * hour quiet_end + minute quiet_end + 60)
                * 60000000) by lia
    end.
    apply Z.mod_mul. lia.
  - match goal with
    | |- ?e mod _ = _ =>
        replace e
          with ((hour quiet_end * 3600000000 + minute quiet_end * 60000000
                 + 0 * 1000000 + 0 + 3600000000) + day * 86400000000) by lia
    end.
    apply Z.mod_add. lia.
  - lia.
  - lia.
Qed.

End NudgeTimeFacts.

(** X13. The time that [_compute_next_nudge_time] returns, for quiet
    hours that parse. It is the first candidate (the day of now + 3 days
    for frequency "standard", now + 7 days otherwise, at one hour after the
    end of the quiet window) when that time of day is not quiet, and one
    hour later otherwise: the loop gives up after one step, so the result
    is inside the quiet window exactly when both times are. The result is
    a whole minute, more than two days after now, later than
    now + delta - 1 day and earlier than now + delta + 26 hours. *)
Theorem next_nudge_time_window :
  forall (settings : UserSettings) (now : datetime) (start_ end_ : time),
    _quiet_bounds settings = Returned (start_, end_) ->
    let delta :=
      if str_eqb (nudge_frequency settings) (lit "standard")
      then timedelta 3 0 0 else timedelta 7 0 0 in
    let first := first_candidate settings now end_ in
    exists target : datetime,
      _compute_next_nudge_time settings now = Returned target
      /\ target = (if _is_quiet_time (time_of first) start_ end_
                   then first + timedelta 0 1 0 else first)
      /\ offset (time_of first) = (offset end_ + us_per_hour) mod us_per_day
      /\ _is_quiet_time (time_of target) start_ end_
         = _is_quiet_time (time_of first) start_ end_
           && _is_quiet_time (time_of (first + timedelta 0 1 0)) start_ end_
      /\ target mod us_per_minute = 0
      /\ timedelta 2 0 0 < target - now
      /\ now + delta - timedelta 1 0 0 < target
      /\ target < now + delta + timedelta 1 2 0.
Proof.
  intros settings now start_ end_ Hbounds delta first.
  assert (Hend : time_ok end_ /\ second end_ = 0 /\ microsecond end_ = 0).
  { unfold _quiet_bounds in Hbounds.
    destruct (strptime_HM (quiet_hours_start settings)) as [a|]; [| done].
    destruct (strptime_HM (quiet_hours_end settings)) as [b|] eqn:Eb; [| done].
    injection Hbounds as _ <-. by apply (strptime_HM_ok _ _ Eb). }
  destruct Hend as (Hok & Hs & Hus).
  destruct (first_candidate_shape settings now end_ Hok Hs Hus)
    as (Hmin & Hday & Hlow & Hhigh).
  fold delta first in Hmin, Hday, Hlow, Hhigh.
  pose proof (first_candidate_beyond_two_days settings now end_ Hok) as Hfar.
  fold first in Hfar.
  eexists. split.
  { apply (nudge_time_advances_at_most_once settings now start_ end_ Hbounds). }
  fold first. split; [done |]. split; [by rewrite offset_time_of |].
  assert (Hhour : timedelta 0 1 0 = 60 * us_per_minute)
    by (unfold timedelta, us_per_hour; lia).
  destruct (_is_quiet_time (time_of first) start_ end_) eqn:Hq.
  - split; [done |]. split.
    { rewrite Hhour, Z.mod_add by (unfold us_per_minute, us_per_second; lia).
      done. }
    unfold timedelta, us_per_day, us_per_hour, us_per_minute, us_per_second
      in *. lia.
  - split; [by rewrite Hq |]. split; [done |].
    unfold timedelta, us_per_day, us_per_hour, us_per_minute, us_per_second
      in *. lia.
Qed.

Lemma next_nudge_time_window_witness :
  let settings :=
    with_quiet_hours (lit "08:00") (lit "07:00") (default_settings (lit "42")) in
  let start_ := mkTime 8 0 0 0 in
  let end_ := mkTime 7 0 0 0 in
  exists target : datetime,
    _quiet_bounds settings = Returned (start_, end_)
    /\ _compute_next_nudge_time settings sample_now = Returned target
    /\ target = first_candidate settings sample_now end_ + timedelta 0 1 0
    /\ _is_quiet_time (time_of target) start_ end_ = true
    /\ timedelta 2 0 0 < target - sample_now.
Proof.
  intros settings start_ end_.
  destruct (next_nudge_time_window settings sample_now start_ end_ eq_refl)
    as (target & Hret & Htarget & _ & Hquiet & _ & Hfar & _).
  exists target. split; [reflexivity |]. split; [exact Hret |].
  split; [rewrite Htarget; vm_compute; reflexivity |].
  split; [rewrite Hquiet; vm_compute; reflexivity | exact Hfar].
Defined.

(** ** The setters *)

Section SetterFacts.

Lemma as_stored_fixed (s : UserSettings) :
  as_stored s = s
  <-> _from_iso (_to_iso (last_reflection_at s)) = last_reflection_at s
      /\ _from_iso (_to_iso (reflections_paused_until s))
         = reflections_paused_until s
      /\ _from_iso (_to_iso (last_nudge_at s)) = last_nudge_at s.
Proof.
  split.
  - intros H. repeat split.
    + by apply (f_equal last_reflection_at) in H.
    + by apply (f_equal reflections_paused_until) in H.
    + by apply (f_equal last_nudge_at) in H.
  - intros (H1 & H2 & H3). destruct s. unfold as_stored. simpl in *.
    by rewrite H1, H2, H3.
Qed.

(** What a setter stores reads back as the record it returns. *)
Lemma setter_read_back (db : Storage) (chat : str) (sql : Z)
    (change : UserSettings -> UserSettings) :
  (forall s, chat_id (change s) = chat_id s
             /\ last_reflection_at (change s) = last_reflection_at s
             /\ reflections_paused_until (change s) = reflections_paused_until s
             /\ last_nudge_at (change s) = last_nudge_at s) ->
  let settings := change (fst (get_user_settings db chat)) in
  fst (get_user_settings (upsert_user_settings db settings sql) chat) = settings
  /\ forall c : str, c <> chat ->
       user_settings (upsert_user_settings db settings sql) !! c
       = user_settings db !! c.
Proof.
  intros Hchange settings.
  destruct (Hchange (fst (get_user_settings db chat))) as (Hc & H1 & H2 & H3).
  fold settings in Hc, H1, H2, H3.
  rewrite get_user_settings_chat_id in Hc.
  split.
  - rewrite <- Hc at 1. rewrite get_after_upsert_full.
    apply as_stored_fixed. rewrite H1, H2, H3.
    by apply as_stored_fixed, as_stored_read.
  - intros c Hne. by apply (upsert_frame _ _ _ chat).
Qed.

Lemma wrap_response_level_off (self : CompanionService) (env : Env)
    (chat message base : str) (recent : list Message) (db : Storage) :
  companion_level (fst (get_user_settings db chat)) = lit "off" ->
  fst (wrap_response self env chat message base recent db) = Returned base.
Proof.
  intros Hoff. destruct (enabled self) eqn:Hen.
  - rewrite (wrap_response_refused self env chat message base recent db Hen);
      [done |].
    by apply should_reflect_off.
  - unfold wrap_response. by rewrite Hen.
Qed.

Lemma set_companion_level_unfold (chat level : str) (sql : Z) (db : Storage) :
  set_companion_level chat level sql db
  = if negb (one_of (lower level) [lit "off"; lit "light"; lit "standard"])
    then (Raised ValueError, db)
    else (Returned (with_companion_level (lower level)
                      (fst (get_user_settings db chat))),
          upsert_user_settings db
            (with_companion_level (lower level)
               (fst (get_user_settings db chat))) sql).
Proof.
  unfold set_companion_level. cbv zeta.
  destruct (negb _); [done |]. by rewrite get_user_settings_pair.
Qed.

Lemma set_nudge_frequency_unfold (chat frequency : str) (sql : Z)
    (db : Storage) :
  set_nudge_frequency chat frequency sql db
  = if negb (one_of (lower frequency) [lit "off"; lit "weekly"; lit "standard"])
    then (Raised ValueError, db)
    else (Returned (with_nudge_frequency (lower frequency)
                      (fst (get_user_settings db chat))),
          upsert_user_settings db
            (with_nudge_frequency (lower frequency)
               (fst (get_user_settings db chat))) sql).
Proof.
  unfold set_nudge_frequency. cbv zeta.
  destruct (negb _); [done |]. by rewrite get_user_settings_pair.
Qed.

End SetterFacts.

(** X14. [set_companion_level] and [set_nudge_frequency] accept exactly
    the three allowed words in any capitalisation. An accepted value is
    stored lower-cased; the record returned is the record read with that
    one field changed, it is what a later read returns, and the rows of
    other chat ids are untouched. Any other value raises ValueError and
    leaves the database as it was. After the level is set to "off" every
    [wrap_response] for the chat returns the base response and
    [schedule_next_nudge] returns None; after the nudge frequency is set to
    "off" [schedule_next_nudge] returns None. *)
Theorem level_and_frequency_setters :
  forall (chat value : str) (sql : Z) (db : Storage),
    let read := fst (get_user_settings db chat) in
    let level := set_companion_level chat value sql db in
    let frequency := set_nudge_frequency chat value sql db in
    match fst level with
    | Returned settings =>
        one_of (lower value) [lit "off"; lit "light"; lit "standard"] = true
        /\ settings = with_companion_level (lower value) read
        /\ fst (get_user_settings (snd level) chat) = settings
        /\ (forall c : str, c <> chat ->
              user_settings (snd level) !! c = user_settings db !! c)
    | Raised ValueError =>
        one_of (lower value) [lit "off"; lit "light"; lit "standard"] = false
        /\ snd level = db
    | _ => False
    end
    /\ match fst frequency with
       | Returned settings =>
           one_of (lower value) [lit "off"; lit "weekly"; lit "standard"] = true
           /\ settings = with_nudge_frequency (lower value) read
           /\ fst (get_user_settings (snd frequency) chat) = settings
           /\ (forall c : str, c <> chat ->
                 user_settings (snd frequency) !! c = user_settings db !! c)
       | Raised ValueError =>
           one_of (lower value) [lit "off"; lit "weekly"; lit "standard"] = false
           /\ snd frequency = db
       | _ => False
       end
    /\ (lower value = lit "off" ->
        (forall (self : CompanionService) (env : Env) (message base : str)
                (recent : list Message),
            fst (wrap_response self env chat message base recent (snd level))
            = Returned base)
        /\ (forall (self : CompanionService) (env : Env) (jobs : list Job),
              schedule_next_nudge self env chat (mkWorld (snd level) jobs)
              = (Returned None, mkWorld (snd level) jobs))
        /\ (forall (self : CompanionService) (env : Env) (jobs : list Job),
              schedule_next_nudge self env chat (mkWorld (snd frequency) jobs)
              = (Returned None, mkWorld (snd frequency) jobs))).
Proof.
  intros chat value sql db read level frequency.
  assert (Hlevel : forall v s,
             chat_id (with_companion_level v s) = chat_id s
             /\ last_reflection_at (with_companion_level v s) = last_reflection_at s
             /\ reflections_paused_until (with_companion_level v s)
                = reflections_paused_until s
             /\ last_nudge_at (with_companion_level v s) = last_nudge_at s)
    by done.
  assert (Hfreq : forall v s,
             chat_id (with_nudge_frequency v s) = chat_id s
             /\ last_reflection_at (with_nudge_frequency v s) = last_reflection_at s
             /\ reflections_paused_until (with_nudge_frequency v s)
                = reflections_paused_until s
             /\ last_nudge_at (with_nudge_frequency v s) = last_nudge_at s)
    by done.
  destruct (setter_read_back db chat sql (with_companion_level (lower value))
              (Hlevel _)) as [Hl1 Hl2].
  destruct (setter_read_back db chat sql (with_nudge_frequency (lower value))
              (Hfreq _)) as [Hf1 Hf2].
  fold read in Hl1, Hl2, Hf1, Hf2.
  subst level frequency.
  rewrite set_companion_level_unfold, set_nudge_frequency_unfold. fold read.
  split; [| split].
  - destruct (one_of (lower value) [lit "off"; lit "light"; lit "standard"]);
      cbn [negb fst snd]; done.
  - destruct (one_of (lower value) [lit "off"; lit "weekly"; lit "standard"]);
      cbn [negb fst snd]; done.
  - intros Hoff. rewrite Hoff in *.
    change (one_of (lit "off") [lit "off"; lit "light"; lit "standard"])
      with true.
    change (one_of (lit "off") [lit "off"; lit "weekly"; lit "standard"])
      with true.
    cbn [negb fst snd]. split; [| split].
    + intros self env message base recent.
      apply wrap_response_level_off. by rewrite Hl1.
    + intros self env jobs. apply schedule_off. right. left.
      cbn [storage]. by rewrite Hl1.
    + intros self env jobs. apply schedule_off. right. right.
      cbn [storage]. by rewrite Hf1.
Qed.

(** X15. [set_quiet_hours] stores the two bounds exactly as given when
    both read as %H:%M times, and raises ValueError without touching the
    database otherwise. The record returned is the record read with the two
    bounds changed, it is what a later read returns, and the rows of other
    chat ids are untouched; the stored bounds parse again, so
    [_quiet_bounds] and [_compute_next_nudge_time] return for the user
    afterwards. *)
Theorem quiet_hours_setter :
  forall (chat start_ end_ : str) (sql : Z) (db : Storage),
    let read := fst (get_user_settings db chat) in
    let result := set_quiet_hours chat start_ end_ sql db in
    let stored := fst (get_user_settings (snd result) chat) in
    match fst result with
    | Returned settings =>
        settings = with_quiet_hours start_ end_ read
        /\ stored = settings
        /\ (forall c : str, c <> chat ->
              user_settings (snd result) !! c = user_settings db !! c)
        /\ (exists a b : time,
              strptime_HM start_ = Some a /\ strptime_HM end_ = Some b
              /\ _quiet_bounds stored = Returned (a, b))
        /\ (forall now : datetime,
              exists target : datetime,
                _compute_next_nudge_time stored now = Returned target)
    | Raised ValueError =>
        (strptime_HM start_ = None \/ strptime_HM end_ = None)
        /\ snd result = db
    | _ => False
    end.
Proof.
  intros chat start_ end_ sql db read result stored.
  assert (Hquiet : forall s,
             chat_id (with_quiet_hours start_ end_ s) = chat_id s
             /\ last_reflection_at (with_quiet_hours start_ end_ s)
                = last_reflection_at s
             /\ reflections_paused_until (with_quiet_hours start_ end_ s)
                = reflections_paused_until s
             /\ last_nudge_at (with_quiet_hours start_ end_ s) = last_nudge_at s)
    by done.
  destruct (setter_read_back db chat sql (with_quiet_hours start_ end_) Hquiet)
    as [Hback Hframe].
  fold read in Hback, Hframe.
  subst stored result. unfold set_quiet_hours, _validate_hhmm.
  destruct (strptime_HM start_) as [a|] eqn:Ea.
  2:{ cbn [fst snd]. split; [by left | done]. }
  destruct (strptime_HM end_) as [b|] eqn:Eb.
  2:{ cbn [fst snd]. split; [by right | done]. }
  rewrite get_user_settings_pair. fold read. cbn [fst snd].
  assert (Hbounds : _quiet_bounds (with_quiet_hours start_ end_ read)
                    = Returned (a, b)).
  { unfold _quiet_bounds. simpl. by rewrite Ea, Eb. }
  rewrite Hback. repeat split; try done.
  - by exists a, b.
  - intros now. eexists.
    apply (compute_next_nudge_time_returns _ _ _ Hbounds).
Qed.

(** ** Handing a reminder to the queue *)

Section QueueFacts.

Lemma schedule_reminder_effect (env : Env)
    (chat message : str) (scheduled_time : datetime) (w : World) :
  let result := schedule_reminder env chat message scheduled_time w in
  fst result = broker_ok env
  /\ reminders (storage (snd result))
     = reminders (storage w) ++ [pending_row chat message scheduled_time]
  /\ user_settings (storage (snd result)) = user_settings (storage w)
  /\ companion_metrics (storage (snd result)) = companion_metrics (storage w)
  /\ (if broker_ok env
      then exists job : Job,
             broker_jobs (snd result) = broker_jobs w ++ [job]
             /\ job_chat_id job = chat
             /\ job_message job = message
             /\ scheduled_time - local_now env <= defer_by job
      else broker_jobs (snd result) = broker_jobs w).
Proof.
  intros result. subst result. unfold schedule_reminder, store_reminder.
  destruct (broker_ok env); cbn [fst snd storage broker_jobs reminders
                                   user_settings companion_metrics];
    repeat split; try done.
  eexists. split; [reflexivity |].
  cbn [job_chat_id job_message defer_by]. repeat split.
  destruct (scheduled_time - local_now env <? 500000) eqn:E; [| lia].
  apply Z.ltb_lt in E. unfold us_per_second. lia.
Qed.

Lemma next_nudge_time_far (settings : UserSettings) (now : datetime)
    (start_ end_ : time) :
  _quiet_bounds settings = Returned (start_, end_) ->
  exists target : datetime,
    _compute_next_nudge_time settings now = Returned target
    /\ timedelta 2 0 0 < target - now.
Proof.
  intros Hbounds.
  assert (Hok : time_ok end_) by by apply (quiet_bounds_ok _ _ _ Hbounds).
  pose proof (first_candidate_beyond_two_days settings now end_ Hok) as Hfar.
  eexists. split.
  { apply (nudge_time_advances_at_most_once settings now start_ end_ Hbounds). }
  destruct (_is_quiet_time _ _ _); [| lia].
  unfold timedelta, us_per_day, us_per_hour, us_per_minute, us_per_second in *.
  lia.
Qed.

End QueueFacts.

(** X16. [schedule_reminder] stores the reminder row first and keeps it
    whatever happens next: the row (not delivered) is appended to the
    reminders, settings and metrics are untouched, and the result says
    whether the broker took the job. When it did, exactly one job is
    appended to the queue, for the same chat id and message and with the id
    of the row just stored; it is deferred by the time left until the
    scheduled time on the local clock, and by one second when less than
    half a second is left, so the delay is never below half a second and a
    reminder for a time in the past is not dropped. When the broker fails
    the queue is unchanged. *)
Theorem schedule_reminder_stores_then_enqueues :
  forall (env : Env) (chat message : str) (scheduled_time : datetime)
         (w : World),
    let result := schedule_reminder env chat message scheduled_time w in
    let left := scheduled_time - local_now env in
    fst result = broker_ok env
    /\ reminders (storage (snd result))
       = reminders (storage w) ++ [pending_row chat message scheduled_time]
    /\ user_settings (storage (snd result)) = user_settings (storage w)
    /\ companion_metrics (storage (snd result)) = companion_metrics (storage w)
    /\ (if broker_ok env
        then exists job : Job,
               broker_jobs (snd result) = broker_jobs w ++ [job]
               /\ job_chat_id job = chat
               /\ job_message job = message
               /\ reminders (storage (snd result))
                    !! Z.to_nat (job_reminder_id job - 1)
                  = Some (pending_row chat message scheduled_time)
               /\ defer_by job
                  = (if left <? us_per_second / 2 then us_per_second else left)
               /\ us_per_second / 2 <= defer_by job
               /\ left <= defer_by job
        else broker_jobs (snd result) = broker_jobs w).
Proof.
  intros env chat message scheduled_time w result left. subst result.
  unfold schedule_reminder, store_reminder.
  destruct (broker_ok env); cbn [fst snd storage broker_jobs reminders
                                   user_settings companion_metrics];
    repeat split; try done.
  eexists. split; [reflexivity |].
  cbn [job_chat_id job_message job_reminder_id defer_by].
  repeat split.
  - replace (Z.to_nat (Z.of_nat (length (reminders (storage w))) + 1 - 1))
      with (length (reminders (storage w))) by lia.
    by rewrite list_lookup_middle.
  - fold left. change (us_per_second / 2) with 500000.
    destruct (left <? 500000) eqn:E; [done |]. apply Z.ltb_ge in E. lia.
  - fold left. destruct (left <? 500000) eqn:E.
    + apply Z.ltb_lt in E. unfold us_per_second. lia.
    + lia.
Qed.

(** ** A nudge that is scheduled *)

(** X17. Whenever [schedule_next_nudge] returns a timestamp, the
    timestamp is in the future. Either it is the stored last_nudge_at of a
    pending nudge and nothing has changed; or it is the newly computed
    nudge time, more than two days ahead: then one job is appended to the
    queue with the text "Spark: <spark> Reply stop to mute." for a non-empty
    spark of the bank, one reminder row for that text and time is appended,
    the stored settings are those read with last_nudge_at set to the
    timestamp, and the rows of other chat ids are untouched. *)
Theorem schedule_next_nudge_returns_future_time :
  forall (self : CompanionService) (env : Env) (chat : str) (w w1 : World)
         (t : datetime),
    schedule_next_nudge self env chat w = (Returned (Some t), w1) ->
    let settings := fst (get_user_settings (storage w) chat) in
    utcnow env < t
    /\ ((last_nudge_at settings = Some t /\ w1 = w)
        \/ (timedelta 2 0 0 < t - utcnow env
            /\ _compute_next_nudge_time settings (utcnow env) = Returned t
            /\ exists (spark : str) (job : Job),
                 _pick_spark self (choice_1 env) (choice_2 env) = Some spark
                 /\ truthy spark = true
                 /\ broker_jobs w1 = broker_jobs w ++ [job]
                 /\ job_chat_id job = chat
                 /\ job_message job = nudge_message spark
                 /\ t - local_now env <= defer_by job
                 /\ reminders (storage w1)
                    = reminders (storage w)
                      ++ [pending_row chat (nudge_message spark) t]
                 /\ fst (get_user_settings (storage w1) chat)
                    = with_last_nudge_at (Some t) settings
                 /\ (forall c : str, c <> chat ->
                       user_settings (storage w1) !! c
                       = user_settings (storage w) !! c))).
Proof.
  intros self env chat w w1 t Hcall settings.
  rewrite schedule_next_nudge_unfold in Hcall. cbv zeta in Hcall.
  fold settings in Hcall.
  destruct (negb (enabled self)
            || str_eqb (companion_level settings) (lit "off")
            || str_eqb (nudge_frequency settings) (lit "off")); [done |].
  destruct (in_future (last_nudge_at settings) (utcnow env)) eqn:Hfut.
  { injection Hcall as Hlast <-. rewrite Hlast in Hfut. simpl in Hfut.
    apply Z.gtb_lt in Hfut. split; [done |]. by left. }
  destruct (_compute_next_nudge_time settings (utcnow env))
    as [target| |] eqn:Htarget; try done.
  destruct (_pick_spark self (choice_1 env) (choice_2 env)) as [spark|] eqn:Hspark;
    [| done].
  destruct (truthy spark) eqn:Htruthy; cbn [negb] in Hcall; [| done].
  fold (nudge_message spark) in Hcall.
  unfold schedule_reminder_task in Hcall.
  pose proof (schedule_reminder_effect env chat
                (nudge_message spark) target w) as Heffect.
  cbv zeta in Heffect.
  destruct Heffect as (Hok & Hrem & Hset & _ & Hjobs).
  destruct (schedule_reminder env chat (nudge_message spark) target w)
    as [scheduled w'] eqn:Hsched.
  cbn [fst snd] in Hcall, Hok, Hrem, Hset, Hjobs.
  destruct scheduled; cbn [negb] in Hcall; [| done].
  injection Hcall as -> <-. rewrite <- Hok in Hjobs.
  destruct Hjobs as (job & Hqueue & Hjchat & Hjmsg & Hdefer).
  assert (Hfar : timedelta 2 0 0 < t - utcnow env).
  { unfold _compute_next_nudge_time in Htarget.
    destruct (_quiet_bounds settings) as [[a b]| |] eqn:Hb; try done.
    destruct (next_nudge_time_far settings (utcnow env) a b Hb)
      as (target & Hret & Hgt).
    unfold _compute_next_nudge_time in Hret. rewrite Hb in Hret.
    rewrite Hret in Htarget. by injection Htarget as <-. }
  split.
  { unfold timedelta, us_per_day, us_per_hour, us_per_minute, us_per_second
      in Hfar. lia. }
  right. split; [done |]. split; [done |].
  exists spark, job. cbn [storage broker_jobs].
  assert (Hchat : chat_id (with_last_nudge_at (Some t) settings) = chat)
    by apply get_user_settings_chat_id.
  repeat split; try done.
  - rewrite <- Hchat at 1. rewrite get_after_upsert_full.
    apply as_stored_fixed.
    cbn [last_reflection_at reflections_paused_until last_nudge_at
           with_last_nudge_at].
    destruct (proj1 (as_stored_fixed settings) (as_stored_read _ _))
      as (H1 & H2 & _).
    repeat split; try done.
    apply whole_seconds_kept.
    by apply (compute_next_nudge_time_whole_seconds settings (utcnow env)).
  - intros c Hne. unfold upsert_user_settings. cbn [user_settings].
    rewrite lookup_insert_ne by (rewrite Hchat; done). by rewrite Hset.
Qed.

Lemma schedule_next_nudge_returns_future_time_witness :
  let w := world_with (default_settings (lit "42")) in
  let result := schedule_next_nudge sample_service (env_at sample_now) (lit "42") w in
  fst result = Returned (Some 63929980800000000)
  /\ sample_now < 63929980800000000
  /\ length (broker_jobs (snd result)) = 1%nat
  /\ last_nudge_at (fst (get_user_settings (storage (snd result)) (lit "42")))
     = Some 63929980800000000.
Proof.
  intros w result.
  assert (Hcall : result = (Returned (Some 63929980800000000), snd result))
    by (vm_compute; reflexivity).
  destruct (schedule_next_nudge_returns_future_time sample_service
              (env_at sample_now) (lit "42") w (snd result)
              63929980800000000 Hcall) as (Hfuture & [[Hpending _] | Hnew]).
  - vm_compute in Hpending. discriminate Hpending.
  - destruct Hnew as (_ & _ & spark & job & _ & _ & Hjobs & _ & _ & _ & _
                      & Hstored & _).
    split; [rewrite Hcall; reflexivity |]. split; [exact Hfuture |].
    split; [rewrite Hjobs; reflexivity |].
    rewrite Hstored. reflexivity.
Defined.

(** ** Picking a spark *)

Section SparkFacts.

Lemma choice_some {A : Type} (draw : nat) (seq : list A) :
  seq <> [] -> exists x, choice draw seq = Some x /\ x ∈ seq.
Proof.
  intros Hne. unfold choice.
  assert (Hlt : (draw mod length seq < length seq)%nat).
  { apply Nat.mod_upper_bound. by destruct seq. }
  destruct (lookup_lt_is_Some_2 _ _ Hlt) as [x Hx].
  exists x. split; [done |]. by apply list_elem_of_lookup_2 in Hx.
Qed.

Lemma choice_nil {A : Type} (draw : nat) : choice draw (@nil A) = None.
Proof. done. Qed.

(** The spark comes from the list of the topic drawn. *)
Lemma pick_spark_drawn (self : CompanionService) (draw_1 draw_2 : nat) :
  match drawn_topic self draw_1 with
  | None => sparks self = ∅ /\ _pick_spark self draw_1 draw_2 = None
  | Some topic =>
      exists candidates : list str,
        sparks self !! topic = Some candidates
        /\ _pick_spark self draw_1 draw_2 = choice draw_2 candidates
  end.
Proof.
  unfold drawn_topic, _pick_spark.
  destruct ((map_to_list (sparks self)).*1) as [|k keys] eqn:Hkeys.
  - rewrite choice_nil. split; [| done].
    apply fmap_nil_inv in Hkeys. by apply map_to_list_empty_iff.
  - destruct (choice_some draw_1 (k :: keys)) as (topic & Hc & Hin);
      [done |].
    rewrite Hc. rewrite <- Hkeys in Hin.
    apply list_elem_of_fmap in Hin as ([topic' candidates] & -> & Hin).
    apply elem_of_map_to_list in Hin. simpl.
    exists candidates. split; [done |]. simpl in Hin. rewrite Hin.
    simpl. by destruct candidates.
Qed.

End SparkFacts.

(** X18. [_pick_spark] draws a topic among the keys of the bank and then a
    spark from the list of that topic: with no topic in the bank it returns
    None; otherwise the result is the element of the drawn topic's list at
    the position of the second draw, so it is None exactly when the list of
    the topic drawn is empty, and a spark that is returned stands in the
    list of the topic drawn. Hence a bank that has a topic and no empty
    list always yields a spark. *)
Theorem pick_spark_from_bank :
  forall (self : CompanionService) (draw_1 draw_2 : nat),
    match drawn_topic self draw_1 with
    | None => sparks self = ∅ /\ _pick_spark self draw_1 draw_2 = None
    | Some topic =>
        exists candidates : list str,
          sparks self !! topic = Some candidates
          /\ _pick_spark self draw_1 draw_2
             = candidates !! (draw_2 mod length candidates)%nat
          /\ match _pick_spark self draw_1 draw_2 with
             | Some spark => spark ∈ candidates
             | None => candidates = []
             end
    end
    /\ (drawn_topic self draw_1 = None <-> sparks self = ∅)
    /\ (sparks self <> ∅ ->
        (forall topic : str, sparks self !! topic <> Some []) ->
        is_Some (_pick_spark self draw_1 draw_2)).
Proof.
  intros self draw_1 draw_2.
  pose proof (pick_spark_drawn self draw_1 draw_2) as Hdrawn.
  destruct (drawn_topic self draw_1) as [topic|] eqn:Htopic.
  - destruct Hdrawn as (candidates & Hlook & Hpick).
    assert (Hcases : match _pick_spark self draw_1 draw_2 with
                     | Some spark => spark ∈ candidates
                     | None => candidates = []
                     end).
    { rewrite Hpick. destruct candidates as [|c candidates]; [done |].
      destruct (choice_some draw_2 (c :: candidates)) as (x & Hx & Hin);
        [done |].
      by rewrite Hx. }
    split; [by exists candidates |]. split.
    + split; [done |]. intros Hempty. rewrite Hempty in Hlook.
      by rewrite lookup_empty in Hlook.
    + intros _ Hfull.
      destruct (_pick_spark self draw_1 draw_2) as [spark|]; [by eexists |].
      subst candidates. by destruct (Hfull topic).
  - destruct Hdrawn as [Hempty Hnone].
    split; [done |]. split; [done |]. intros Hne. done.
Qed.

(** ** The quiet window and its bounds *)

Section QuietWindowFacts.

Lemma time_cmp_antisym (a b : time) : time_cmp b a = CompOpp (time_cmp a b).
Proof.
  unfold time_cmp.
  rewrite (Z.compare_antisym (hour a) (hour b)),
    (Z.compare_antisym (minute a) (minute b)),
    (Z.compare_antisym (second a) (second b)),
    (Z.compare_antisym (microsecond a) (microsecond b)).
  destruct (hour a ?= hour b); simpl; try done.
  destruct (minute a ?= minute b); simpl; try done.
  destruct (second a ?= second b); simpl; done.
Qed.

Lemma time_cmp_eq (a b : time) : time_cmp a b = Eq -> a = b.
Proof.
  destruct a as [h m s u], b as [h' m' s' u']. unfold time_cmp. simpl.
  destruct (Z.compare_spec h h'); try done.
  destruct (Z.compare_spec m m'); try done.
  destruct (Z.compare_spec s s'); try done.
  intros Hu%Z.compare_eq. by subst.
Qed.

Lemma time_le_ge (a b : time) : time_le a b = time_ge b a.
Proof.
  unfold time_le, time_ge. rewrite (time_cmp_antisym a b).
  by destruct (time_cmp a b).
Qed.

End QuietWindowFacts.

(** X19. The quiet window is half open and swapping its bounds gives the
    rest of the day: for two different bounds a time of day is quiet
    between [a] and [b] exactly when it is not quiet between [b] and [a],
    the start of the window is quiet and its end is not; for equal bounds
    every time is quiet. *)
Theorem quiet_window_swapped_bounds :
  forall t a b : time,
    match time_cmp a b with
    | Eq => _is_quiet_time t a b = true
    | _ =>
        _is_quiet_time t a b = negb (_is_quiet_time t b a)
        /\ _is_quiet_time a a b = true
        /\ _is_quiet_time b a b = false
    end.
Proof.
  intros t a b.
  destruct (time_cmp a b) eqn:Hab.
  - apply time_cmp_eq in Hab as <-. unfold _is_quiet_time.
    rewrite time_lt_irrefl. apply time_ge_or_lt.
  - unfold _is_quiet_time. rewrite !time_le_ge, !time_ge_not_lt.
    rewrite !time_lt_irrefl.
    assert (Hlt : time_lt a b = true) by (unfold time_lt; by rewrite Hab).
    assert (Hgt : time_lt b a = false).
    { unfold time_lt. rewrite (time_cmp_antisym a b), Hab. done. }
    rewrite Hlt, Hgt. simpl.
    repeat split. by destruct (time_lt t a), (time_lt t b).
  - unfold _is_quiet_time. rewrite !time_le_ge, !time_ge_not_lt.
    rewrite !time_lt_irrefl.
    assert (Hlt : time_lt a b = false) by (unfold time_lt; by rewrite Hab).
    assert (Hgt : time_lt b a = true).
    { unfold time_lt. rewrite (time_cmp_antisym a b), Hab. done. }
    rewrite Hlt, Hgt. simpl.
    repeat split; by destruct (time_lt t a), (time_lt t b).
Qed.

(** ** The brain and its history *)

Section BrainFacts.

Lemma update_user_context_same (self : BrainTables) (chat content : str)
    (reason : option str) :
  strip (read_user_context self chat) = strip content ->
  update_user_context self chat content reason = self.
Proof.
  intros H. unfold update_user_context, read_user_context in *.
  by rewrite H, str_eqb_refl.
Qed.

Lemma update_user_context_changed (self : BrainTables) (chat content : str)
    (reason : option str) :
  strip (read_user_context self chat) <> strip content ->
  update_user_context self chat content reason
  = {| brain := <[chat := content]> (brain self);
       brain_history :=
         brain_history self
         ++ (if truthy (read_user_context self chat)
             then [ {| hrow_chat_id := chat;
                       hrow_content := read_user_context self chat;
                       hrow_reason := reason_or_default reason |} ]
             else []) |}.
Proof.
  intros H. unfold update_user_context, read_user_context in *.
  apply str_eqb_neq in H. rewrite H. cbn [negb].
  destruct (truthy (default [] (brain self !! chat))); [done |].
  by rewrite app_nil_r.
Qed.

Lemma read_after_update (self : BrainTables) (chat content : str)
    (reason : option str) :
  strip (read_user_context (update_user_context self chat content reason) chat)
  = strip content.
Proof.
  destruct (decide (strip (read_user_context self chat) = strip content))
    as [Heq | Hne].
  - by rewrite update_user_context_same.
  - rewrite update_user_context_changed by done.
    unfold read_user_context. simpl. by rewrite lookup_insert_eq.
Qed.

End BrainFacts.

(** X20. [update_user_context] versions the brain. When the new content
    differs from the stored one by more than surrounding white space, it
    becomes the content read, and the content it replaces, unless that is
    empty, is appended to the history of the chat id with the reason given
    (or the default reason); otherwise nothing changes at all, so a
    change of surrounding white space only is not stored. In both cases the
    content read afterwards equals the new content up to surrounding white
    space, a second identical update changes nothing, the history only
    grows, by at most one row, and the content of other chat ids is
    untouched. *)
Theorem update_user_context_versions_the_brain :
  forall (self : BrainTables) (chat content : str) (reason reason' : option str),
    let old := read_user_context self chat in
    let self' := update_user_context self chat content reason in
    strip (read_user_context self' chat) = strip content
    /\ (strip old = strip content -> self' = self)
    /\ (strip old <> strip content ->
        read_user_context self' chat = content
        /\ brain_history self'
           = brain_history self
             ++ (if truthy old
                 then [ {| hrow_chat_id := chat; hrow_content := old;
                           hrow_reason := reason_or_default reason |} ]
                 else []))
    /\ update_user_context self' chat content reason' = self'
    /\ (exists added : list HistoryRow,
          brain_history self' = brain_history self ++ added
          /\ (length added <= 1)%nat
          /\ Forall (fun row => hrow_chat_id row = chat
                                /\ hrow_content row = old
                                /\ truthy (hrow_content row) = true) added)
    /\ (forall c : str, c <> chat ->
          read_user_context self' c = read_user_context self c).
Proof.
  intros self chat content reason reason' old self'.
  split; [apply read_after_update |].
  split; [by apply update_user_context_same |].
  split.
  { intros Hne. subst self'. rewrite update_user_context_changed by done.
    split; [| done]. unfold read_user_context. simpl.
    by rewrite lookup_insert_eq. }
  split.
  { apply update_user_context_same, read_after_update. }
  destruct (decide (strip old = strip content)) as [Heq | Hne].
  - subst self'. rewrite update_user_context_same by done.
    split; [| done]. exists []. rewrite app_nil_r.
    split; [done |]. split; [simpl; lia | constructor].
  - subst self'. rewrite update_user_context_changed by done.
    cbn [brain_history]. fold old. split.
    + eexists. split; [reflexivity |].
      destruct (truthy old) eqn:Hold; simpl.
      * split; [lia |]. constructor; [| constructor]. done.
      * split; [lia | constructor].
    + intros c Hc. unfold read_user_context. simpl.
      by rewrite lookup_insert_ne.
Qed.

Section BrainHistoryFacts.

Lemma update_user_context_history (self : BrainTables) (chat content : str)
    (reason : option str) :
  exists added : list HistoryRow,
    brain_history (update_user_context self chat content reason)
    = brain_history self ++ added
    /\ (length added <= 1)%nat
    /\ Forall (fun row => hrow_chat_id row = chat
                          /\ truthy (hrow_content row) = true) added.
Proof.
  destruct (decide (strip (read_user_context self chat) = strip content))
    as [Heq | Hne].
  - rewrite update_user_context_same by done. exists [].
    rewrite app_nil_r. split; [done |]. split; [simpl; lia | constructor].
  - rewrite update_user_context_changed by done. cbn [brain_history].
    eexists. split; [reflexivity |].
    destruct (truthy (read_user_context self chat)) eqn:Hold; simpl.
    + split; [lia |]. constructor; [| constructor]. done.
    + split; [lia | constructor].
Qed.

Lemma update_user_context_other (self : BrainTables) (chat content : str)
    (reason : option str) (c : str) :
  c <> chat ->
  read_user_context (update_user_context self chat content reason) c
  = read_user_context self c.
Proof.
  intros Hc.
  destruct (decide (strip (read_user_context self chat) = strip content))
    as [Heq | Hne].
  - by rewrite update_user_context_same.
  - rewrite update_user_context_changed by done.
    unfold read_user_context. simpl. by rewrite lookup_insert_ne.
Qed.

Lemma run_updates_history (chat : str) (updates : list (str * option str))
    (self : BrainTables) :
  exists added : list HistoryRow,
    brain_history (run_updates chat updates self) = brain_history self ++ added
    /\ (length added <= length updates)%nat
    /\ Forall (fun row => hrow_chat_id row = chat
                          /\ truthy (hrow_content row) = true) added.
Proof.
  revert self. induction updates as [|u updates IH]; intros self.
  - exists []. rewrite app_nil_r. split; [done |].
    split; [simpl; lia | constructor].
  - change (run_updates chat (u :: updates) self)
      with (run_updates chat updates
              (update_user_context self chat (fst u) (snd u))).
    destruct (IH (update_user_context self chat (fst u) (snd u)))
      as (later & Hlater & Hlen & Hrows).
    destruct (update_user_context_history self chat (fst u) (snd u))
      as (first & Hfirst & Hlen1 & Hrows1).
    exists (first ++ later). rewrite Hlater, Hfirst, <- app_assoc.
    split; [done |]. split.
    + rewrite length_app. simpl. lia.
    + by apply Forall_app.
Qed.

Lemma run_updates_other (chat : str) (updates : list (str * option str))
    (self : BrainTables) (c : str) :
  c <> chat ->
  read_user_context (run_updates chat updates self) c
  = read_user_context self c.
Proof.
  intros Hc. revert self. induction updates as [|u updates IH]; intros self.
  - done.
  - change (run_updates chat (u :: updates) self)
      with (run_updates chat updates
              (update_user_context self chat (fst u) (snd u))).
    rewrite IH. by apply update_user_context_other.
Qed.

End BrainHistoryFacts.

(** X21. Over any sequence of updates of one chat id the history of the
    brain is append-only: the rows it had stay in place, at most one row
    per update is added, and every added row belongs to the chat id and
    holds a non-empty content. The content read at the end equals that of
    the last update up to surrounding white space, and the content of other
    chat ids is what it was. *)
Theorem brain_history_is_append_only :
  forall (chat : str) (updates : list (str * option str)) (self : BrainTables),
    let self' := run_updates chat updates self in
    (exists added : list HistoryRow,
        brain_history self' = brain_history self ++ added
        /\ (length added <= length updates)%nat
        /\ Forall (fun row => hrow_chat_id row = chat
                              /\ truthy (hrow_content row) = true) added)
    /\ match last updates with
       | Some u => strip (read_user_context self' chat) = strip (fst u)
       | None => self' = self
       end
    /\ (forall c : str, c <> chat ->
          read_user_context self' c = read_user_context self c).
Proof.
  intros chat updates self self'. split; [apply run_updates_history |].
  split; [| intros c Hc; by apply run_updates_other].
  subst self'. destruct updates as [|u updates] using rev_ind; [done |].
  rewrite last_snoc. unfold run_updates. rewrite foldl_app. cbn [foldl].
  apply read_after_update.
Qed.

(** ** Delivering a reminder *)

(** X22. [mark_reminder_delivered] sets the delivered flag of the row with
    the given id and nothing else: every row keeps its place, chat id,
    message and time, rows with another id keep their flag, an id without a
    row changes nothing, settings and metrics are untouched, and marking
    twice is marking once. The id that [schedule_reminder] hands to the
    queue is the id of the row it has stored: marking it delivered flags
    exactly that row. *)
Theorem mark_reminder_delivered_flags_one_row :
  forall (self : Storage) (reminder_id : Z) (env : Env) (chat message : str)
         (scheduled_time : datetime) (w : World),
    let self' := mark_reminder_delivered self reminder_id in
    let result := schedule_reminder env chat message scheduled_time w in
    (forall (i : nat) (row : ReminderRow),
        reminders self !! i = Some row ->
        reminders self' !! i
        = Some {| rrow_chat_id := rrow_chat_id row;
                  rrow_message := rrow_message row;
                  rrow_scheduled_time := rrow_scheduled_time row;
                  rrow_delivered :=
                    if Z.of_nat i + 1 =? reminder_id
                    then true else rrow_delivered row |})
    /\ length (reminders self') = length (reminders self)
    /\ (reminder_id < 1 \/ Z.of_nat (length (reminders self)) < reminder_id ->
        self' = self)
    /\ user_settings self' = user_settings self
    /\ companion_metrics self' = companion_metrics self
    /\ mark_reminder_delivered self' reminder_id = self'
    /\ (if broker_ok env
        then exists job : Job,
               broker_jobs (snd result) = broker_jobs w ++ [job]
               /\ reminders (mark_reminder_delivered (storage (snd result))
                               (job_reminder_id job))
                  = reminders (storage w)
                    ++ [ {| rrow_chat_id := chat; rrow_message := message;
                            rrow_scheduled_time := scheduled_time;
                            rrow_delivered := true |} ]
        else broker_jobs (snd result) = broker_jobs w).
Proof.
  intros self reminder_id env chat message scheduled_time w self' result.
  subst self' result. unfold mark_reminder_delivered.
  cbn [reminders user_settings companion_metrics].
  split.
  { intros i row Hrow. destruct (1 <=? reminder_id) eqn:Hid.
    - apply Z.leb_le in Hid.
      destruct (decide (i = Z.to_nat (reminder_id - 1))) as [-> | Hne].
      + rewrite list_lookup_alter_eq, Hrow. simpl.
        replace (Z.of_nat (Z.to_nat (reminder_id - 1)) + 1 =? reminder_id)
          with true by (symmetry; apply Z.eqb_eq; lia).
        done.
      + rewrite list_lookup_alter_ne by congruence. rewrite Hrow.
        replace (Z.of_nat i + 1 =? reminder_id) with false
          by (symmetry; apply Z.eqb_neq; lia).
        by destruct row.
    - apply Z.leb_gt in Hid. rewrite Hrow.
      replace (Z.of_nat i + 1 =? reminder_id) with false
        by (symmetry; apply Z.eqb_neq; lia).
      by destruct row. }
  split.
  { destruct (1 <=? reminder_id); [apply length_alter | done]. }
  split.
  { intros Hout. destruct self as [settings metrics rows]. simpl in *.
    f_equal. destruct (1 <=? reminder_id) eqn:Hid; [| done].
    apply Z.leb_le in Hid. apply list_eq. intros i.
    destruct (decide (i = Z.to_nat (reminder_id - 1))) as [-> | Hne].
    - rewrite list_lookup_alter_eq.
      rewrite (lookup_ge_None_2 rows) by lia. done.
    - rewrite list_lookup_alter_ne by congruence. done. }
  split; [done |]. split; [done |]. split.
  { f_equal. destruct (1 <=? reminder_id); [| done].
    apply list_eq. intros i.
    destruct (decide (i = Z.to_nat (reminder_id - 1))) as [-> | Hne].
    - rewrite !list_lookup_alter_eq.
      by destruct (reminders self !! Z.to_nat (reminder_id - 1)).
    - rewrite !list_lookup_alter_ne by congruence. done. }
  unfold schedule_reminder, store_reminder.
  destruct (broker_ok env); cbn [fst snd storage broker_jobs reminders];
    [| done].
  eexists. split; [reflexivity |]. cbn [job_reminder_id].
  replace (1 <=? Z.of_nat (length (reminders (storage w))) + 1) with true
    by (symmetry; apply Z.leb_le; lia).
  replace (Z.to_nat (Z.of_nat (length (reminders (storage w))) + 1 - 1))
    with (length (reminders (storage w)) + 0)%nat by lia.
  by rewrite alter_app_r.
Qed.

(** ** Validation of incoming text *)

(** X23. [validate_input] accepts a text exactly when it is not blank,
    has at most MAX_MESSAGE_LENGTH characters and its lower-cased form
    contains none of the four suspicious patterns. The patterns are looked
    for as substrings and without regard to case: a text in which one of
    them occurs anywhere, in any capitalisation and whatever surrounds it,
    is rejected. *)
Theorem validate_input_rejects_patterns_anywhere :
  forall (max_message_length : Z) (text : str),
    (validate_input max_message_length text = true
     <-> strip text <> []
         /\ len text <= max_message_length
         /\ Forall (fun pattern => contains (lower text) pattern = false)
              SUSPICIOUS_PATTERNS)
    /\ (forall before word after : str,
          text = before ++ word ++ after ->
          In (lower word) SUSPICIOUS_PATTERNS ->
          validate_input max_message_length text = false).
Proof.
  intros max_message_length text.
  assert (Hiff : validate_input max_message_length text = true
                 <-> strip text <> []
                     /\ len text <= max_message_length
                     /\ Forall (fun pattern =>
                                  contains (lower text) pattern = false)
                          SUSPICIOUS_PATTERNS).
  { unfold validate_input.
    assert (Hblank : truthy (strip text) = true -> truthy text = true).
    { destruct text; [done | done]. }
    destruct (truthy (strip text)) eqn:Hstrip.
    2:{ rewrite orb_true_r. split; [done |]. intros (Hne & _).
        by destruct (strip text). }
    rewrite (Hblank eq_refl). cbn [negb orb].
    destruct (len text >? max_message_length) eqn:Hlen.
    { apply Z.gtb_lt in Hlen. split; [done |]. intros (_ & Hle & _). lia. }
    assert (Hle : len text <= max_message_length).
    { destruct (Z.gtb_spec (len text) max_message_length); [done | lia]. }
    destruct (existsb (contains (lower text)) SUSPICIOUS_PATTERNS) eqn:Hex.
    - split; [done |]. intros (_ & _ & Hall).
      apply existsb_exists in Hex as (pattern & Hin & Hc).
      rewrite List.Forall_forall in Hall. rewrite (Hall _ Hin) in Hc. done.
    - split; [| done]. intros _. split; [by destruct (strip text) |].
      split; [done |]. apply List.Forall_forall. intros pattern Hin.
      destruct (contains (lower text) pattern) eqn:Hc; [| done].
      assert (Hsome : existsb (contains (lower text)) SUSPICIOUS_PATTERNS = true)
        by (apply existsb_exists; eauto).
      congruence. }
  split; [done |].
  intros before word after -> Hin.
  apply not_true_is_false. intros Hv.
  apply Hiff in Hv as (_ & _ & Hall).
  rewrite List.Forall_forall in Hall. specialize (Hall _ Hin).
  unfold lower in Hall. rewrite !map_app in Hall.
  by rewrite contains_app in Hall.
Qed.

(** ** Chunks for the semantic memory *)

Section ChunkFacts.

Lemma visible_app (a b : str) : visible (a ++ b) = visible a ++ visible b.
Proof. apply List.filter_app. Qed.

Lemma visible_space (w : str) : forallb isspace w = true -> visible w = [].
Proof.
  induction w as [|c w IH]; [done |]. simpl.
  intros [Hc Hw]%andb_true_iff. rewrite Hc. simpl. by apply IH.
Qed.

Lemma lstrip_space_app (p : ascii -> bool) (w s : str) :
  forallb p w = true -> lstrip_by p (w ++ s) = lstrip_by p s.
Proof.
  induction w as [|c w IH]; [done |]. simpl.
  intros [Hc Hw]%andb_true_iff. rewrite Hc. by apply IH.
Qed.

Lemma lstrip_head (p : ascii -> bool) (s : str) (c : ascii) (r : str) :
  lstrip_by p s = c :: r -> p c = false.
Proof.
  induction s as [|x s IH]; [done |]. simpl.
  destruct (p x) eqn:Hx; [done |]. by intros [= <- _].
Qed.

Lemma forallb_rev (p : ascii -> bool) (w : str) :
  forallb p w = true -> forallb p (rev w) = true.
Proof.
  rewrite !forallb_forall. intros H x Hx. apply H. by apply in_rev.
Qed.

Lemma rstrip_app_space (p : ascii -> bool) (s w : str) :
  forallb p w = true -> rstrip_by p (s ++ w) = rstrip_by p s.
Proof.
  intros Hw. unfold rstrip_by. rewrite rev_app_distr.
  by rewrite lstrip_space_app by by apply forallb_rev.
Qed.

Lemma strip_space_app (w s : str) :
  forallb isspace w = true -> strip (w ++ s) = strip s.
Proof.
  intros Hw. unfold strip, strip_by. by rewrite lstrip_space_app.
Qed.

Lemma strip_app_space (s w : str) :
  forallb isspace w = true -> strip (s ++ w) = strip s.
Proof.
  intros Hw. unfold strip, strip_by.
  destruct (lstrip_by_decomp isspace s) as (a & Ha & Hspace).
  rewrite Ha at 1. rewrite <- app_assoc, lstrip_space_app by done.
  destruct (lstrip_by isspace s) as [|c r] eqn:Hl.
  - simpl. rewrite <- (app_nil_r w), lstrip_space_app by done. done.
  - pose proof (lstrip_head _ _ _ _ Hl) as Hc. simpl. rewrite Hc.
    by apply (rstrip_app_space isspace (c :: r) w).
Qed.

Lemma strip_decomp (s : str) :
  exists w1 w2 : str,
    s = w1 ++ strip s ++ w2
    /\ forallb isspace w1 = true /\ forallb isspace w2 = true.
Proof.
  destruct (lstrip_by_decomp isspace s) as (w1 & H1 & Hw1).
  destruct (rstrip_by_decomp isspace (lstrip_by isspace s)) as (w2 & H2 & Hw2).
  exists w1, w2. split; [| done]. unfold strip, strip_by.
  by rewrite <- H2.
Qed.

Lemma visible_strip (s : str) : visible (strip s) = visible s.
Proof.
  destruct (strip_decomp s) as (w1 & w2 & Hs & H1 & H2).
  rewrite Hs at 2. rewrite !visible_app, (visible_space w1), (visible_space w2)
    by done.
  by rewrite app_nil_r.
Qed.

Lemma len_strip (s : str) : len (strip s) <= len s.
Proof.
  destruct (strip_decomp s) as (w1 & w2 & Hs & _).
  unfold len. rewrite Hs at 2. rewrite !length_app. lia.
Qed.

Lemma strip_idempotent (s : str) : strip (strip s) = strip s.
Proof.
  destruct (strip_decomp s) as (w1 & w2 & Hs & H1 & H2).
  symmetry. rewrite Hs at 1.
  by rewrite strip_space_app, strip_app_space.
Qed.

Lemma visible_blank (s : str) : truthy (strip s) = false -> visible s = [].
Proof.
  intros H. rewrite <- visible_strip. by destruct (strip s).
Qed.

Lemma blank_line_is_space : forallb isspace [newline; newline] = true.
Proof. reflexivity. Qed.

Lemma split_blank_line_step (cur : str) (c c' : ascii) (rest : str) :
  split_blank_line cur (c :: c' :: rest)
  = if Ascii.eqb c newline && Ascii.eqb c' newline
    then cur :: split_blank_line [] rest
    else split_blank_line (cur ++ [c]) (c' :: rest).
Proof. reflexivity. Qed.

(** The paragraphs carry the visible characters of the content. *)
Lemma split_blank_line_visible (n : nat) (s cur : str) :
  (length s <= n)%nat ->
  visible (concat (split_blank_line cur s)) = visible (cur ++ s).
Proof.
  revert s cur. induction n as [|n IH]; intros s cur Hn.
  - destruct s; [| simpl in Hn; lia]. simpl. by rewrite !app_nil_r.
  - destruct s as [|c [|c' rest']].
    + simpl. by rewrite !app_nil_r.
    + simpl. by rewrite !app_nil_r.
    + rewrite split_blank_line_step.
      destruct (Ascii.eqb c newline && Ascii.eqb c' newline) eqn:Hsep.
      * apply andb_true_iff in Hsep as [->%Ascii.eqb_eq ->%Ascii.eqb_eq].
        cbn [concat]. rewrite visible_app, IH by (simpl in Hn; lia).
        rewrite app_nil_l.
        change (newline :: newline :: rest')
          with ([newline; newline] ++ rest').
        rewrite !visible_app, (visible_space [newline; newline]) by done.
        done.
      * rewrite IH by (simpl in Hn |- *; lia). by rewrite <- app_assoc.
Qed.

Variable chunk_size : Z.
Variable paragraphs : list str.

Lemma close_chunk (chunks : list str) (current : str) :
  Forall (good_chunk chunk_size paragraphs) chunks ->
  open_chunk chunk_size paragraphs current ->
  Forall (good_chunk chunk_size paragraphs)
    (if truthy (strip current) then chunks ++ [strip current] else chunks).
Proof.
  intros Hchunks Hopen. destruct (truthy (strip current)) eqn:Ht; [| done].
  apply Forall_app. split; [done |]. constructor; [| constructor].
  split; [done |]. split; [apply strip_idempotent |].
  destruct Hopen as [Hnil | [Hfit | Hpara]]; [by rewrite Hnil in Ht | by left |].
  by right.
Qed.

Lemma close_chunk_visible (chunks : list str) (current : str) :
  visible (concat (if truthy (strip current)
                   then chunks ++ [strip current] else chunks))
  = visible (concat chunks ++ current).
Proof.
  rewrite visible_app. destruct (truthy (strip current)) eqn:Ht.
  - rewrite concat_app, visible_app. simpl.
    by rewrite app_nil_r, visible_strip.
  - by rewrite (visible_blank current), app_nil_r.
Qed.

Lemma chunk_step_eq (chunks : list str) (current para : str) :
  chunk_step chunk_size (chunks, current) para
  = if len current + len para <=? chunk_size
    then (chunks, current ++ para ++ [newline; newline])
    else ((if truthy (strip current)
           then chunks ++ [strip current] else chunks),
          para ++ [newline; newline]).
Proof. reflexivity. Qed.

Lemma chunk_loop (ps chunks : list str) (current : str) :
  let state := foldl (chunk_step chunk_size) (chunks, current) ps in
  visible (concat (fst state) ++ snd state)
  = visible (concat chunks ++ current ++ concat ps)
  /\ (Forall (fun para => In para paragraphs) ps ->
      Forall (good_chunk chunk_size paragraphs) chunks ->
      open_chunk chunk_size paragraphs current ->
      Forall (good_chunk chunk_size paragraphs) (fst state)
      /\ open_chunk chunk_size paragraphs (snd state)).
Proof.
  cbv zeta.
  revert chunks current. induction ps as [|para ps IH]; intros chunks current.
  - simpl. by rewrite app_nil_r.
  - change (foldl (chunk_step chunk_size) (chunks, current) (para :: ps))
      with (foldl (chunk_step chunk_size)
              (chunk_step chunk_size (chunks, current) para) ps).
    rewrite chunk_step_eq.
    destruct (len current + len para <=? chunk_size) eqn:Hfit.
    + destruct (IH chunks (current ++ para ++ [newline; newline]))
        as [Hvis Hgood].
      split.
      * rewrite Hvis. cbn [concat].
        rewrite !visible_app, (visible_space [newline; newline]) by done.
        by rewrite app_nil_r, <- !app_assoc.
      * intros Hps Hchunks Hopen. apply Forall_cons in Hps as [Hpara Hps].
        apply Hgood; [done | done |]. right. left.
        apply Z.leb_le in Hfit.
        rewrite app_assoc, strip_app_space by done.
        pose proof (len_strip (current ++ para)) as Hlen.
        unfold len in *. rewrite length_app in Hlen. lia.
    + destruct (IH (if truthy (strip current)
                    then chunks ++ [strip current] else chunks)
                  (para ++ [newline; newline])) as [Hvis Hgood].
      split.
      * rewrite Hvis. cbn [concat].
        rewrite visible_app, close_chunk_visible.
        rewrite !visible_app, (visible_space [newline; newline]) by done.
        by rewrite app_nil_r, <- !app_assoc.
      * intros Hps Hchunks Hopen. apply Forall_cons in Hps as [Hpara Hps].
        apply Hgood; [done | by apply close_chunk |]. right. right.
        exists para. split; [done |]. by rewrite strip_app_space.
Qed.

End ChunkFacts.

(** X24. [_chunk_content] loses nothing and makes no blank chunk: the
    characters of the content that are not white space are those of the
    chunks, in the same order, and no chunk is blank. A content of at most
    [chunk_size] characters is one chunk, returned as it is, or no chunk
    when it is blank. For a longer content every chunk is free of
    surrounding white space and either has at most [chunk_size] characters
    or is one whole paragraph of the content: only a paragraph that is too
    long by itself makes a chunk above the size. *)
Theorem chunk_content_keeps_the_text :
  forall (content : str) (chunk_size : Z),
    let chunks := _chunk_content content chunk_size in
    visible (concat chunks) = visible content
    /\ Forall (fun chunk => truthy (strip chunk) = true) chunks
    /\ (len content <= chunk_size ->
        chunks = if truthy (strip content) then [content] else [])
    /\ (chunk_size < len content ->
        Forall (good_chunk chunk_size (split_blank_line [] content)) chunks).
Proof.
  intros content chunk_size chunks. subst chunks. unfold _chunk_content.
  destruct (len content <=? chunk_size) eqn:Hshort.
  { apply Z.leb_le in Hshort.
    destruct (truthy (strip content)) eqn:Hblank.
    - split; [simpl; by rewrite app_nil_r |].
      split; [by repeat constructor |]. split; [done | lia].
    - split; [simpl; by rewrite visible_blank |].
      split; [constructor |]. split; [done | lia]. }
  apply Z.leb_gt in Hshort. cbv zeta.
  destruct (chunk_loop chunk_size (split_blank_line [] content)
              (split_blank_line [] content) [] []) as [Hvis Hgood].
  cbv zeta in Hvis, Hgood.
  destruct (foldl (chunk_step chunk_size) ([], [])
              (split_blank_line [] content)) as [chunks current].
  cbn [fst snd] in Hvis, Hgood.
  destruct Hgood as [Hchunks Hopen].
  { apply List.Forall_forall. by intros para Hin. }
  { constructor. }
  { by left. }
  pose proof (close_chunk chunk_size _ chunks current Hchunks Hopen) as Hall.
  split.
  { rewrite close_chunk_visible, Hvis. simpl.
    by rewrite (split_blank_line_visible (length content)). }
  split.
  { eapply Forall_impl; [exact Hall |].
    intros chunk (Htruthy & Hstrip & _). by rewrite Hstrip. }
  split; [lia | done].
Qed.
